(** * NCVT-MIS dashboard scraper: a shallow embedding of the scrape core

    The development follows [py_scripts/scrape/scrape_category.py] (the
    trainee-by-category target), with the completeness checks of
    [scrape_districts.py] and [scrape_cits_certified.py], the worker of
    the instructor target ([scrape_cits_certified.py]) and the gathering
    of the districts ([py_scripts/misc/get_all_districts.py]).

    - Python values are modelled by inductive types, exceptions by the
      result type [res], and the mutable objects a worker touches (the
      browser session, the file system, the shared progress dictionary and
      its lock) by one record [World] threaded through a state-and-error
      monad [M].
    - The dashboard is an external collaborator: it is modelled by a
      script [nat -> Page] giving what the session answers at its k-th
      interaction, so that every deterministic behaviour of the page can be
      simulated.
    - The [while] loop of [extract_visible_rows] is a recursion on its
      retries.  The one of [scrape_data] ends only if the page lets it, so
      it takes a fuel argument; running out of fuel is the outcome
      [OutOfFuel], which no handler catches and after which no [finally]
      block runs. *)

From Stdlib Require Import ZArith Lia Ascii.
From stdpp Require Import base tactics option list strings pretty gmap fin_maps
  sorting.

Open Scope string_scope.
Open Scope list_scope.
Open Scope nat_scope.

(** ** Exceptions and results *)

(** The exception classes the scripts can meet.  The first five are
    selenium's; none of them derives from another one of this list, and all
    derive from [Exception]. *)
Inductive exn : Type :=
  | StaleElementReferenceException
  | ElementClickInterceptedException
  | ElementNotInteractableException
  | NoSuchElementException
  | TimeoutException
  | WebDriverException
  | IndexError
  | KeyError
  | TypeError
  | ValueError
  | AttributeError (msg : string)
  | Exception (msg : string).

#[global] Instance exn_eq_dec : EqDecision exn.
Proof. solve_decision. Defined.

(** Outcome of running a piece of Python: a value, a raised exception, or
    not finished within the fuel given to the loops. *)
Inductive res (A : Type) : Type :=
  | Ret (a : A)
  | Raise (e : exn)
  | OutOfFuel.
Arguments Ret {A} a.
Arguments Raise {A} e.
Arguments OutOfFuel {A}.

(** ** Values and data frames *)

(** A cell of a data frame: display text, an integer, the float written
    as a given decimal text, or the missing value pandas pads short rows
    with. *)
Inductive value : Type :=
  | VStr (s : string)
  | VInt (z : Z)
  | VFloat (literal : string)
  | VNone.

#[global] Instance value_eq_dec : EqDecision value.
Proof. solve_decision. Defined.

Record DataFrame : Type := mkDataFrame {
  columns : list value;
  rows : list (list value)
}.

#[global] Instance DataFrame_eq_dec : EqDecision DataFrame.
Proof. solve_decision. Defined.

(** [len(df)] *)
Definition len (df : DataFrame) : nat := length (rows df).

(** [df.empty]: some axis has length zero. *)
Definition empty (df : DataFrame) : bool :=
  bool_decide (rows df = []) || bool_decide (columns df = []).

(** Length of the longest row. *)
Definition width (data : list (list string)) : nat :=
  foldr (λ r w, length r `max` w) 0 data.

(** One row of text, padded with missing values up to [n] cells. *)
Definition pad (n : nat) (r : list string) : list value :=
  (VStr <$> r) ++ replicate (n - length r) VNone.

(** [pd.DataFrame(data, columns = cols)] on a list of lists (or [None]).
    No data gives the empty frame with the columns asked for; otherwise the
    longest row must have as many cells as there are columns, and shorter
    rows are padded. *)
Definition pd_DataFrame (data : option (list (list string)))
    (cols : list value) : res DataFrame :=
  match data with
  | None | Some [] => Ret (mkDataFrame cols [])
  | Some data =>
      if decide (width data = length cols)
      then Ret (mkDataFrame cols (pad (length cols) <$> data))
      else Raise ValueError
  end.

(** [drop_duplicates()]: keep the first occurrence of every row. *)
Fixpoint dedup_from {A} `{EqDecision A} (seen l : list A) : list A :=
  match l with
  | [] => []
  | x :: l' =>
      if decide (x ∈ seen) then dedup_from seen l'
      else x :: dedup_from (x :: seen) l'
  end.

Definition drop_duplicates (df : DataFrame) : DataFrame :=
  mkDataFrame (columns df) (dedup_from [] (rows df)).

(** [pd.concat([df, new_df], ignore_index = True)] for two frames over the
    same columns. *)
Definition concat (df new_df : DataFrame) : DataFrame :=
  mkDataFrame (columns df) (rows df ++ rows new_df).

(** [l[-k:]].  Python reads [-0] as [0], so [l[-0:]] is the whole of [l];
    a [k] beyond the length also gives the whole of [l]. *)
Definition last_rows {A} (k : nat) (l : list A) : list A :=
  match k with
  | 0 => l
  | _ => drop (length l - k) l
  end.

(** [df.iloc[-k:].reset_index(drop = True)] *)
Definition iloc_last (k : nat) (df : DataFrame) : DataFrame :=
  mkDataFrame (columns df) (last_rows k (rows df)).

(** [a.equals(b)] for frames with the default index. *)
Definition equals (a b : DataFrame) : bool := bool_decide (a = b).

(** [df[name] = v]: a new last column holding [v] in every row. *)
Definition set_column (name : string) (v : value) (df : DataFrame) : DataFrame :=
  mkDataFrame (columns df ++ [VStr name]) ((λ r, r ++ [v]) <$> rows df).

(** ** Markup elements *)

(** A parsed markup tree as BeautifulSoup builds it.  Attribute values are
    lists of tokens ([class] is multi-valued).  Two tags compare equal
    ([==]) when name, attributes and contents agree, which is Rocq's
    equality on [node]. *)
#[local] Unset Elimination Schemes.
Inductive node : Type :=
  | Text (s : string)
  | Tag (name : string) (attrs : gmap string (list string)) (contents : list node).
#[local] Set Elimination Schemes.

#[global] Instance node_eq_dec : EqDecision node.
Proof.
  refine (fix go (x y : node) {struct x} : Decision (x = y) :=
    match x, y with
    | Text s, Text t => cast_if (decide (s = t))
    | Tag n a c, Tag n' a' c' =>
        cast_if_and3 (decide (n = n')) (decide (a = a'))
          ((fix gos (l k : list node) {struct l} : Decision (l = k) :=
              match l, k with
              | [], [] => left _
              | x :: l, y :: k => cast_if_and (go x y) (gos l k)
              | _, _ => right _
              end) c c')
    | _, _ => right _
    end); clear go; try clear gos; congruence.
Defined.

(** A position inside a tree: the focused node and, innermost first, the
    tags around it, each with the siblings to the left and to the right of
    the path.  This is an element together with its [.parent] links. *)
Record frame : Type := mkFrame {
  f_name : string;
  f_attrs : gmap string (list string);
  f_left : list node;
  f_right : list node
}.

Record element : Type := mkElement {
  focus : node;
  above : list frame
}.

(** [n.name]: [None] for a text node. *)
Definition node_name (n : node) : option string :=
  match n with
  | Text _ => None
  | Tag name _ _ => Some name
  end.

(** The tag a frame stands for, once [child] is put back in its place. *)
Definition plug (f : frame) (child : node) : node :=
  Tag (f_name f) (f_attrs f) (f_left f ++ child :: f_right f).

(** ** The Locator Resolver: [get_xpath] *)

#[global] Instance res_ret : MRet res := @Ret.
#[global] Instance res_bind : MBind res := λ A B f m,
  match m with
  | Ret a => f a
  | Raise e => Raise e
  | OutOfFuel => OutOfFuel
  end.

(** [parent.find_all(name, recursive=False)]: the direct children that are
    tags called [name]. *)
Definition find_all_children (name : string) (contents : list node) : list node :=
  filter (λ n, node_name n = Some name) contents.

(** [l.index(x)]: position of the first item equal to [x]. *)
Definition index {A} `{EqDecision A} (x : A) (l : list A) : res nat :=
  match list_find (λ y, y = x) l with
  | Some (i, _) => Ret i
  | None => Raise ValueError
  end.

(** One step of the path: a tag name, with a position when
    [len(siblings) > 1]. *)
Inductive component : Type :=
  | Plain (name : string)
  | Indexed (name : string) (position : nat).

(** f"{name}[{position}]" or the bare name *)
Definition show_component (c : component) : string :=
  match c with
  | Plain name => name
  | Indexed name position => name +:+ "[" +:+ pretty position +:+ "]"
  end.

(** Body of the [for parent in child.parents] loop; [name] is
    [child.name] and [f] the frame of [parent] around [child]. *)
Definition step_component (name : string) (child : node) (f : frame) : res component :=
  let siblings := find_all_children name (f_left f ++ child :: f_right f) in
  if decide (1 < length siblings)
  then i ← index child siblings; mret (Indexed name (i + 1))
  else mret (Plain name).

(** The loop itself: [components], innermost first. *)
Fixpoint walk_parents (name : string) (child : node) (up : list frame)
    : res (list component) :=
  match up with
  | [] => mret []
  | f :: up' =>
      c ← step_component name child f;
      cs ← walk_parents (f_name f) (plug f child) up';
      mret (c :: cs)
  end.

(** [child = element if element.name else element.parent], then the loop.
    A text node without parent has no [.parents]. *)
Definition xpath_components (e : element) : res (list component) :=
  match focus e with
  | Tag name _ _ => walk_parents name (focus e) (above e)
  | Text _ =>
      match above e with
      | f :: up => walk_parents (f_name f) (plug f (focus e)) up
      | [] => Raise (AttributeError "'NoneType' object has no attribute 'parents'")
      end
  end.

(** ['/'.join(l)] *)
Fixpoint join (sep : string) (l : list string) : string :=
  match l with
  | [] => ""
  | [s] => s
  | s :: l' => s +:+ sep +:+ join sep l'
  end.

Definition get_xpath (element : option element) : res (option string) :=
  match element with
  | None => mret None
  | Some e =>
      components ← xpath_components e;
      mret (Some ("/" +:+ join "/" (show_component <$> reverse components)))
  end.

(** ** The world a worker acts on *)

(** A WorkUnit of the category target: (state, category, year). *)
Abbreviation Key := (string * string * Z)%type.

(** What the session answers at one interaction: the interaction raises
    [fault] if there is one; otherwise [grid] are the elements matching
    [div[role='row'][class*='row']], each with the text of its gridcells,
    [dropdown_menus] is what
    [soup.find_all(class_='slicer-dropdown-menu')] finds in the page
    source, and [cards] are the texts of the [svg] elements of class
    [card]. *)
Record Page : Type := mkPage {
  fault : option exn;
  grid : list (list string);
  dropdown_menus : list element;
  cards : list string
}.

(** What a worker leaves behind, in order.  Informational log lines are
    not recorded. *)
Inductive event : Type :=
  | LogWarning (msg : string)
  | LogError (e : exn)
  | Printed (msg : string)
  | Scraping                (* [scrape_data] was entered *)
  | Saved (path : string)   (* [to_csv] *)
  | Quit                    (* [driver.quit()] returned *)
  | Acquire                 (* [with lock:] entered *)
  | Release                 (* [with lock:] left *)
  | Increment (k : Key).    (* [progress[k] += 1] *)

#[global] Instance event_eq_dec : EqDecision event.
Proof. solve_decision. Defined.

Record World : Type := mkWorld {
  clock : nat;                    (* interactions made so far *)
  browser : nat → Page;           (* the page, interaction by interaction *)
  launch_fault : option exn;      (* raised by [webdriver.Chrome(...)] *)
  quit_fault : option exn;        (* raised by [driver.quit()] *)
  session : bool;                 (* the browser session is open *)
  folders : gset string;
  files : gmap string DataFrame;
  progress : gmap Key nat;
  trace : list event
}.

Definition set_clock (n : nat) (w : World) : World :=
  mkWorld n (browser w) (launch_fault w) (quit_fault w) (session w)
    (folders w) (files w) (progress w) (trace w).
Definition set_session (b : bool) (w : World) : World :=
  mkWorld (clock w) (browser w) (launch_fault w) (quit_fault w) b
    (folders w) (files w) (progress w) (trace w).
Definition set_folders (d : gset string) (w : World) : World :=
  mkWorld (clock w) (browser w) (launch_fault w) (quit_fault w) (session w)
    d (files w) (progress w) (trace w).
Definition set_files (fs : gmap string DataFrame) (w : World) : World :=
  mkWorld (clock w) (browser w) (launch_fault w) (quit_fault w) (session w)
    (folders w) fs (progress w) (trace w).
Definition set_progress (p : gmap Key nat) (w : World) : World :=
  mkWorld (clock w) (browser w) (launch_fault w) (quit_fault w) (session w)
    (folders w) (files w) p (trace w).
Definition set_trace (t : list event) (w : World) : World :=
  mkWorld (clock w) (browser w) (launch_fault w) (quit_fault w) (session w)
    (folders w) (files w) (progress w) t.

(** ** The monad of worker code *)

Definition M (A : Type) : Type := World → res A * World.

#[global] Instance M_ret : MRet M := λ A a w, (Ret a, w).
#[global] Instance M_bind : MBind M := λ A B f m w,
  match m w with
  | (Ret a, w') => f a w'
  | (Raise e, w') => (Raise e, w')
  | (OutOfFuel, w') => (OutOfFuel, w')
  end.

Definition raise {A} (e : exn) : M A := λ w, (Raise e, w).
Definition out_of_fuel {A} : M A := λ w, (OutOfFuel, w).
Definition lift {A} (r : res A) : M A := λ w, (r, w).

(** [try: body / except (classes) as e: handler], where [catches] tells
    whether [e] is an instance of one of the classes. *)
Definition try_except {A} (body : M A) (catches : exn → bool)
    (handler : exn → M A) : M A := λ w,
  match body w with
  | (Raise e, w') => if catches e then handler e w' else (Raise e, w')
  | r => r
  end.

(** [try: body / finally: cleanup].  The cleanup runs whether [body]
    returned or raised; what [body] raised is raised again after it, unless
    the cleanup itself raises. *)
Definition try_finally {A} (body : M A) (cleanup : M unit) : M A := λ w,
  match body w with
  | (Ret a, w') => (_ ← cleanup; mret a) w'
  | (Raise e, w') => (_ ← cleanup; raise e) w'
  | (OutOfFuel, w') => (OutOfFuel, w')
  end.

(** [except Exception]: every class of [exn]. *)
Definition any_Exception (e : exn) : bool := true.

Definition emit (e : event) : M unit := λ w,
  (Ret tt, set_trace (trace w ++ [e]) w).

(** One request to the session: the page answers, time moves on. *)
Definition interact : M Page := λ w,
  let p := browser w (clock w) in
  let w' := set_clock (S (clock w)) w in
  match fault p with
  | Some e => (Raise e, w')
  | None => (Ret p, w')
  end.

(** [with lock: print(...)] *)
Definition safe_print (msg : string) : M unit :=
  _ ← emit Acquire; _ ← emit (Printed msg); emit Release.

(** ** The Row Accumulator *)

(** The [while retries > 0] loop of [extract_visible_rows], by recursion on
    [retries].  A read keeps [cells[1:]] of every row and returns
    [extracted_data[1:]]; a stale read costs one retry; with no retry left
    the function falls off its end and returns [None]. *)
Fixpoint extract_attempts (retries : nat) : M (option (list (list string))) :=
  match retries with
  | 0 => mret None
  | S retries' =>
      try_except
        (p ← interact;
         let extracted_data := drop 1 <$> grid p in
         mret (Some (drop 1 extracted_data)))
        (λ e, bool_decide (e = StaleElementReferenceException))
        (λ _, extract_attempts retries')
  end.

Definition extract_visible_rows : M (option (list (list string))) :=
  extract_attempts 5.

(** The rows a read keeps of a page: the first cell of every row and the
    first row are dropped. *)
Definition visible_rows (p : Page) : list (list string) :=
  drop 1 (drop 1 <$> grid p).

Definition trainee_columns : list value :=
  VStr <$> ["Trainee Reg No"; "TraineeName"; "Gender"; "FatherGuardianName";
            "MotherName"; "Trade"].

(** [driver.find_elements(...)[-1].location_once_scrolled_into_view] *)
Definition scroll_to_last_row : M unit :=
  p ← interact;
  match grid p with
  | [] => raise IndexError
  | _ => mret tt
  end.

(** The [while retries > 0] loop of [scrape_data]. *)
Fixpoint scrape_loop (fuel retries : nat) (df : DataFrame) : M DataFrame :=
  match fuel with
  | 0 => out_of_fuel
  | S fuel' =>
      if decide (0 < retries) then
        new_rows ← extract_visible_rows;
        new_df ← lift (pd_DataFrame new_rows trainee_columns);
        let retries' :=
          if negb (empty df) && equals (iloc_last (len new_df) df) new_df
          then retries - 1
          else 5 in
        let df' := drop_duplicates (concat df new_df) in
        _ ← scroll_to_last_row;
        scrape_loop fuel' retries' df'
      else mret df
  end.

(** Whether [str(e)] contains the text the handler of [scrape_data] looks
    for. *)
Definition mentions_NoneType_name (e : exn) : bool :=
  match e with
  | AttributeError msg | Exception msg =>
      bool_decide (is_Some (String.index 0 "'NoneType' object has no attribute 'name'" msg))
  | _ => false
  end.

(** [scrape_data(driver)]: the frame, or [None] when anything was raised
    (the handler logs and falls off the end). *)
Definition scrape_data (fuel : nat) : M (option DataFrame) :=
  try_except
    (_ ← emit Scraping;
     df ← scrape_loop fuel 5 (mkDataFrame trainee_columns []);
     mret (Some df))
    any_Exception
    (λ e,
       _ ← (if mentions_NoneType_name e
            then emit (LogWarning "No rows to scrape.")
            else emit (LogError e));
       mret None).

(** ** The Filter Controller *)

(** [clear_filters(driver)]: wait for the button, click it; both handlers
    only print. *)
Definition clear_filters : M unit :=
  try_except
    (_ ← interact; _ ← interact; mret tt)
    any_Exception
    (λ e,
       if bool_decide (e = TimeoutException)
       then safe_print "Timeout while trying to click 'Clear All Filter' button."
       else safe_print "An error occurred while clearing filters").

(** [l[i]] *)
Definition getitem {A} (l : list A) (i : nat) : res A :=
  match l !! i with
  | Some x => Ret x
  | None => Raise IndexError
  end.

(** [d[k]] *)
Definition dict_get {V} (d : gmap string V) (k : string) : res V :=
  match d !! k with
  | Some v => Ret v
  | None => Raise KeyError
  end.

(** [initialize_dropdowns(driver)]: the page source is read once and the
    filters are the menus at positions 0, 1 and 11. *)
Definition initialize_dropdowns : M (gmap string (option string)) :=
  p ← interact;
  let menus := dropdown_menus p in
  state_name ← lift (m ← getitem menus 0; get_xpath (Some m));
  academic_session ← lift (m ← getitem menus 1; get_xpath (Some m));
  category ← lift (m ← getitem menus 11; get_xpath (Some m));
  mret (<["CATEGORY" := category]>
         (<["ACADEMIC_SESSION" := academic_session]>
           (<["STATE_NAME" := state_name]> ∅))).

(** Direct-select.  Five requests to the session, none of them guarded:
    wait for the dropdown, click it, wait for the option, click it, click
    the dropdown again. *)
Definition select_option_from_dropdown
    (dropdown_filters : gmap string (option string))
    (filter_name : string) (option_value : string) : M unit :=
  _ ← lift (dict_get dropdown_filters filter_name);
  _ ← interact;   (* WebDriverWait(...).until(element_to_be_clickable(dropdown)) *)
  _ ← interact;   (* dropdown.click() *)
  _ ← interact;   (* WebDriverWait(...).until(element_to_be_clickable(option)) *)
  _ ← interact;   (* .click() *)
  _ ← interact;   (* dropdown.click() *)
  mret tt.

(** The classes named by the [except] clause of [search_select_from_dropdown]. *)
Definition search_select_catches (e : exn) : bool :=
  bool_decide (e = ElementClickInterceptedException)
  || bool_decide (e = NoSuchElementException)
  || bool_decide (e = TimeoutException).

(** Search-select.  Six requests inside one [try]: wait for the dropdown,
    click it, send the keys, wait for the option, click it, click the
    dropdown again. *)
Definition search_select_from_dropdown
    (dropdown_filters : gmap string (option string))
    (filter_name : string) (filter_option : string) : M unit :=
  try_except
    (_ ← lift (dict_get dropdown_filters filter_name);
     _ ← interact;
     _ ← interact;
     _ ← interact;
     _ ← interact;
     _ ← interact;
     _ ← interact;
     mret tt)
    search_select_catches
    (λ e, emit (LogError e)).

(** ** The worker *)

(** [webdriver.Chrome(options = chrome_options)] *)
Definition webdriver_Chrome : M unit := λ w,
  match launch_fault w with
  | Some e => (Raise e, w)
  | None => (Ret tt, set_session true w)
  end.

(** [driver.quit()] *)
Definition driver_quit : M unit := λ w,
  match quit_fault w with
  | Some e => (Raise e, w)
  | None => (Ret tt, set_trace (trace w ++ [Quit]) (set_session false w))
  end.

(** [with lock: body] *)
Definition with_lock {A} (body : M A) : M A :=
  _ ← emit Acquire; try_finally body (emit Release).

(** [progress[k] += 1] *)
Definition increment (k : Key) : M unit := λ w,
  match progress w !! k with
  | Some n =>
      (Ret tt, set_trace (trace w ++ [Increment k])
                 (set_progress (<[k := n + 1]> (progress w)) w))
  | None => (Raise KeyError, w)
  end.

(** [create_folder_if_not_exists(folder_path)] *)
Definition create_folder_if_not_exists (folder_path : string) : M unit := λ w,
  (Ret tt, set_folders ({[folder_path]} ∪ folders w) w).

(** [df.to_csv(path, index = False)] *)
Definition to_csv (df : DataFrame) (path : string) : M unit := λ w,
  (Ret tt, set_trace (trace w ++ [Saved path]) (set_files (<[path := df]> (files w)) w)).

(** [len(x)] where [x] may be [None]. *)
Definition len_opt {A} (x : option (list A)) : res nat :=
  match x with
  | Some l => Ret (length l)
  | None => Raise TypeError
  end.

(** [df[name] = v] where [df] may be [None]. *)
Definition setitem (df : option DataFrame) (name : string) (v : value)
    : res DataFrame :=
  match df with
  | Some df => Ret (set_column name v df)
  | None => Raise TypeError
  end.

(** f'{output_folder}/{year}/{state}_{year}_{category}.csv' *)
Definition csv_path (output_folder : string) (k : Key) : string :=
  let '(state, category, year) := k in
  output_folder +:+ "/" +:+ pretty year +:+ "/" +:+ state +:+ "_" +:+ pretty year
    +:+ "_" +:+ category +:+ ".csv".

(** First half of the [try] block of [parallel_scrape_over_categories]:
    the dashboard is opened and the three filters are set, state first. *)
Definition open_and_filter (k : Key) : M unit :=
  let '(state, category, year) := k in
  _ ← interact;   (* driver.get(link) *)
  _ ← interact;   (* WebDriverWait(...).until(visibility_of_all_elements_located) *)
  _ ← clear_filters;
  dropdown_filters ← initialize_dropdowns;
  _ ← clear_filters;
  _ ← search_select_from_dropdown dropdown_filters "STATE_NAME" state;
  _ ← select_option_from_dropdown dropdown_filters "ACADEMIC_SESSION" (pretty year);
  select_option_from_dropdown dropdown_filters "CATEGORY" category.

(** The [try] block of [parallel_scrape_over_categories]: after the
    filters, the visibility check, the accumulation and the save. *)
Definition scrape_unit (output_folder : string) (fuel : nat) (k : Key) : M unit :=
  let '(state, category, year) := k in
  _ ← open_and_filter k;
  visible ← extract_visible_rows;
  n ← lift (len_opt visible);
  if decide (n = 0) then
    _ ← emit (LogWarning "No data available");
    raise (Exception "Skipping this state-category-year combination...")
  else
    df ← scrape_data fuel;
    df ← lift (setitem df "State" (VStr state));
    let df := set_column "Category" (VStr category) df in
    let df := set_column "Year" (VInt year) df in
    let df := drop_duplicates df in
    _ ← create_folder_if_not_exists output_folder;
    _ ← create_folder_if_not_exists (output_folder +:+ "/" +:+ pretty year);
    to_csv df (csv_path output_folder k).

(** [parallel_scrape_over_categories(state, category, year, progress, lock)].
    The session is created before the [try]; the handler of the [try] logs
    whatever was raised; the [finally] quits the session and then reports
    the unit under the lock. *)
Definition parallel_scrape_over_categories
    (output_folder : string) (fuel : nat) (k : Key) : M unit :=
  _ ← webdriver_Chrome;
  try_finally
    (try_except (scrape_unit output_folder fuel k)
       any_Exception
       (λ e, emit (LogError e)))
    (_ ← driver_quit; with_lock (increment k)).

(** ** The Task Scheduler *)

(** [[(state, category, year) for state in states for category in
    categories for year in years]] *)
Definition work_units (states categories : list string) (years : list Z) : list Key :=
  state ← states; category ← categories; year ← years; [(state, category, year)].

(** [{unit: 0 for ...}] *)
Definition seed_progress (units : list Key) : gmap Key nat :=
  list_to_map ((λ k, (k, 0)) <$> units).

(** [len(states) * len(categories) * len(years)] *)
Definition total_tasks (states categories : list string) (years : list Z) : nat :=
  length states * length categories * length years.

(** [sum(progress.values())] *)
Definition progress_sum (progress : gmap Key nat) : nat :=
  map_fold (λ _ n acc, n + acc) 0 progress.

(** The test of the [while] of [update_progress_bar]: the monitor goes on
    polling as long as it holds. *)
Definition monitor_waits (progress : gmap Key nat) (total : nat) : bool :=
  bool_decide (progress_sum progress < total).

(** [update_progress_bar(progress, total_tasks)] against the successive
    contents [polls] of the shared dictionary, one per evaluation of the
    test: the values shown by the bar when the loop ends within [polls],
    [None] when it is still polling after them. *)
Fixpoint update_progress_bar (polls : list (gmap Key nat)) (total : nat)
    : option (list nat) :=
  match polls with
  | [] => None
  | progress :: later =>
      if monitor_waits progress total
      then shown ← update_progress_bar later total;
           Some (progress_sum progress :: shown)
      else Some []
  end.

(** The browser session a unit gets. *)
Record Session : Type := mkSession {
  s_browser : nat → Page;
  s_launch_fault : option exn;
  s_quit_fault : option exn
}.

(** The world of a worker process: its own fresh session, and the file
    system, progress dictionary and trace it shares. *)
Definition attach (s : Session) (w : World) : World :=
  mkWorld 0 (s_browser s) (s_launch_fault s) (s_quit_fault s) false
    (folders w) (files w) (progress w) (trace w).

(** State of [p.starmap(parallel_scrape_over_categories, units)]: the units
    not yet finished, those whose worker returned, those whose worker raised,
    and the shared world. *)
Record Pool : Type := mkPool {
  pending : list Key;
  returned : list Key;
  crashed : list Key;
  shared : World
}.

(** One unit finishes.  The pool hands every item of the list to a worker
    once, in no particular order; workers meet only at the lock, so the
    run is an interleaving of whole workers. *)
Inductive pool_step (output_folder : string) (sessions : Key → Session)
    : Pool → Pool → Prop :=
  | worker_returns fuel k before after ret cr w w' :
      parallel_scrape_over_categories output_folder fuel k
        (attach (sessions k) w) = (Ret tt, w') →
      pool_step output_folder sessions
        (mkPool (before ++ k :: after) ret cr w)
        (mkPool (before ++ after) (k :: ret) cr w')
  | worker_raises fuel k e before after ret cr w w' :
      parallel_scrape_over_categories output_folder fuel k
        (attach (sessions k) w) = (Raise e, w') →
      pool_step output_folder sessions
        (mkPool (before ++ k :: after) ret cr w)
        (mkPool (before ++ after) ret (k :: cr) w').

(** The world in which [__main__] starts its pool. *)
Definition start_world (states categories : list string) (years : list Z) : World :=
  mkWorld 0 (λ _, mkPage None [] [] []) None None false ∅ ∅
    (seed_progress (work_units states categories years)) [].

Definition start_pool (states categories : list string) (years : list Z) : Pool :=
  mkPool (work_units states categories years) [] []
    (start_world states categories years).

(** The same pool run by one process, unit after unit in list order. *)
Fixpoint run_pool (output_folder : string) (fuel : nat)
    (sessions : Key → Session) (units : list Key) (w : World) : res unit * World :=
  match units with
  | [] => (Ret tt, w)
  | k :: later =>
      match parallel_scrape_over_categories output_folder fuel k
              (attach (sessions k) w) with
      | (Ret _, w') => run_pool output_folder fuel sessions later w'
      | other => other
      end
  end.

(** ** The Completeness Checker *)

(** [''.join(text.split(','))]: the text without its commas. *)
Fixpoint strip_commas (text : string) : string :=
  match text with
  | EmptyString => EmptyString
  | String c rest =>
      if Ascii.eqb c ","%char then strip_commas rest else String c (strip_commas rest)
  end.

Definition digit_of (c : ascii) : option Z :=
  let n := Z.of_N (N_of_ascii c) in
  if decide (48 ≤ n ≤ 57)%Z then Some (n - 48)%Z else None.

(** White space as [str.strip] sees it, among the ASCII characters. *)
Definition is_space (c : ascii) : bool :=
  let n := Z.of_N (N_of_ascii c) in
  bool_decide (9 ≤ n ≤ 13)%Z || bool_decide (28 ≤ n ≤ 32)%Z.

Fixpoint lstrip (text : string) : string :=
  match text with
  | EmptyString => EmptyString
  | String c rest => if is_space c then lstrip rest else text
  end.

Definition strip (text : string) : string :=
  let backwards (t : string) :=
    String.string_of_list_ascii (reverse (String.list_ascii_of_string t)) in
  backwards (lstrip (backwards (lstrip text))).

(** Value of a run of decimal digits read after [acc]; with
    [underscores], single underscores may stand between digits.
    [after_digit] tells whether the last character read was a digit. *)
Fixpoint digits_value (underscores : bool) (acc : Z) (after_digit : bool)
    (text : string) : option Z :=
  match text with
  | EmptyString => if after_digit then Some acc else None
  | String c rest =>
      if Ascii.eqb c "_"%char then
        if underscores && after_digit then digits_value underscores acc false rest
        else None
      else
        d ← digit_of c; digits_value underscores (10 * acc + d)%Z true rest
  end.

(** A whole number written in ASCII: white space around, an optional sign,
    digits. *)
Definition parse_integer (underscores : bool) (text : string) : res Z :=
  let parsed :=
    match strip text with
    | String "-"%char rest => Z.opp <$> digits_value underscores 0 false rest
    | String "+"%char rest => digits_value underscores 0 false rest
    | digits => digits_value underscores 0 false digits
    end in
  match parsed with
  | Some z => Ret z
  | None => Raise ValueError
  end.

(** [int(text)] on ASCII text. *)
Definition py_int (text : string) : res Z := parse_integer true text.

(** [get_expected_data(driver)]: the second card of the page source, commas
    removed, as an integer. *)
Definition get_expected_data : M Z :=
  p ← interact;
  text ← lift (getitem (cards p) 1);
  lift (py_int (strip_commas text)).

(** A WorkUnit of the district target: (year, state, district). *)
Abbreviation DistrictKey := (Z * string * string)%type.

(** f'{year}_{state}_{district}' *)
Definition district_label (k : DistrictKey) : string :=
  let '(year, state, district) := k in
  pretty year +:+ "_" +:+ state +:+ "_" +:+ district.

Definition district_csv_path (output_folder : string) (k : DistrictKey) : string :=
  let '(year, _, _) := k in
  output_folder +:+ "/" +:+ pretty year +:+ "/" +:+ district_label k +:+ ".csv".

Definition improper_csv_path (k : DistrictKey) : string :=
  let '(year, _, _) := k in
  "improper_data/" +:+ pretty year +:+ "/" +:+ district_label k +:+ ".csv".

(** [pd.DataFrame([label, len(df), expected_data])]: one column named [0],
    three rows. *)
Definition mismatch_log (k : DistrictKey) (actual : nat) (expected : Z) : DataFrame :=
  mkDataFrame [VInt 0]
    [[VStr (district_label k)]; [VInt (Z.of_nat actual)]; [VInt expected]].

(** What [parallel_scrape_over_course_duration_qualification] does with the
    frame it scraped (scrape_districts.py, from the duplicate removal to the
    save): the row count is compared with the expected total; a mismatch is
    logged and written down, then the frame is saved all the same. *)
Definition check_and_save (output_folder : string) (k : DistrictKey)
    (expected_data : Z) (df : DataFrame) : M unit :=
  let '(year, state, district) := k in
  let df := drop_duplicates df in
  _ ← (if decide (Z.of_nat (len df) ≠ expected_data) then
         _ ← emit (LogWarning "Length of data does not match expected data");
         _ ← create_folder_if_not_exists "improper_data";
         _ ← create_folder_if_not_exists ("improper_data/" +:+ pretty year);
         to_csv (mismatch_log k (len df) expected_data) (improper_csv_path k)
       else mret tt);
  _ ← create_folder_if_not_exists output_folder;
  _ ← create_folder_if_not_exists (output_folder +:+ "/" +:+ pretty year);
  to_csv df (district_csv_path output_folder k).

(** The [try] block of the district worker from the expected total on
    (scrape_districts.py; [extract_visible_rows] and [scrape_data] are the
    same functions as in the category target). *)
Definition scrape_district (output_folder : string) (fuel : nat) (k : DistrictKey)
    : M unit :=
  let '(year, state, district) := k in
  expected_data ← get_expected_data;
  df ← scrape_data fuel;
  df ← lift (setitem df "Year" (VInt year));
  let df := set_column "State" (VStr state) df in
  let df := set_column "District" (VStr district) df in
  check_and_save output_folder k expected_data df.

(** *** Per-column sums (scrape_cits_certified.py) *)

Definition cits_columns : list value :=
  VStr <$> ["State"; "District"; "ITI"; "ITI_Category"; "Total_Units";
            "Total_Post_Sanctioned"; "Total_Position_Filled"; "Vacancy"; "Vacancy%"].

(** [df[name]]: the cells of a column. *)
Definition get_column (name : string) (df : DataFrame) : res (list value) :=
  match list_find (λ c, c = VStr name) (columns df) with
  | Some (i, _) => Ret ((λ r, default VNone (r !! i)) <$> rows df)
  | None => Raise KeyError
  end.

(** [df[name] = cells] for a column that exists. *)
Definition put_column (name : string) (cells : list value) (df : DataFrame) : DataFrame :=
  match list_find (λ c, c = VStr name) (columns df) with
  | Some (i, _) =>
      mkDataFrame (columns df) (zip_with (λ r v, <[i := v]> r) (rows df) cells)
  | None => df
  end.

(** One cell through [pd.to_numeric], for a column of whole numbers.  (A
    text with a decimal point or a missing cell would turn the column
    into floats; such columns are outside this model and taken as
    [ValueError].) *)
Definition numeric_cell (v : value) : res Z :=
  match v with
  | VStr s => parse_integer false s
  | VInt z => Ret z
  | VFloat _ | VNone => Raise ValueError
  end.

Fixpoint traverse {A B} (f : A → res B) (l : list A) : res (list B) :=
  match l with
  | [] => mret []
  | x :: l' => y ← f x; ys ← traverse f l'; mret (y :: ys)
  end.

(** [df[name] = pd.to_numeric(df[name])], returning the numbers as well. *)
Definition to_numeric_column (name : string) (df : DataFrame)
    : res (list Z * DataFrame) :=
  cells ← get_column name df;
  numbers ← traverse numeric_cell cells;
  mret (numbers, put_column name (VInt <$> numbers) df).

(** [text.split(' ')[0]] *)
Fixpoint first_token (text : string) : string :=
  match text with
  | EmptyString => EmptyString
  | String c rest => if Ascii.eqb c " "%char then EmptyString else String c (first_token rest)
  end.

(** Texts [float] accepts, among those made of digits, one optional
    point and an optional sign.  (Exponents, [inf], [nan] and white space
    are outside this model.) *)
Definition is_decimal (text : string) : bool :=
  let body :=
    match text with
    | String "-"%char rest | String "+"%char rest => rest
    | _ => text
    end in
  let chars := String.list_ascii_of_string body in
  let digits := filter (λ c, is_Some (digit_of c)) chars in
  let points := filter (λ c, c = "."%char) chars in
  bool_decide (0 < length digits ∧ length points ≤ 1
               ∧ length digits + length points = length chars).

(** A [Vacancy%] cell through [float(percent.split(' ')[0])]. *)
Definition percent_cell (v : value) : res value :=
  match v with
  | VStr s => if is_decimal (first_token s) then Ret (VFloat (first_token s))
              else Raise ValueError
  | _ => Raise (AttributeError "object has no attribute 'split'")
  end.

(** [float(summations[i].replace(',', ''))] for a footer cell that holds a
    whole number.  (A footer with a decimal point or an exponent is
    outside this model and taken as [ValueError].) *)
Definition footer_number (summations : list string) (i : nat) : res Z :=
  text ← getitem summations i; parse_integer true (strip_commas text).

Definition sum_Z (numbers : list Z) : Z := foldr Z.add 0%Z numbers.

(** One of the three tests: [if df[name].sum().round(2) != float(...)],
    with its warning and its file. *)
Definition check_column (numbers : list Z) (summations : list string) (i : nat)
    (warning path : string) (df : DataFrame) : M unit :=
  footer ← lift (footer_number summations i);
  if decide (sum_Z numbers ≠ footer)
  then _ ← emit (LogWarning warning); to_csv df path
  else mret tt.

(** The conversions [scrape_data] of scrape_cits_certified.py makes once
    its loop is over: four columns through [pd.to_numeric], the
    percentages through [float].  The numbers of the three columns that
    are checked come out with the converted frame. *)
Definition convert_columns (df : DataFrame)
    : res (list Z * list Z * list Z * DataFrame) :=
  '(units, df) ← to_numeric_column "Total_Units" df;
  '(sanctioned, df) ← to_numeric_column "Total_Post_Sanctioned" df;
  '(filled, df) ← to_numeric_column "Total_Position_Filled" df;
  '(_, df) ← to_numeric_column "Vacancy" df;
  cells ← get_column "Vacancy%" df;
  percents ← traverse percent_cell cells;
  mret (units, sanctioned, filled, put_column "Vacancy%" percents df).

(** The three tests that follow, on the last row [summations] of the last
    read, and the [return df]. *)
Definition check_column_sums (state : string) (summations : list string)
    (units sanctioned filled : list Z) (df : DataFrame) : M DataFrame :=
  _ ← check_column units summations 3 "Total Units do not match."
        ("total_units_improper_" +:+ state +:+ ".csv") df;
  _ ← check_column sanctioned summations 4 "Total Post Sanctioned do not match."
        ("total_post_sanctioned_improper_" +:+ state +:+ ".csv") df;
  _ ← check_column filled summations 5 "Total Position Filled do not match."
        ("total_position_filled__improper_" +:+ state +:+ ".csv") df;
  mret df.

(** What [scrape_data] of scrape_cits_certified.py does with the frame
    [df] its loop accumulated. *)
Definition convert_and_check (state : string) (summations : list string)
    (df : DataFrame) : M DataFrame :=
  '(units, sanctioned, filled, df) ← lift (convert_columns df);
  check_column_sums state summations units sanctioned filled df.

(** ** What the other dashboards show *)

(** What the session answers, at its k-th request, to the queries of the
    other targets for which [Page] has no field: the elements
    [soup.find_all(attrs = {'type': 'text', 'aria-label': 'Search', ...})]
    finds in the page source, the number of elements matching
    [div[role='row'][class*='row ']], the elements
    [soup.find_all('div', class_ = 'scrollRegion')] finds, and the texts
    of the elements found by the path of a scroll region. *)
Record Views : Type := mkViews {
  searchbars : nat → list element;
  wide_rows : nat → nat;
  scroll_regions : nat → list element;
  option_texts : nat → list string
}.

(** One request to the session, answered by one of these views. *)
Definition interact_at {A} (view : nat → A) : M A := λ w,
  (_ ← interact; mret (view (clock w))) w.

(** ** The instructor target (scrape_cits_certified.py) *)

(** [l[-1]], where [l] may be [None]. *)
Definition last_item {A} (l : option (list A)) : res A :=
  match l with
  | None => Raise TypeError
  | Some l =>
      match last l with
      | Some x => Ret x
      | None => Raise IndexError
      end
  end.

(** [l[:-1]] *)
Definition but_last {A} (l : list A) : list A := take (length l - 1) l.

Module Cits.

(** [click_detail_report(driver)]: the wait for the button, whose [click]
    attribute is then read but not called; both handlers only print. *)
Definition click_detail_report : M unit :=
  try_except
    (_ ← interact; mret tt)
    any_Exception
    (λ e,
       if bool_decide (e = TimeoutException)
       then safe_print "Timeout while trying to click 'Detail Report' button."
       else safe_print "An error occurred while clearing filters").

(** [initialize_searchbars(driver)]: the page source is read once and the
    filters are the search bars at positions 0 to 3. *)
Definition initialize_searchbars (views : Views) : M (gmap string (option string)) :=
  menus ← interact_at (searchbars views);
  state_name ← lift (m ← getitem menus 0; get_xpath (Some m));
  district_name ← lift (m ← getitem menus 1; get_xpath (Some m));
  iti ← lift (m ← getitem menus 2; get_xpath (Some m));
  iti_category ← lift (m ← getitem menus 3; get_xpath (Some m));
  mret (<["ITI_CATEGORY" := iti_category]>
         (<["ITI" := iti]>
           (<["DISTRICT_NAME" := district_name]>
             (<["STATE_NAME" := state_name]> ∅)))).

(** Search-select of this target.  Five requests inside one [try]: wait
    for the search bar, click it, send the keys, wait for the option,
    click it. *)
Definition search_select_from_dropdown
    (dropdown_filters : gmap string (option string))
    (filter_name : string) (filter_option : string) : M unit :=
  try_except
    (_ ← lift (dict_get dropdown_filters filter_name);
     _ ← interact;
     _ ← interact;
     _ ← interact;
     _ ← interact;
     _ ← interact;
     mret tt)
    search_select_catches
    (λ e, emit (LogError e)).

(** [select_option_from_dropdown(driver, filter_name, filter_option)]: two
    [if] statements inside one [try], each waiting for the option and
    clicking it. *)
Definition select_option_from_dropdown (filter_name filter_option : string) : M unit :=
  try_except
    (_ ← (if bool_decide (filter_name = "CITS_CERTIFIED")
             && bool_decide (filter_option ∈ ["No"; "Yes"])
          then _ ← interact; _ ← interact; mret tt
          else mret tt);
     if bool_decide (filter_name = "EMPLOYMENT_TYPE")
        && bool_decide (filter_option ∈ ["Contract"; "Others"; "Regular"])
     then _ ← interact; _ ← interact; mret tt
     else mret tt)
    search_select_catches
    (λ e, emit (LogError e)).

(** [driver.find_elements(By.CSS_SELECTOR,
    "div[role='row'][class*='row ']")[-2].location_once_scrolled_into_view] *)
Definition scroll_to_row_before_last (views : Views) : M unit :=
  n ← interact_at (wide_rows views);
  if decide (n < 2) then raise IndexError else mret tt.

(** The [while retries > 0] loop of [scrape_data].  The last row of every
    read is kept apart as [summations], the rows before it go into the
    frame.  ([summations] has no value before the first cycle; the loop
    starts with 5 retries, so a cycle always comes before its first
    use.) *)
Fixpoint scrape_loop (views : Views) (fuel retries : nat) (df : DataFrame)
    (summations : list string) : M (DataFrame * list string) :=
  match fuel with
  | 0 => out_of_fuel
  | S fuel' =>
      if decide (0 < retries) then
        extract_vis ← extract_visible_rows;
        summations ← lift (last_item extract_vis);
        let new_rows := but_last <$> extract_vis in
        new_df ← lift (pd_DataFrame new_rows cits_columns);
        let retries' :=
          if negb (empty df) && equals (iloc_last (len new_df) df) new_df
          then retries - 1
          else 5 in
        let df' := drop_duplicates (concat df new_df) in
        _ ← scroll_to_row_before_last views;
        scrape_loop views fuel' retries' df' summations
      else mret (df, summations)
  end.

(** [scrape_data(driver, state)]: the loop, the conversions and the three
    tests; the frame, or [None] when anything was raised.  ([Scraping]
    marks the entry into the function, as for the category target.) *)
Definition scrape_data (views : Views) (fuel : nat) (state : string)
    : M (option DataFrame) :=
  try_except
    (_ ← emit Scraping;
     '(df, summations) ← scrape_loop views fuel 5 (mkDataFrame cits_columns []) [];
     df ← convert_and_check state summations df;
     mret (Some df))
    any_Exception
    (λ e,
       _ ← (if mentions_NoneType_name e
            then emit (LogWarning "No rows to scrape.")
            else emit (LogError e));
       mret None).

(** f'{output_folder}/cits_certified_{state}.csv' *)
Definition csv_path (output_folder state : string) : string :=
  output_folder +:+ "/cits_certified_" +:+ state +:+ ".csv".

(** The [try] block of [parallel_scrape_over_cits_employment] for the unit
    (state, cits_certified). *)
Definition scrape_unit (views : Views) (output_folder : string) (fuel : nat)
    (k : string * string) : M unit :=
  let '(state, cits_certified) := k in
  _ ← interact;   (* driver.get(link) *)
  _ ← click_detail_report;
  _ ← interact;   (* WebDriverWait(...).until(visibility_of_all_elements_located) *)
  dropdown_filters ← initialize_searchbars views;
  _ ← search_select_from_dropdown dropdown_filters "STATE_NAME" state;
  _ ← select_option_from_dropdown "CITS_CERTIFIED" cits_certified;
  visible ← extract_visible_rows;
  n ← lift (len_opt visible);
  if decide (n = 0) then
    _ ← emit (LogWarning "No data available");
    raise (Exception "Skipping this state-cits_certified combination...")
  else
    df ← scrape_data views fuel state;
    df ← lift (setitem df "Cits_Certified" (VStr cits_certified));
    let df := drop_duplicates df in
    _ ← create_folder_if_not_exists output_folder;
    to_csv df (csv_path output_folder state).

End Cits.

(** ** The districts of a state (get_all_districts.py, scrape_districts.py) *)

(** [text.split(sep)] for a separator of one character: the pieces
    between the separators, at least one. *)
Fixpoint split (sep : ascii) (text : string) : list string :=
  match text with
  | EmptyString => [EmptyString]
  | String c rest =>
      if Ascii.eqb c sep then EmptyString :: split sep rest
      else match split sep rest with
           | piece :: pieces => String c piece :: pieces
           | [] => [String c EmptyString]
           end
  end.

(** [[option for option in text.split('\n') if option != 'Select all']] *)
Definition option_lines (text : string) : list string :=
  filter (λ option, option ≠ "Select all") (split "010"%char text).

(** [[x for xs in xss for x in xs]] *)
Definition flatten {A} (xss : list (list A)) : list A := xs ← xss; xs.

(** The order of [sorted] on texts: character by character, by code. *)
Definition string_le (s1 s2 : string) : Prop := String.leb s1 s2 = true.

#[global] Instance string_le_dec s1 s2 : Decision (string_le s1 s2).
Proof. unfold string_le. apply _. Defined.

(** [sorted(list(set(l)))]: the distinct items of [l] in ascending order
    (which does not depend on the order in which the set gives them). *)
Definition sorted_set (l : list string) : list string :=
  merge_sort string_le (dedup_from [] l).

(** [l[-k]] for [k >= 1] *)
Definition getitem_from_end {A} (l : list A) (k : nat) : res A :=
  if decide (k ≤ length l) then getitem l (length l - k) else Raise IndexError.

(** [d[k]] on a dictionary given as the list of its items, in the order
    in which its keys were inserted. *)
Definition items_get {V} (d : list (string * V)) (k : string) : res V :=
  match list_find (λ item, item.1 = k) d with
  | Some (_, item) => Ret item.2
  | None => Raise KeyError
  end.

(** [d.update({k: v})]: the value of an existing key is replaced where it
    stands, a new key goes to the end. *)
Fixpoint items_update {V} (d : list (string * V)) (k : string) (v : V)
    : list (string * V) :=
  match d with
  | [] => [(k, v)]
  | item :: d' =>
      if decide (item.1 = k) then (k, v) :: d' else item :: items_update d' k v
  end.

(** [for x in l: body(x)] *)
Fixpoint for_each {A} (l : list A) (body : A → M unit) : M unit :=
  match l with
  | [] => mret tt
  | x :: l' => _ ← body x; for_each l' body
  end.

Module Districts.

(** [initialize_dropdowns(driver)] of these two scripts: the menus at
    positions 0, 1 and 2, in this order of insertion. *)
Definition initialize_dropdowns : M (list (string * option string)) :=
  p ← interact;
  let menus := dropdown_menus p in
  state_name ← lift (m ← getitem menus 0; get_xpath (Some m));
  academic_session ← lift (m ← getitem menus 1; get_xpath (Some m));
  district_name ← lift (m ← getitem menus 2; get_xpath (Some m));
  mret [("STATE_NAME", state_name); ("ACADEMIC_SESSION", academic_session);
        ("DISTRICT_NAME", district_name)].

(** [get_scroll_region(driver, dropdown_filters)]: every dropdown is found
    and clicked twice; then the page source is read once and the scroll
    regions it holds are given, in order, to the names of the filters
    ([zip] stops at the shorter of the two). *)
Definition get_scroll_region (views : Views)
    (dropdown_filters : list (string * option string))
    : M (list (string * option string)) :=
  _ ← for_each dropdown_filters.*2 (λ xpath,
        _ ← interact;   (* driver.find_element(By.XPATH, xpath) *)
        _ ← interact;   (* current_dropdown.click() *)
        _ ← interact;   (* current_dropdown.click() *)
        mret tt);
  dropdown_scroll_region ← interact_at (scroll_regions views);
  paths ← lift (traverse (λ region, get_xpath (Some region))
                  (take (length dropdown_filters) dropdown_scroll_region));
  mret (zip dropdown_filters.*1 paths).

(** The [while retries > 0] loop of [get_all_dropdown_options].  Every
    cycle reads the texts of the elements of the scroll region, adds
    their lines, but for [Select all], to what was gathered, and scrolls
    to the third option from the end; a cycle that finds no more distinct
    options than the one before costs a retry, and the retries are never
    set back.  ([current_options] has no value before the first cycle;
    the loop starts with 5 retries, so a cycle always comes before its
    first use.) *)
Fixpoint options_loop (views : Views)
    (all_dropdown_xpaths : list (string * option string)) (filter_name : string)
    (fuel retries previous_length : nat)
    (all_options : list (list string)) (current_options : list string)
    : M (list string) :=
  match fuel with
  | 0 => out_of_fuel
  | S fuel' =>
      if decide (0 < retries) then
        _ ← lift (items_get all_dropdown_xpaths filter_name);
        options ← interact_at (option_texts views);
        let all_options := all_options ++ (option_lines <$> options) in
        let current_options := sorted_set (flatten all_options) in
        let current_length := length current_options in
        let retries :=
          if decide (current_length = previous_length) then retries - 1 else retries in
        _ ← lift (getitem_from_end current_options 3);
        _ ← interact;   (* find_element(...).location_once_scrolled_into_view *)
        options_loop views all_dropdown_xpaths filter_name fuel' retries
          current_length all_options current_options
      else mret current_options
  end.

(** [get_all_dropdown_options(driver, all_dropdown_xpaths, dropdown_filters,
    filter_name)] *)
Definition get_all_dropdown_options (views : Views)
    (all_dropdown_xpaths dropdown_filters : list (string * option string))
    (filter_name : string) (fuel : nat) : M (list string) :=
  _ ← lift (items_get dropdown_filters filter_name);
  _ ← interact;   (* WebDriverWait(...).until(element_to_be_clickable(dropdown)) *)
  _ ← interact;   (* dropdown.click() *)
  current_options ← options_loop views all_dropdown_xpaths filter_name fuel 5 0 [] [];
  _ ← interact;   (* dropdown.click() *)
  mret current_options.

(** The [try] statement of [parallel_scrape_over_categories] of
    get_all_districts.py without its [finally] clause: the dictionary
    [{state: districts}] it returns, [{state: []}] after any exception. *)
Definition scrape_state (views : Views) (fuel : nat) (year : Z) (state : string)
    : M (string * list string) :=
  try_except
    (_ ← interact;   (* driver.get(link) *)
     _ ← interact;   (* WebDriverWait(...).until(visibility_of_all_elements_located) *)
     _ ← clear_filters;
     dropdown_filters ← initialize_dropdowns;
     _ ← clear_filters;
     all_dropdown_xpaths ← get_scroll_region views dropdown_filters;
     _ ← select_option_from_dropdown (list_to_map dropdown_filters)
           "ACADEMIC_SESSION" (pretty year);
     _ ← search_select_from_dropdown (list_to_map dropdown_filters) "STATE_NAME" state;
     districts ← get_all_dropdown_options views all_dropdown_xpaths dropdown_filters
                   "DISTRICT_NAME" fuel;
     mret (state, districts))
    any_Exception
    (λ e, _ ← emit (LogError e); mret (state, [])).

(** [for result in results: merged_data.update(result)] of [__main__],
    from the empty dictionary. *)
Definition merge_results (results : list (string * list string))
    : list (string * list string) :=
  foldl (λ merged_data result, items_update merged_data result.1 result.2) [] results.

End Districts.

(** [[... for year in years for state in dictionary.keys() for district in
    dictionary[state]]] of scrape_districts.py, on the dictionary of
    districts given as the list of its items: the keys of the progress
    dictionary and, in the same order, the items handed to the pool. *)
Definition district_units (years : list Z) (dictionary : list (string * list string))
    : list DistrictKey :=
  year ← years;
  state ← dictionary.*1;
  district ← (match items_get dictionary state with Ret ds => ds | _ => [] end);
  [(year, state, district)].

(** [len(years) * sum(len(districts) for districts in dictionary.values())] *)
Definition district_total_tasks (years : list Z)
    (dictionary : list (string * list string)) : nat :=
  length years * sum_list (length <$> dictionary.*2).

(** ** Vocabulary of the properties *)

(** A page whose visible rows are exactly the last rows of [df]. *)
Definition shows_tail_of (df : DataFrame) (p : Page) : Prop :=
  fault p = None
  ∧ ∃ new_df, pd_DataFrame (Some (visible_rows p)) trainee_columns = Ret new_df
              ∧ rows new_df ≠ []
              ∧ iloc_last (len new_df) df = new_df.

(** A page that answers and shows no data row: at most the header row is
    on screen, and at least one row element exists to scroll to. *)
Definition shows_no_rows (p : Page) : Prop :=
  fault p = None ∧ length (grid p) = 1.

(** The frame [scrape_data] should make of a table: one record per row,
    without the selector cell. *)
Definition frame_of_table (table : list (list string)) : DataFrame :=
  mkDataFrame trainee_columns ((λ cells : list string, VStr <$> drop 1 cells) <$> table).

(** Every read from [w] on shows a header row followed by [table]. *)
Definition static_from (w : World) (table : list (list string)) : Prop :=
  ∀ t, clock w ≤ t →
    fault (browser w t) = None ∧ ∃ hdr, grid (browser w t) = hdr :: table.

(** Events the code before the accumulation may leave: messages, and the
    lock taken and released around a print. *)
Definition browsing_event (e : event) : Prop :=
  match e with
  | LogWarning _ | LogError _ | Printed _ | Acquire | Release => True
  | _ => False
  end.

(** Events the [try] block may leave: anything but the teardown and the
    report of the unit. *)
Definition not_reporting (e : event) : Prop :=
  match e with
  | Quit | Increment _ => False
  | _ => True
  end.

(** [w'] comes after [w] in the same session: the page script, the faults
    of the session, the session itself and the progress dictionary are
    untouched, time has not gone back, the trace has grown by [allowed]
    events, and unless [disk] is set, files and folders are untouched. *)
Definition later (disk : bool) (allowed : event → Prop) (w w' : World) : Prop :=
  browser w' = browser w
  ∧ launch_fault w' = launch_fault w
  ∧ quit_fault w' = quit_fault w
  ∧ session w' = session w
  ∧ progress w' = progress w
  ∧ clock w ≤ clock w'
  ∧ (∃ evs, trace w' = trace w ++ evs ∧ Forall allowed evs)
  ∧ (disk = false → folders w' = folders w ∧ files w' = files w).

(** [m] keeps to [R] whatever it returns or raises. *)
Definition preserves {A} (R : World → World → Prop) (m : M A) : Prop :=
  ∀ w r w', m w = (r, w') → R w w'.

(** The world after the [finally] block ran from [w], when the session
    quits and the unit has [n] in the progress dictionary. *)
Definition torn_down_and_reported (k : Key) (n : nat) (w : World) : World :=
  set_trace (trace w ++ [Quit; Acquire; Increment k; Release])
    (set_progress (<[k := n + 1]> (progress w)) (set_session false w)).

(** [record] was made of a row that some read between the interactions
    [lo] and [hi] found on screen at a position other than the first: the
    page answered, [cells] was its row number [i >= 1], and the record is
    [cells[1:]] padded to the six columns. *)
Definition read_from (b : nat → Page) (lo hi : nat) (record : list value) : Prop :=
  ∃ t i cells,
    lo ≤ t < hi ∧ fault (b t) = None
    ∧ 1 ≤ i ∧ grid (b t) !! i = Some cells
    ∧ record = pad 6 (drop 1 cells).

(** The five attempts of a read that starts in [w] all meet stale nodes. *)
Definition all_stale (w : World) : Prop :=
  ∀ t, clock w ≤ t < clock w + 5 →
    fault (browser w t) = Some StaleElementReferenceException.

(** The first fault among the [n] interactions that start at time [t],
    with the time at which it is met. *)
Fixpoint next_fault (b : nat → Page) (t n : nat) : option (nat * exn) :=
  match n with
  | 0 => None
  | S n' =>
      match fault (b t) with
      | Some e => Some (t, e)
      | None => next_fault b (S t) n'
      end
  end.

(** What [for parent in child.parents] goes through: the tag itself, then
    each of its ancestors, every one paired with the frame it sits in. *)
Fixpoint levels (child : node) (up : list frame) : list (node * frame) :=
  match up with
  | [] => []
  | f :: up' => (child, f) :: levels (plug f child) up'
  end.

(** [c] is the step of the path for the tag [child] under the frame [f]:
    it carries the name of the tag; when the parent has more than one
    direct child with that name it is indexed, and the index is the
    1-based position, among these children, of the first one equal to
    [child]; otherwise it is plain. *)
Definition step_of (level : node * frame) (c : component) : Prop :=
  let '(child, f) := level in
  ∃ name,
    node_name child = Some name
    ∧ let siblings := find_all_children name (f_left f ++ child :: f_right f) in
      if decide (1 < length siblings)
      then ∃ i, c = Indexed name (i + 1)
                ∧ siblings !! i = Some child
                ∧ ∀ j, j < i → siblings !! j ≠ Some child
      else c = Plain name.

(** What holds of a pool over [units] while it runs: every unit is
    pending, returned or crashed; the entry of a unit is 1 once its worker
    returned and 0 before (or if it crashed); the entries sum up to the
    number of workers that returned. *)
Definition pool_ok (units : list Key) (p : Pool) : Prop :=
  pending p ++ returned p ++ crashed p ≡ₚ units
  ∧ (∀ k, k ∈ units →
       progress (shared p) !! k = Some (if decide (k ∈ returned p) then 1 else 0))
  ∧ progress_sum (progress (shared p)) = length (returned p).





(** How many of the workers that returned were workers of the unit [k]. *)
Definition times_returned (k : Key) (returned : list Key) : nat :=
  length (filter (λ k', k' = k) returned).

(** What holds of a pool over [units] while it runs, whether or not
    [units] repeats a key: every dispatched item is pending, returned or
    crashed; the dictionary has the keys of [units] and no other; the
    entry of a key counts the workers of that key that returned; and the
    entries sum up to the number of workers that returned. *)
Definition pool_counts (units : list Key) (p : Pool) : Prop :=
  pending p ++ returned p ++ crashed p ≡ₚ units
  ∧ (∀ k, progress (shared p) !! k
          = if decide (k ∈ units) then Some (times_returned k (returned p)) else None)
  ∧ progress_sum (progress (shared p)) = length (returned p).

(** The decimal digits of a text, in order, whatever stands between
    them. *)
Definition digits_of (text : string) : list Z :=
  omap digit_of (String.list_ascii_of_string text).

(** The number written by a list of decimal digits. *)
Definition decimal_value (digits : list Z) : Z :=
  foldl (λ acc d, 10 * acc + d)%Z 0%Z digits.


(** A page of the instructor dashboard that answers and shows no
    instructor: the header row and the row of sums are all there is. *)
Definition shows_sums_only (p : Page) : Prop :=
  fault p = None ∧ length (grid p) = 2.

(** [record] was made of a row that some read between the interactions
    [lo] and [hi] found on screen at a position that is neither the first
    nor the last: the page answered, [cells] was its row number [i], with
    a row before and a row after it, and the record is [cells[1:]] padded
    to the nine columns. *)
Definition read_inside (b : nat → Page) (lo hi : nat) (record : list value) : Prop :=
  ∃ t i cells,
    lo ≤ t < hi ∧ fault (b t) = None
    ∧ 1 ≤ i ∧ S i < length (grid (b t)) ∧ grid (b t) !! i = Some cells
    ∧ record = pad 9 (drop 1 cells).

(** [summations] is what some read between [lo] and [hi] made of the
    last row on screen. *)
Definition sums_read (b : nat → Page) (lo hi : nat) (summations : list string) : Prop :=
  ∃ t cells,
    lo ≤ t < hi ∧ fault (b t) = None
    ∧ 2 ≤ length (grid (b t)) ∧ last (grid (b t)) = Some cells
    ∧ summations = drop 1 cells.

(** What [get_all_dropdown_options] may return between the requests [lo]
    and [hi]: options in ascending order, each once, none of them
    [Select all], at least three of them, and each a line of a text that
    a read of the dropdown found. *)
Definition options_gathered (views : Views) (lo hi : nat) (options : list string) : Prop :=
  Sorted string_le options
  ∧ NoDup options
  ∧ ("Select all" ∉ options)
  ∧ 3 ≤ length options
  ∧ ∀ option, option ∈ options →
      ∃ t text, lo ≤ t < hi ∧ text ∈ option_texts views t
                ∧ option ∈ split "010"%char text.

(** ** Simulated sources *)

Module Sim.

(** A dropdown menu somewhere in a page. *)
Definition menu : element :=
  mkElement (Tag "div" {["class" := ["slicer-dropdown-menu"]]} [])
    [mkFrame "body" ∅ [] []; mkFrame "html" ∅ [] []; mkFrame "[document]" ∅ [] []].

(** The header row of the trainee grid and a data row; the first
    gridcell of a row is its selector. *)
Definition header : list string :=
  [""; "Trainee Reg No"; "TraineeName"; "Gender"; "FatherGuardianName";
   "MotherName"; "Trade"].

Definition trainee (reg name : string) : list string :=
  [""; reg; name; "Male"; "Father"; "Mother"; "Fitter"].

(** The record [scrape_data] makes of [trainee reg name]. *)
Definition record (reg name : string) : list value :=
  VStr <$> [reg; name; "Male"; "Father"; "Mother"; "Fitter"].

(** A page that answers, with the given rows on screen. *)
Definition showing (rows : list (list string)) : Page :=
  mkPage None rows (replicate 12 menu) ["7"; "1,234"].

(** A page whose nodes are being re-created. *)
Definition stale : Page :=
  mkPage (Some StaleElementReferenceException) [] [] [].

(** A static table: every read shows the header and the same rows. *)
Definition static_table (rows : list (list string)) : nat → Page :=
  λ _, showing (header :: rows).

(** A grid that shows one trainee at first and only its header row from
    then on. *)
Definition vanishing_rows : nat → Page :=
  λ t, if decide (t = 0) then showing [header; trainee "R1" "Asha"]
       else showing [header].

(** Five stale reads, then a static table with one trainee. *)
Definition stale_then_static : nat → Page :=
  λ t, if decide (t < 5) then stale
       else showing [header; trainee "R1" "Asha"].

(** A fresh world around a page, with nothing on disk. *)
Definition world (script : nat → Page) (progress : gmap Key nat) : World :=
  mkWorld 0 script None None false ∅ ∅ progress [].

Definition unit_1 : Key := ("GOA", "GEN", 2015%Z).

(** The filters of a page, with some path for each. *)
Definition filters : gmap string (option string) :=
  <["CATEGORY" := Some "/html/body/div[12]"]>
    (<["ACADEMIC_SESSION" := Some "/html/body/div[2]"]>
      (<["STATE_NAME" := Some "/html/body/div[1]"]> ∅)).

(** A page on which the wait for the option, the third request of a
    selection, times out. *)
Definition option_never_clickable : nat → Page :=
  λ t, if decide (t = 2) then mkPage (Some TimeoutException) [] [] []
       else showing [header].

(** In search-select the wait for the option is the fourth request. *)
Definition option_never_found : nat → Page :=
  λ t, if decide (t = 3) then mkPage (Some TimeoutException) [] [] []
       else showing [header].

(** A page whose dropdown is re-created right after it was found, so that
    the click on it, the second request, meets a stale node. *)
Definition dropdown_goes_stale : nat → Page :=
  λ t, if decide (t = 1) then stale else showing [header].

(** A world in which no browser can be started. *)
Definition no_browser : World :=
  mkWorld 0 (static_table []) (Some WebDriverException) None false ∅ ∅
    {[unit_1 := 0]} [].



(** The end-to-end scenario: two states, two categories, one year, and
    sessions that show an empty table to every unit. *)
Definition two_states : list string := ["GOA"; "DELHI"].
Definition two_categories : list string := ["GEN"; "OBC"].
Definition one_year : list Z := [2015%Z].

Definition empty_sessions : Key → Session :=
  λ _, mkSession (static_table []) None None.

Definition after_the_pool : World :=
  (run_pool "out" 0 empty_sessions (work_units two_states two_categories one_year)
     (start_world two_states two_categories one_year)).2.

(** The pool once its four workers have returned. *)
Definition final_pool : Pool :=
  mkPool [] (reverse (work_units two_states two_categories one_year)) []
    after_the_pool.

(** A grid that shows one trainee up to the first read of the
    accumulation (the 25th request of a unit) and has no row element left
    when the loop wants to scroll. *)
Definition grid_vanishes : nat → Page :=
  λ t, if decide (t < 25) then showing [header; trainee "R1" "Asha"]
       else showing [].



(** A list of states that names one state twice. *)
Definition goa_twice : list string := ["GOA"; "GOA"].

(** The pool over [goa_twice], one category and one year, once both
    workers have returned. *)
Definition both_returned : Pool :=
  mkPool [] [("GOA", "GEN", 2015%Z); ("GOA", "GEN", 2015%Z)] []
    (run_pool "out" 0 empty_sessions (work_units goa_twice ["GEN"] one_year)
       (start_world goa_twice ["GEN"] one_year)).2.


(** A dictionary of districts in which one state has none. *)
Definition districts : list (string * list string) :=
  [("GOA", ["NORTH GOA"; "SOUTH GOA"]); ("LADAKH", []); ("SIKKIM", ["GANGTOK"])].

(** The header row of the instructor grid, a data row, and the row of
    sums that closes every read; the first gridcell of a row is its
    selector. *)
Definition instructor_header : list string :=
  [""; "State"; "District"; "ITI"; "ITI_Category"; "Total_Units";
   "Total_Post_Sanctioned"; "Total_Position_Filled"; "Vacancy"; "Vacancy%"].

Definition instructor (district iti units : string) : list string :=
  [""; "GOA"; district; iti; "Govt"; units; "10"; "7"; "3"; "30.0 %"].

Definition sums (units sanctioned filled : string) : list string :=
  [""; "Total"; ""; ""; units; sanctioned; filled; "3"; "30.0 %"].

(** A page of the instructor dashboard that answers, with the given rows
    on screen. *)
Definition report (rows : list (list string)) : nat → Page :=
  λ _, mkPage None rows [] [].

(** Four search bars, and as many wide rows as asked for. *)
Definition views (wide : nat) : Views :=
  mkViews (λ _, replicate 4 menu) (λ _, wide) (λ _, []) (λ _, []).

(** A report of two instructors between its header and its sums. *)
Definition two_instructors : list (list string) :=
  [instructor_header;
   instructor "NORTH GOA" "ITI Panaji" "4";
   instructor "SOUTH GOA" "ITI Margao" "10";
   sums "14" "20" "14"].

(** A scroll region somewhere in a page. *)
Definition region : element :=
  mkElement (Tag "div" {["class" := ["scrollRegion"]]} [])
    [mkFrame "body" ∅ [] []; mkFrame "html" ∅ [] []; mkFrame "[document]" ∅ [] []].

(** The three filters of the district scripts, with some path for each. *)
Definition district_filters : list (string * option string) :=
  [("STATE_NAME", Some "/html/body/div[1]");
   ("ACADEMIC_SESSION", Some "/html/body/div[2]");
   ("DISTRICT_NAME", Some "/html/body/div[3]")].

(** The text of a dropdown that lists the given options under
    [Select all], one per line. *)
Definition listing (options : list string) : string :=
  join (String "010"%char EmptyString) ("Select all" :: options).

(** A dashboard with [n] scroll regions whose dropdown of districts
    shows the given texts. *)
Definition dashboard (n : nat) (texts : list string) : Views :=
  mkViews (λ _, []) (λ _, 0) (λ _, replicate n region) (λ _, texts).

(** A grid whose rows have one gridcell more than the six columns. *)
Definition wide_grid : nat → Page :=
  λ _, showing [header ++ ["Remarks"]; trainee "R1" "Asha" ++ ["-"]].

(** A line of the instructor report with a number above a thousand. *)
Definition large_institute : DataFrame :=
  mkDataFrame cits_columns
    [VStr <$> ["GOA"; "NORTH GOA"; "ITI Panaji"; "Govt"; "4"; "1,014"; "7"; "3";
               "30.0 %"]].

End Sim.

(** * Properties *)

(** ** Running monadic code *)

Lemma bind_run {A B} (m : M A) (f : A → M B) (w : World) :
  (m ≫= f) w =
  match m w with
  | (Ret a, w') => f a w'
  | (Raise e, w') => (Raise e, w')
  | (OutOfFuel, w') => (OutOfFuel, w')
  end.
Proof. reflexivity. Qed.

Lemma bind_inv {A B} (m : M A) (f : A → M B) (w w' : World) (r : res B) :
  (m ≫= f) w = (r, w') →
  (∃ a w1, m w = (Ret a, w1) ∧ f a w1 = (r, w'))
  ∨ (∃ e, m w = (Raise e, w') ∧ r = Raise e)
  ∨ (m w = (OutOfFuel, w') ∧ r = OutOfFuel).
Proof.
  rewrite bind_run. destruct (m w) as [[a|e|] w1]; intros H.
  - left. eauto.
  - right; left. inversion H; subst. eauto.
  - right; right. inversion H; subst. eauto.
Qed.

(** ** Removing duplicates *)

Section dedup.
Context {A : Type} `{EqDecision A}.
Implicit Types (l seen : list A) (x : A).

Lemma elem_of_dedup_from seen l x :
  x ∈ dedup_from seen l ↔ x ∈ l ∧ x ∉ seen.
Proof.
  revert seen. induction l as [|y l IH]; intros seen; simpl.
  - rewrite elem_of_nil. tauto.
  - destruct (decide (y ∈ seen)) as [Hy|Hy].
    + rewrite IH, elem_of_cons. split; [tauto|].
      intros [[->|?] ?]; tauto.
    + rewrite !elem_of_cons, IH, elem_of_cons. split.
      * intros [->|[? ?]]; tauto.
      * intros [[->|?] ?]; [tauto|].
        destruct (decide (x = y)); tauto.
Qed.

Lemma NoDup_dedup_from seen l : NoDup (dedup_from seen l).
Proof.
  revert seen. induction l as [|y l IH]; intros seen; simpl.
  - constructor.
  - destruct (decide (y ∈ seen)); [apply IH|].
    constructor; [|apply IH].
    rewrite elem_of_dedup_from, elem_of_cons. tauto.
Qed.

Lemma dedup_from_ext seen seen' l :
  (∀ x, x ∈ seen ↔ x ∈ seen') → dedup_from seen l = dedup_from seen' l.
Proof.
  revert seen seen'. induction l as [|y l IH]; intros seen seen' Hs; simpl; [done|].
  destruct (decide (y ∈ seen)) as [Hy|Hy], (decide (y ∈ seen')) as [Hy'|Hy'].
  - by apply IH.
  - apply Hs in Hy. tauto.
  - apply Hs in Hy'. tauto.
  - f_equal. apply IH. intros x. rewrite !elem_of_cons, Hs. tauto.
Qed.

Lemma dedup_from_all_seen seen l :
  (∀ x, x ∈ l → x ∈ seen) → dedup_from seen l = [].
Proof.
  induction l as [|y l IH]; intros Hl; simpl; [done|].
  rewrite decide_True by (apply Hl; left).
  apply IH. intros x Hx. apply Hl. by right.
Qed.

Lemma dedup_from_app seen l1 l2 :
  dedup_from seen (l1 ++ l2) = dedup_from seen l1 ++ dedup_from (l1 ++ seen) l2.
Proof.
  revert seen. induction l1 as [|y l1 IH]; intros seen; simpl; [done|].
  destruct (decide (y ∈ seen)) as [Hy|Hy].
  - rewrite IH. f_equal. apply dedup_from_ext. intros x.
    rewrite elem_of_cons, !elem_of_app. split; [tauto|].
    intros [->|?]; tauto.
  - simpl. rewrite IH. do 2 f_equal. apply dedup_from_ext. intros x.
    rewrite elem_of_cons, !elem_of_app, elem_of_cons. tauto.
Qed.

Lemma dedup_from_NoDup seen l :
  NoDup l → (∀ x, x ∈ l → x ∉ seen) → dedup_from seen l = l.
Proof.
  revert seen. induction l as [|y l IH]; intros seen Hnd Hl; simpl; [done|].
  apply NoDup_cons in Hnd as [Hy Hnd].
  rewrite decide_False by (apply Hl; left).
  f_equal. apply IH; [done|].
  intros x Hx. rewrite elem_of_cons. intros [->|?]; [done|].
  eapply Hl; [right|]; eauto.
Qed.

(** Rows already held are not added again. *)
Lemma dedup_absorbs l new :
  NoDup l → (∀ x, x ∈ new → x ∈ l) → dedup_from [] (l ++ new) = l.
Proof.
  intros Hnd Hnew. rewrite dedup_from_app.
  rewrite dedup_from_NoDup by (done || intros ?; rewrite elem_of_nil; tauto).
  rewrite dedup_from_all_seen; [by rewrite app_nil_r|].
  intros x Hx. rewrite elem_of_app. left. by apply Hnew.
Qed.

End dedup.

(** ** One read and one scroll *)

Lemma bind_ret_run {A B} (m : M A) (f : A → M B) w a w1 :
  m w = (Ret a, w1) → (m ≫= f) w = f a w1.
Proof. intros H. by rewrite bind_run, H. Qed.

Lemma bind_raise_run {A B} (m : M A) (f : A → M B) w e w1 :
  m w = (Raise e, w1) → (m ≫= f) w = (Raise e, w1).
Proof. intros H. by rewrite bind_run, H. Qed.

Lemma set_clock_same w : set_clock (clock w) w = w.
Proof. by destruct w. Qed.

Lemma interact_ok w :
  fault (browser w (clock w)) = None →
  interact w = (Ret (browser w (clock w)), set_clock (S (clock w)) w).
Proof. unfold interact. by intros ->. Qed.

Lemma interact_fault w e :
  fault (browser w (clock w)) = Some e →
  interact w = (Raise e, set_clock (S (clock w)) w).
Proof. unfold interact. by intros ->. Qed.

Lemma extract_attempts_ok retries w :
  fault (browser w (clock w)) = None →
  extract_attempts (S retries) w =
    (Ret (Some (visible_rows (browser w (clock w)))), set_clock (S (clock w)) w).
Proof.
  intros Hok. simpl. unfold try_except.
  by rewrite (bind_ret_run _ _ _ _ _ (interact_ok w Hok)).
Qed.

Lemma extract_attempts_stale retries w :
  fault (browser w (clock w)) = Some StaleElementReferenceException →
  extract_attempts (S retries) w =
    extract_attempts retries (set_clock (S (clock w)) w).
Proof.
  intros Hst. simpl. unfold try_except.
  by rewrite (bind_raise_run _ _ _ _ _ (interact_fault w _ Hst)).
Qed.

Lemma extract_attempts_other retries w e :
  fault (browser w (clock w)) = Some e →
  e ≠ StaleElementReferenceException →
  extract_attempts (S retries) w = (Raise e, set_clock (S (clock w)) w).
Proof.
  intros He Hne. simpl. unfold try_except.
  rewrite (bind_raise_run _ _ _ _ _ (interact_fault w _ He)).
  by rewrite bool_decide_eq_false_2.
Qed.

(** When every attempt is stale, all the retries are used and the result
    is [None]. *)
Lemma extract_attempts_all_stale retries w :
  (∀ t, clock w ≤ t < clock w + retries →
        fault (browser w t) = Some StaleElementReferenceException) →
  extract_attempts retries w = (Ret None, set_clock (clock w + retries) w).
Proof.
  revert w. induction retries as [|n IH]; intros w Hst.
  - simpl. unfold mret, M_ret. by rewrite Nat.add_0_r, set_clock_same.
  - rewrite extract_attempts_stale by (apply Hst; lia).
    rewrite IH; simpl.
    + f_equal. unfold set_clock; simpl. f_equal. lia.
    + intros t Ht. apply Hst. lia.
Qed.

(** A read that returns rows took them from one page that answered. *)
Lemma extract_attempts_rows retries w rs w' :
  extract_attempts retries w = (Ret (Some rs), w') →
  ∃ t, clock w ≤ t ∧ w' = set_clock (S t) w
       ∧ fault (browser w t) = None ∧ rs = visible_rows (browser w t).
Proof.
  revert w. induction retries as [|n IH]; intros w; [done|].
  destruct (fault (browser w (clock w))) as [e|] eqn:Hf.
  - destruct (decide (e = StaleElementReferenceException)) as [->|Hne].
    + rewrite extract_attempts_stale by done. intros H.
      apply IH in H as (t & Ht & -> & Hok & ->). simpl in *.
      exists t. split; [lia|]. by destruct w.
    + by rewrite (extract_attempts_other _ _ e).
  - rewrite extract_attempts_ok by done. intros [= <- <-]. eauto.
Qed.

Lemma scroll_ok w :
  fault (browser w (clock w)) = None →
  grid (browser w (clock w)) ≠ [] →
  scroll_to_last_row w = (Ret tt, set_clock (S (clock w)) w).
Proof.
  intros Hok Hgrid. unfold scroll_to_last_row.
  rewrite (bind_ret_run _ _ _ _ _ (interact_ok w Hok)).
  by destruct (grid (browser w (clock w))).
Qed.

(** ** Building frames *)

Lemma width_exact (data : list (list string)) n :
  data ≠ [] → Forall (λ r, length r = n) data → width data = n.
Proof.
  intros Hne Hall. induction Hall as [|r data Hr Hall IH]; [done|].
  simpl. destruct data as [|r' data'].
  - simpl. lia.
  - rewrite IH by done. lia.
Qed.

Lemma pad_exact n (r : list string) : length r = n → pad n r = VStr <$> r.
Proof. intros <-. unfold pad. by rewrite Nat.sub_diag, app_nil_r. Qed.

Lemma pd_DataFrame_exact (data : list (list string)) cols :
  Forall (λ r, length r = length cols) data →
  pd_DataFrame (Some data) cols =
    Ret (mkDataFrame cols ((λ r : list string, VStr <$> r) <$> data)).
Proof.
  intros Hall. destruct data as [|r data]; [done|].
  unfold pd_DataFrame. rewrite decide_True by (by apply width_exact).
  do 2 f_equal. apply Forall_fmap_ext_1.
  eapply Forall_impl; [done|]. intros r' Hr'. by apply pad_exact.
Qed.

Lemma pd_DataFrame_columns data cols df :
  pd_DataFrame data cols = Ret df → columns df = cols.
Proof.
  destruct data as [[|r data]|]; simpl; try by intros [= <-].
  case_decide; [by intros [= <-]|done].
Qed.

Lemma pd_DataFrame_rows data cols df :
  pd_DataFrame (Some data) cols = Ret df → rows df = pad (length cols) <$> data.
Proof.
  destruct data as [|r data]; simpl; [by intros [= <-]|].
  case_decide; [by intros [= <-]|done].
Qed.

Lemma last_rows_all {A} (l : list A) : last_rows (length l) l = l.
Proof.
  unfold last_rows. destruct (length l) eqn:Hl; [done|].
  by rewrite Nat.sub_diag.
Qed.

Lemma elem_of_last_rows {A} k (l : list A) x : x ∈ last_rows k l → x ∈ l.
Proof.
  unfold last_rows. destruct k; [done|].
  intros Hx. rewrite <- (take_drop (length l - S k) l), elem_of_app. by right.
Qed.

Lemma drop_duplicates_concat_absorbs df new_df :
  NoDup (rows df) → (∀ r, r ∈ rows new_df → r ∈ rows df) →
  drop_duplicates (concat df new_df) = df.
Proof.
  intros Hnd Hsub. destruct df as [cols rs]. unfold drop_duplicates, concat; simpl in *.
  f_equal. by apply dedup_absorbs.
Qed.

(** ** One cycle of the accumulation loop *)

(** A cycle whose read and scroll both go through: the frame read is
    compared with the tail of the accumulated one, appended, and the loop
    goes on two interactions later. *)
Lemma scrape_loop_cycle fuel retries df w new_df :
  0 < retries →
  fault (browser w (clock w)) = None →
  pd_DataFrame (Some (visible_rows (browser w (clock w)))) trainee_columns
    = Ret new_df →
  fault (browser w (S (clock w))) = None →
  grid (browser w (S (clock w))) ≠ [] →
  scrape_loop (S fuel) retries df w =
    scrape_loop fuel
      (if negb (empty df) && equals (iloc_last (len new_df) df) new_df
       then retries - 1 else 5)
      (drop_duplicates (concat df new_df))
      (set_clock (S (S (clock w))) w).
Proof.
  intros Hr Hread Hdf Hscroll Hgrid. simpl.
  rewrite decide_True by done.
  unfold extract_visible_rows.
  rewrite (bind_ret_run _ _ _ _ _ (extract_attempts_ok 4 w Hread)).
  unfold lift at 1. rewrite bind_run, Hdf.
  rewrite (bind_ret_run _ _ (set_clock (S (clock w)) w) tt
             (set_clock (S (S (clock w))) w)); [done|].
  by rewrite scroll_ok.
Qed.

Lemma shows_tail_of_grid df p : shows_tail_of df p → grid p ≠ [].
Proof.
  intros (_ & new_df & Hdf & Hne & _) Hgrid.
  unfold visible_rows in Hdf. rewrite Hgrid in Hdf. simpl in Hdf.
  by injection Hdf as <-.
Qed.

Lemma iloc_last_nonempty k df new_df :
  iloc_last k df = new_df → rows new_df ≠ [] → columns new_df ≠ [] →
  empty df = false.
Proof.
  intros <- Hr Hc. simpl in *. unfold empty.
  destruct (rows df) as [|r rs]; [by destruct k|].
  rewrite bool_decide_eq_false_2 by done. simpl.
  by apply bool_decide_eq_false_2.
Qed.

(** Once every read shows the tail of what is accumulated, each cycle
    costs one retry and the loop returns the accumulated frame after
    [retries] cycles. *)
Lemma scrape_loop_stalled retries fuel df w :
  NoDup (rows df) →
  (∀ t, clock w ≤ t → shows_tail_of df (browser w t)) →
  retries < fuel →
  scrape_loop fuel retries df w = (Ret df, set_clock (clock w + 2 * retries) w).
Proof.
  intros Hnd. revert fuel w.
  induction retries as [|r IH]; intros fuel w Htail Hfuel;
    (destruct fuel as [|fuel]; [lia|]).
  - simpl. unfold mret, M_ret. by rewrite Nat.add_0_r, set_clock_same.
  - destruct (Htail (clock w)) as (Hok & new_df & Hdf & Hne & Hlast); [lia|].
    rewrite (scrape_loop_cycle fuel (S r) df w new_df); try done; try lia.
    + rewrite (iloc_last_nonempty (len new_df) df new_df); try done;
        [|by rewrite (pd_DataFrame_columns _ _ _ Hdf)].
      unfold equals. rewrite bool_decide_eq_true_2 by done. simpl.
      rewrite drop_duplicates_concat_absorbs; [|done|].
      * rewrite Nat.sub_0_r, IH; [|intros t Ht; apply Htail; simpl in *; lia|lia].
        f_equal. unfold set_clock; simpl. f_equal. lia.
      * intros x Hx. rewrite <- Hlast in Hx. simpl in Hx.
        by eapply elem_of_last_rows.
    + apply Htail. lia.
    + eapply shows_tail_of_grid. apply Htail. lia.
Qed.

Lemma shows_no_rows_visible p : shows_no_rows p → visible_rows p = [].
Proof.
  intros [_ Hlen]. unfold visible_rows.
  destruct (grid p) as [|r [|r' g]]; by simplify_eq/=.
Qed.

(** An empty read never counts as a stall: [df.iloc[-0:]] is the whole
    frame, so the comparison fails (or the frame is still empty) and the
    retries go back to 5.  When every read is empty the loop cannot end. *)
Lemma scrape_loop_empty_reads fuel retries df w :
  0 < retries →
  (∀ t, clock w ≤ t → shows_no_rows (browser w t)) →
  (scrape_loop fuel retries df w).1 = OutOfFuel.
Proof.
  revert retries df w. induction fuel as [|fuel IH]; intros retries df w Hr Hpages; [done|].
  destruct (Hpages (clock w)) as [Hok Hlen]; [lia|].
  destruct (Hpages (S (clock w))) as [Hok' Hlen']; [lia|].
  rewrite (scrape_loop_cycle fuel retries df w (mkDataFrame trainee_columns [])); try done.
  - assert (negb (empty df)
            && equals (iloc_last (len (mkDataFrame trainee_columns [])) df)
                 (mkDataFrame trainee_columns []) = false) as ->.
    { unfold empty, equals, iloc_last, last_rows; simpl.
      destruct df as [cols [|r rs]]; simpl; [done|].
      destruct (bool_decide (cols = [])); simpl; [done|].
      by apply bool_decide_eq_false_2. }
    apply IH; [lia|]. intros t Ht. apply Hpages. simpl in Ht. lia.
  - by rewrite shows_no_rows_visible.
  - intros Hg. by rewrite Hg in Hlen'.
Qed.

Lemma scrape_data_empty_reads fuel w :
  (∀ t, clock w ≤ t → shows_no_rows (browser w t)) →
  (scrape_data fuel w).1 = OutOfFuel.
Proof.
  intros Hpages. unfold scrape_data, try_except.
  rewrite bind_run. simpl. rewrite bind_run.
  assert (Hloop := scrape_loop_empty_reads fuel 5 (mkDataFrame trainee_columns [])
                     (set_trace (trace w ++ [Scraping]) w) ltac:(lia) Hpages).
  by destruct (scrape_loop fuel 5 _ _) as [[?|?|] ?].
Qed.

(** ** Static tables *)

Lemma static_visible_rows w table t :
  static_from w table → clock w ≤ t →
  visible_rows (browser w t) = drop 1 <$> table.
Proof.
  intros Hst Ht. destruct (Hst t Ht) as (_ & hdr & Hg).
  unfold visible_rows. by rewrite Hg.
Qed.

Lemma static_frame w table t :
  static_from w table → clock w ≤ t →
  Forall (λ cells, length cells = 7) table →
  pd_DataFrame (Some (visible_rows (browser w t))) trainee_columns
    = Ret (frame_of_table table).
Proof.
  intros Hst Ht Hall. rewrite (static_visible_rows w table) by done.
  rewrite pd_DataFrame_exact.
  - unfold frame_of_table. by rewrite <- list_fmap_compose.
  - apply Forall_fmap. eapply Forall_impl; [done|].
    intros cells Hc. simpl. rewrite length_drop, Hc. done.
Qed.

#[global] Instance VStr_inj : Inj (=) (=) VStr.
Proof. by intros s1 s2 [= ->]. Qed.

Lemma NoDup_frame_of_table table :
  NoDup (drop 1 <$> table) → NoDup (rows (frame_of_table table)).
Proof.
  intros Hnd. simpl.
  change (NoDup ((fmap VStr ∘ drop 1) <$> table)).
  rewrite list_fmap_compose.
  apply (NoDup_fmap_2 _), Hnd.
Qed.

Lemma static_shows_tail w table t :
  static_from w table → clock w ≤ t →
  table ≠ [] →
  Forall (λ cells, length cells = 7) table →
  shows_tail_of (frame_of_table table) (browser w t).
Proof.
  intros Hst Ht Hne Hall. split; [by apply Hst|].
  exists (frame_of_table table). split; [by apply static_frame|].
  split.
  - simpl. by destruct table.
  - unfold iloc_last, len. by rewrite last_rows_all.
Qed.

Lemma emit_run e w : emit e w = (Ret tt, set_trace (trace w ++ [e]) w).
Proof. reflexivity. Qed.

(** [scrape_data] is its loop, started two ways: what the loop returns is
    returned, what it raises is logged and turned into [None]. *)
Lemma scrape_data_run fuel w :
  scrape_data fuel w =
  match scrape_loop fuel 5 (mkDataFrame trainee_columns [])
          (set_trace (trace w ++ [Scraping]) w) with
  | (Ret df, w') => (Ret (Some df), w')
  | (Raise e, w') =>
      (Ret None, set_trace (trace w' ++ [if mentions_NoneType_name e
                                         then LogWarning "No rows to scrape."
                                         else LogError e]) w')
  | (OutOfFuel, w') => (OutOfFuel, w')
  end.
Proof.
  unfold scrape_data, try_except.
  rewrite (bind_ret_run _ _ _ _ _ (emit_run Scraping w)), bind_run.
  destruct (scrape_loop fuel 5 _ _) as [[df|e|] w']; try done.
  unfold any_Exception. by destruct (mentions_NoneType_name e).
Qed.

(** C3 (as amended).  Against a static table of K >= 1 rows, each made of
    the selector cell and six data cells, and pairwise different in their
    data cells, [scrape_data] returns: with fuel for seven evaluations of
    the loop test it gives the frame of exactly these K records, in
    order and without duplicates, after six read-and-scroll cycles. *)
Theorem C3_static_table_yields_its_rows
    (table : list (list string)) (w : World) (fuel : nat) :
  table ≠ [] →
  Forall (λ cells, length cells = 7) table →
  NoDup (drop 1 <$> table) →
  static_from w table →
  6 < fuel →
  scrape_data fuel w =
    (Ret (Some (frame_of_table table)),
     set_clock (clock w + 12) (set_trace (trace w ++ [Scraping]) w))
  ∧ len (frame_of_table table) = length table
  ∧ NoDup (rows (frame_of_table table)).
Proof.
  intros Hne Hall Hnd Hst Hfuel.
  split; [|split; [unfold len; simpl; by rewrite length_fmap
                  |by apply NoDup_frame_of_table]].
  destruct fuel as [|fuel]; [lia|].
  rewrite scrape_data_run.
  set (w1 := set_trace (trace w ++ [Scraping]) w).
  assert (static_from w1 table) as Hst1 by done.
  destruct (Hst1 (S (clock w1))) as (Hok' & hdr' & Hg'); [lia|].
  rewrite (scrape_loop_cycle fuel 5 _ w1 (frame_of_table table)); try done.
  - simpl negb. simpl andb.
    assert (drop_duplicates (concat (mkDataFrame trainee_columns []) (frame_of_table table))
            = frame_of_table table) as ->.
    { unfold drop_duplicates, concat, frame_of_table. simpl. f_equal.
      apply dedup_from_NoDup; [by apply NoDup_frame_of_table|].
      intros x _. apply not_elem_of_nil. }
    rewrite (scrape_loop_stalled 5 fuel); [| by apply NoDup_frame_of_table | | lia].
    + f_equal. unfold set_clock; simpl. f_equal. lia.
    + intros t Ht. apply (static_shows_tail w1); try done.
      subst w1. simpl in *. lia.
  - lia.
  - by apply Hst1.
  - by apply static_frame.
  - by rewrite Hg'.
Qed.

(** The theorem at a static table of two trainees: seven units of fuel,
    twelve interactions, the two records. *)
Lemma C3_static_table_yields_its_rows_witness :
  scrape_data 7 (Sim.world (Sim.static_table [Sim.trainee "R1" "Asha"; Sim.trainee "R2" "Binod"]) ∅)
  = (Ret (Some (mkDataFrame trainee_columns [Sim.record "R1" "Asha"; Sim.record "R2" "Binod"])),
     set_clock 12 (set_trace [Scraping]
       (Sim.world (Sim.static_table [Sim.trainee "R1" "Asha"; Sim.trainee "R2" "Binod"]) ∅))).
Proof.
  refine (proj1 (C3_static_table_yields_its_rows
            [Sim.trainee "R1" "Asha"; Sim.trainee "R2" "Binod"]
            (Sim.world (Sim.static_table [Sim.trainee "R1" "Asha"; Sim.trainee "R2" "Binod"]) ∅)
            7 _ _ _ _ _)).
  - done.
  - repeat constructor.
  - apply (bool_decide_unpack _). vm_compute. exact I.
  - intros t _. split; [done|]. by exists Sim.header.
  - lia.
Defined.

(** C3 (counterexample).  A static table without any row, header only:
    [scrape_data] does not return, whatever the fuel. *)
Lemma C3_static_empty_table_never_returns :
  ¬ ∃ fuel r w', scrape_data fuel (Sim.world (Sim.static_table []) ∅) = (Ret r, w').
Proof.
  intros (fuel & r & w' & Hrun).
  assert (H := scrape_data_empty_reads fuel (Sim.world (Sim.static_table []) ∅)).
  rewrite Hrun in H. discriminate H. intros t _. by split.
Qed.

(** C2 (failing input).  A grid that shows one trainee at the first read
    and only its header row afterwards has stopped producing new rows, but
    the loop never reaches its end: each empty read sets the retries back
    to 5, so no amount of fuel lets [scrape_data] return. *)
Theorem C2_empty_reads_reset_the_retry_budget (fuel : nat) :
  (scrape_data fuel (Sim.world Sim.vanishing_rows ∅)).1 = OutOfFuel.
Proof.
  destruct fuel as [|fuel]; [done|].
  rewrite scrape_data_run.
  set (w1 := set_trace _ _).
  rewrite (scrape_loop_cycle fuel 5 _ w1
             (mkDataFrame trainee_columns [Sim.record "R1" "Asha"])); try done; [|lia].
  match goal with
  | |- (match scrape_loop fuel ?r ?df ?w2 with _ => _ end).1 = _ =>
      assert (H := scrape_loop_empty_reads fuel r df w2 ltac:(simpl; lia));
      destruct (scrape_loop fuel r df w2) as [[?|?|] ?]
  end; simpl in *; try done.
  all: discriminate H; intros t Ht; by destruct t as [|[|t]]; [lia..|].
Qed.

(** ** What worker code leaves unchanged *)

#[global] Instance later_preorder disk allowed : PreOrder (later disk allowed).
Proof.
  split.
  - intros w. repeat split; try done. exists []. by rewrite app_nil_r.
  - intros w1 w2 w3 (Hb & Hl & Hq & Hs & Hp & Hc & (evs & Ht & Hev) & Hd)
                    (Hb' & Hl' & Hq' & Hs' & Hp' & Hc' & (evs' & Ht' & Hev') & Hd').
    repeat split; try congruence; try lia.
    + exists (evs ++ evs'). split; [by rewrite Ht', Ht, app_assoc|by apply Forall_app].
    + destruct (Hd H), (Hd' H). congruence.
    + destruct (Hd H), (Hd' H). congruence.
Qed.

Lemma later_weaken disk allowed allowed' w w' :
  (∀ e, allowed e → allowed' e) →
  later false allowed w w' → later disk allowed' w w'.
Proof.
  intros Himp (Hb & Hl & Hq & Hs & Hp & Hc & (evs & Ht & Hev) & Hd).
  repeat split; try done; try (by apply Hd).
  exists evs. split; [done|]. eapply Forall_impl; eauto.
Qed.

Section preserves.
Context (R : World → World → Prop) `{!PreOrder R}.

Lemma preserves_ret {A} (a : A) : preserves R (mret a).
Proof. intros w r w' [= _ <-]. reflexivity. Qed.

Lemma preserves_raise {A} e : preserves R (raise (A:=A) e).
Proof. intros w r w' [= _ <-]. reflexivity. Qed.

Lemma preserves_out_of_fuel {A} : preserves R (out_of_fuel (A:=A)).
Proof. intros w r w' [= _ <-]. reflexivity. Qed.

Lemma preserves_lift {A} (x : res A) : preserves R (lift x).
Proof. intros w r w' [= _ <-]. reflexivity. Qed.

Lemma preserves_bind {A B} (m : M A) (f : A → M B) :
  preserves R m → (∀ a, preserves R (f a)) → preserves R (m ≫= f).
Proof.
  intros Hm Hf w r w' Hrun.
  apply bind_inv in Hrun as [(a & w1 & H1 & H2)|[(e & H1 & _)|[H1 _]]].
  - transitivity w1; [by eapply Hm|by eapply Hf].
  - by eapply Hm.
  - by eapply Hm.
Qed.

Lemma preserves_try_except {A} (body : M A) catches handler :
  preserves R body → (∀ e, preserves R (handler e)) →
  preserves R (try_except body catches handler).
Proof.
  intros Hm Hh w r w'. unfold try_except.
  destruct (body w) as [[a|e|] w1] eqn:Hbody.
  - intros [= _ <-]. by eapply Hm.
  - destruct (catches e).
    + intros Hrun. transitivity w1; [by eapply Hm|by eapply Hh].
    + intros [= _ <-]. by eapply Hm.
  - intros [= _ <-]. by eapply Hm.
Qed.

Lemma preserves_try_finally {A} (body : M A) cleanup :
  preserves R body → preserves R cleanup →
  preserves R (try_finally body cleanup).
Proof.
  intros Hm Hc w r w'. unfold try_finally.
  destruct (body w) as [[a|e|] w1] eqn:Hbody.
  - intros Hrun. transitivity w1; [by eapply Hm|].
    eapply (preserves_bind cleanup (λ _, mret a)); eauto using @preserves_ret.
  - intros Hrun. transitivity w1; [by eapply Hm|].
    eapply (preserves_bind cleanup (λ _, raise e)); eauto using @preserves_raise.
  - intros [= _ <-]. by eapply Hm.
Qed.

End preserves.

Section later.
Context (disk : bool) (allowed : event → Prop).
Lemma later_interact : preserves (later disk allowed) interact.
Proof.
  intros w r w'. unfold interact.
  assert (later disk allowed w (set_clock (S (clock w)) w)) as Hstep.
  { repeat split; simpl; try done; try lia. exists []. by rewrite app_nil_r. }
  by destruct (fault _); intros [= _ <-].
Qed.

Lemma later_emit e : allowed e → preserves (later disk allowed) (emit e).
Proof.
  intros He w r w' [= _ <-]. repeat split; simpl; try done.
  exists [e]. split; [done|]. by constructor.
Qed.

Lemma later_create_folder path :
  disk = true → preserves (later disk allowed) (create_folder_if_not_exists path).
Proof.
  intros -> w r w' [= _ <-]. repeat split; simpl; try done.
  exists []. by rewrite app_nil_r.
Qed.

Lemma later_to_csv df path :
  disk = true → allowed (Saved path) → preserves (later disk allowed) (to_csv df path).
Proof.
  intros -> He w r w' [= _ <-]. repeat split; simpl; try done.
  exists [Saved path]. split; [done|]. by constructor.
Qed.

Hypothesis browsing_allowed : ∀ e, browsing_event e → allowed e.

Lemma later_safe_print msg : preserves (later disk allowed) (safe_print msg).
Proof.
  unfold safe_print.
  repeat (apply preserves_bind; [apply _| |intros ?]);
    apply later_emit; by apply browsing_allowed.
Qed.

Lemma later_extract_attempts retries : preserves (later disk allowed) (extract_attempts retries).
Proof.
  induction retries as [|n IH]; simpl.
  - apply preserves_ret, _.
  - apply preserves_try_except; [apply _| |done].
    apply preserves_bind; [apply _|apply later_interact|].
    intros p. apply preserves_ret, _.
Qed.

Lemma later_scroll : preserves (later disk allowed) scroll_to_last_row.
Proof.
  apply preserves_bind; [apply _|apply later_interact|].
  intros p. destruct (grid p); [apply preserves_raise|apply preserves_ret]; apply _.
Qed.

Lemma later_scrape_loop fuel retries df : preserves (later disk allowed) (scrape_loop fuel retries df).
Proof.
  revert retries df. induction fuel as [|fuel IH]; intros retries df; simpl.
  - apply preserves_out_of_fuel, _.
  - case_decide; [|apply preserves_ret, _].
    apply preserves_bind; [apply _|apply later_extract_attempts|]. intros new_rows.
    apply preserves_bind; [apply _|apply preserves_lift, _|]. intros new_df.
    apply preserves_bind; [apply _|apply later_scroll|]. intros _. apply IH.
Qed.

Lemma later_clear_filters : preserves (later disk allowed) clear_filters.
Proof.
  apply preserves_try_except; [apply _| |].
  - repeat (apply preserves_bind; [apply _|apply later_interact|intros ?]).
    apply preserves_ret, _.
  - intros e. case_bool_decide; apply later_safe_print.
Qed.

Lemma later_initialize_dropdowns : preserves (later disk allowed) initialize_dropdowns.
Proof.
  apply preserves_bind; [apply _|apply later_interact|intros p].
  repeat (apply preserves_bind; [apply _|apply preserves_lift, _|intros ?]).
  apply preserves_ret, _.
Qed.

Lemma later_select_option filters name value :
  preserves (later disk allowed) (select_option_from_dropdown filters name value).
Proof.
  apply preserves_bind; [apply _|apply preserves_lift, _|intros ?].
  repeat (apply preserves_bind; [apply _|apply later_interact|intros ?]).
  apply preserves_ret, _.
Qed.

Lemma later_search_select filters name value :
  preserves (later disk allowed) (search_select_from_dropdown filters name value).
Proof.
  apply preserves_try_except; [apply _| |].
  - apply preserves_bind; [apply _|apply preserves_lift, _|intros ?].
    repeat (apply preserves_bind; [apply _|apply later_interact|intros ?]).
    apply preserves_ret, _.
  - intros e. apply later_emit. by apply browsing_allowed.
Qed.

Lemma later_open_and_filter k : preserves (later disk allowed) (open_and_filter k).
Proof.
  destruct k as [[state category] year]. unfold open_and_filter.
  repeat first
    [ apply later_interact | apply later_clear_filters
    | apply later_initialize_dropdowns | apply later_search_select
    | apply later_select_option
    | apply preserves_bind; [apply _| |intros ?] ].
Qed.

Lemma later_scrape_data fuel :
  allowed Scraping → preserves (later disk allowed) (scrape_data fuel).
Proof.
  intros Hs. apply preserves_try_except; [apply _| |].
  - apply preserves_bind; [apply _|by apply later_emit|intros _].
    apply preserves_bind; [apply _|apply later_scrape_loop|intros ?].
    apply preserves_ret, _.
  - intros e. apply preserves_bind; [apply _| |intros _; apply preserves_ret, _].
    destruct (mentions_NoneType_name e); apply later_emit; by apply browsing_allowed.
Qed.

End later.

Lemma later_scrape_unit out fuel k :
  preserves (later true not_reporting) (scrape_unit out fuel k).
Proof.
  assert (∀ e, browsing_event e → not_reporting e) as Hb by (by intros []).
  destruct k as [[state category] year]. unfold scrape_unit.
  apply preserves_bind; [apply _|by apply later_open_and_filter|intros _].
  apply preserves_bind; [apply _|by apply later_extract_attempts|intros visible].
  apply preserves_bind; [apply _|apply preserves_lift, _|intros n].
  case_decide.
  - apply preserves_bind; [apply _|by apply later_emit|intros _].
    apply preserves_raise, _.
  - apply preserves_bind; [apply _|by apply later_scrape_data|intros df0].
    apply preserves_bind; [apply _|apply preserves_lift, _|intros df].
    repeat (apply preserves_bind; [apply _|by apply later_create_folder|intros _]).
    by apply later_to_csv.
Qed.

(** ** The worker around its [try] block *)

Lemma finally_run k n w :
  quit_fault w = None → progress w !! k = Some n →
  (driver_quit ≫= λ _, with_lock (increment k)) w
    = (Ret tt, torn_down_and_reported k n w).
Proof.
  intros Hq Hp. rewrite bind_run. unfold driver_quit. rewrite Hq.
  unfold with_lock. rewrite bind_run. simpl emit.
  unfold try_finally, increment. simpl. rewrite Hp. simpl.
  unfold torn_down_and_reported, set_trace, set_progress, set_session. simpl.
  rewrite bind_run. simpl. by rewrite <- !app_assoc.
Qed.

Lemma finally_quit_fault k e w :
  quit_fault w = Some e →
  (driver_quit ≫= λ _, with_lock (increment k)) w = (Raise e, w).
Proof. intros Hq. rewrite bind_run. unfold driver_quit. by rewrite Hq. Qed.

(** The worker in terms of its [try] block, for a session that starts. *)
Lemma worker_run out fuel k n w :
  launch_fault w = None → quit_fault w = None → progress w !! k = Some n →
  parallel_scrape_over_categories out fuel k w =
  match scrape_unit out fuel k (set_session true w) with
  | (Ret _, w2) => (Ret tt, torn_down_and_reported k n w2)
  | (Raise e, w2) =>
      (Ret tt, torn_down_and_reported k n (set_trace (trace w2 ++ [LogError e]) w2))
  | (OutOfFuel, w2) => (OutOfFuel, w2)
  end.
Proof.
  intros Hl Hq Hp. unfold parallel_scrape_over_categories.
  rewrite bind_run. unfold webdriver_Chrome. rewrite Hl.
  unfold try_finally, try_except.
  destruct (scrape_unit out fuel k (set_session true w)) as [[[]|e|] w2] eqn:Hbody;
    [| |done].
  - apply later_scrape_unit in Hbody as (_ & _ & Hq2 & _ & Hp2 & _). simpl in *.
    rewrite bind_run, (finally_run k n); [done|congruence|congruence].
  - apply later_scrape_unit in Hbody as (_ & _ & Hq2 & _ & Hp2 & _). simpl in *.
    unfold any_Exception. simpl emit.
    rewrite bind_run, (finally_run k n); [done|simpl; congruence|simpl; congruence].
Qed.

(** C5 (as amended).  When the browser session could be created, its
    [quit()] returns and the unit has its entry in the progress
    dictionary, then whatever the [try] block does short of not
    finishing (return, skip of an empty unit, any exception), the worker
    returns normally, the session is closed, and the entry of the unit
    has been incremented exactly once, between taking and releasing the
    lock, as the last thing the worker did.  Nothing the [try] block
    itself left in the trace is a teardown or an increment, and what it
    raised was logged by the handler. *)
Theorem C5_worker_reports_whatever_the_try_block_does
    (out : string) (fuel : nat) (k : Key) (n : nat) (w : World) :
  launch_fault w = None →
  quit_fault w = None →
  progress w !! k = Some n →
  (scrape_unit out fuel k (set_session true w)).1 ≠ OutOfFuel →
  ∃ w' evs,
    parallel_scrape_over_categories out fuel k w = (Ret tt, w')
    ∧ session w' = false
    ∧ progress w' = <[k := n + 1]> (progress w)
    ∧ trace w' = trace w ++ evs ++ [Quit; Acquire; Increment k; Release]
    ∧ Forall not_reporting evs
    ∧ ∀ e, (scrape_unit out fuel k (set_session true w)).1 = Raise e →
           last evs = Some (LogError e).
Proof.
  intros Hl Hq Hp Hfuel. rewrite (worker_run out fuel k n) by done.
  destruct (scrape_unit out fuel k (set_session true w)) as [[[]|e|] w2] eqn:Hbody;
    [| |done];
    apply later_scrape_unit in Hbody
      as (_ & _ & _ & _ & Hp2 & _ & (evs & Ht & Hev) & _); simpl in *.
  - exists (torn_down_and_reported k n w2), evs. repeat split; simpl; try done.
    + by rewrite Hp2.
    + by rewrite Ht, <- app_assoc.
  - exists (torn_down_and_reported k n (set_trace (trace w2 ++ [LogError e]) w2)),
      (evs ++ [LogError e]).
    repeat split; simpl; try done.
    + by rewrite Hp2.
    + by rewrite Ht, <- !app_assoc.
    + apply Forall_app. split; [done|]. by repeat constructor.
    + intros e' [= <-]. by rewrite last_snoc.
Qed.

(** The theorem at a unit whose page shows one trainee. *)
Lemma C5_worker_reports_whatever_the_try_block_does_witness :
  ∃ w' evs,
    parallel_scrape_over_categories "out" 7 Sim.unit_1
      (Sim.world (Sim.static_table [Sim.trainee "R1" "Asha"]) {[Sim.unit_1 := 0]})
      = (Ret tt, w')
    ∧ session w' = false
    ∧ progress w' = <[Sim.unit_1 := 0 + 1]> {[Sim.unit_1 := 0]}
    ∧ trace w' = [] ++ evs ++ [Quit; Acquire; Increment Sim.unit_1; Release]
    ∧ Forall not_reporting evs
    ∧ ∀ e, (scrape_unit "out" 7 Sim.unit_1
              (set_session true
                 (Sim.world (Sim.static_table [Sim.trainee "R1" "Asha"])
                    {[Sim.unit_1 := 0]}))).1 = Raise e →
           last evs = Some (LogError e).
Proof.
  refine (C5_worker_reports_whatever_the_try_block_does "out" 7 Sim.unit_1 0
            (Sim.world (Sim.static_table [Sim.trainee "R1" "Asha"]) {[Sim.unit_1 := 0]})
            _ _ _ _).
  - reflexivity.
  - reflexivity.
  - vm_compute. reflexivity.
  - vm_compute. discriminate.
Defined.

(** C5 (counterexample).  [webdriver.Chrome(...)] is called before the
    [try]: when it raises, the exception leaves the worker, and the entry
    of the unit is not incremented. *)
Lemma C5_session_creation_failure_escapes :
  parallel_scrape_over_categories "out" 7 Sim.unit_1 Sim.no_browser
    = (Raise WebDriverException, Sim.no_browser)
  ∧ progress Sim.no_browser !! Sim.unit_1 = Some 0.
Proof. split; vm_compute; reflexivity. Qed.

(** ** Empty units *)

Lemma scrape_unit_skips out fuel k w w1 w2 :
  open_and_filter k w = (Ret tt, w1) →
  extract_visible_rows w1 = (Ret (Some []), w2) →
  scrape_unit out fuel k w =
    (Raise (Exception "Skipping this state-category-year combination..."),
     set_trace (trace w2 ++ [LogWarning "No data available"]) w2).
Proof.
  intros Hopen Hread. destruct k as [[state category] year]. unfold scrape_unit.
  rewrite (bind_ret_run _ _ _ _ _ Hopen), (bind_ret_run _ _ _ _ _ Hread).
  reflexivity.
Qed.

(** C7.  When the filters were applied and the visibility check that
    follows reads an empty list of rows, the worker, for any fuel, logs the
    skip and goes straight to its [finally]: [scrape_data] is not entered
    and nothing is saved (no [Scraping], no [Saved] event; files and
    folders as before; no interaction after the check), and the entry of
    the unit is incremented exactly once. *)
Theorem C7_empty_unit_is_skipped_and_reported
    (out : string) (fuel : nat) (k : Key) (n : nat) (w w1 w2 : World) :
  launch_fault w = None →
  quit_fault w = None →
  progress w !! k = Some n →
  open_and_filter k (set_session true w) = (Ret tt, w1) →
  extract_visible_rows w1 = (Ret (Some []), w2) →
  ∃ w' evs,
    parallel_scrape_over_categories out fuel k w = (Ret tt, w')
    ∧ trace w' = trace w ++ evs ++
        [LogWarning "No data available";
         LogError (Exception "Skipping this state-category-year combination...");
         Quit; Acquire; Increment k; Release]
    ∧ Forall browsing_event evs
    ∧ files w' = files w
    ∧ folders w' = folders w
    ∧ clock w' = clock w2
    ∧ progress w' = <[k := n + 1]> (progress w)
    ∧ session w' = false.
Proof.
  intros Hl Hq Hp Hopen Hread.
  rewrite (worker_run out fuel k n) by done.
  rewrite (scrape_unit_skips out fuel k _ w1 w2) by done.
  apply (later_open_and_filter false browsing_event) in Hopen
    as (_ & _ & _ & _ & Hp1 & _ & (evs1 & Ht1 & Hev1) & Hd1); [|done].
  apply (later_extract_attempts false browsing_event) in Hread
    as (_ & _ & _ & _ & Hp2 & _ & (evs2 & Ht2 & Hev2) & Hd2).
  destruct (Hd1 eq_refl) as [Hfo1 Hfi1], (Hd2 eq_refl) as [Hfo2 Hfi2].
  simpl in *.
  eexists _, (evs1 ++ evs2). repeat split; simpl.
  - by rewrite Ht2, Ht1, <- !app_assoc.
  - by apply Forall_app.
  - congruence.
  - congruence.
  - congruence.
Qed.

(** The theorem at a unit whose page shows the header row only: the
    filters take 23 interactions, the visibility check one more, and no
    fuel is needed. *)
Lemma C7_empty_unit_is_skipped_and_reported_witness :
  ∃ w' evs,
    parallel_scrape_over_categories "out" 0 Sim.unit_1
      (Sim.world (Sim.static_table []) {[Sim.unit_1 := 0]}) = (Ret tt, w')
    ∧ trace w' = [] ++ evs ++
        [LogWarning "No data available";
         LogError (Exception "Skipping this state-category-year combination...");
         Quit; Acquire; Increment Sim.unit_1; Release]
    ∧ Forall browsing_event evs
    ∧ files w' = ∅
    ∧ folders w' = ∅
    ∧ clock w' = 24
    ∧ progress w' = <[Sim.unit_1 := 0 + 1]> {[Sim.unit_1 := 0]}
    ∧ session w' = false.
Proof.
  refine (C7_empty_unit_is_skipped_and_reported "out" 0 Sim.unit_1 0
            (Sim.world (Sim.static_table []) {[Sim.unit_1 := 0]})
            (set_clock 23 (set_session true
               (Sim.world (Sim.static_table []) {[Sim.unit_1 := 0]})))
            (set_clock 24 (set_session true
               (Sim.world (Sim.static_table []) {[Sim.unit_1 := 0]})))
            _ _ _ _ _).
  - reflexivity.
  - reflexivity.
  - vm_compute. reflexivity.
  - vm_compute. reflexivity.
  - vm_compute. reflexivity.
Defined.

(** ** Where the records of a frame come from *)

Lemma read_from_mono b lo hi hi' record :
  hi ≤ hi' → read_from b lo hi record → read_from b lo hi' record.
Proof.
  intros Hle (t & i & cells & Ht & H). exists t, i, cells. split; [lia|done].
Qed.

Lemma elem_of_visible_rows p row :
  row ∈ visible_rows p →
  ∃ i cells, 1 ≤ i ∧ grid p !! i = Some cells ∧ row = drop 1 cells.
Proof.
  unfold visible_rows. intros Hrow.
  apply list_elem_of_lookup in Hrow as [j Hj].
  rewrite lookup_drop, list_lookup_fmap in Hj.
  destruct (grid p !! (1 + j)) as [cells|] eqn:Hcells; [|done].
  injection Hj as <-. exists (1 + j), cells. split; [lia|done].
Qed.

(** Monadic code that returned went through each of its steps. *)
Ltac run_inv H :=
  let a := fresh "a" in
  let w := fresh "w" in
  let e := fresh "e" in
  let H1 := fresh "Hstep" in
  apply bind_inv in H as [(a & w & H1 & H)|[(e & _ & H)|[_ H]]];
  [|discriminate H..].

Lemma new_frame_read_from (new_rows : option (list (list string))) new_df w w1 lo :
  extract_visible_rows w = (Ret new_rows, w1) →
  pd_DataFrame new_rows trainee_columns = Ret new_df →
  lo ≤ clock w →
  ∀ r, r ∈ rows new_df → read_from (browser w) lo (clock w1) r.
Proof.
  intros Hread Hdf Hlo r Hr.
  destruct new_rows as [rs|];
    [|injection Hdf as <-; by apply elem_of_nil in Hr].
  apply extract_attempts_rows in Hread as (t & Ht & -> & Hok & ->).
  apply pd_DataFrame_rows in Hdf. rewrite Hdf in Hr.
  apply list_elem_of_fmap in Hr as (row & -> & Hrow).
  apply elem_of_visible_rows in Hrow as (i & cells & Hi & Hcells & ->).
  exists t, i, cells. simpl. repeat split; try done; lia.
Qed.

(** The loop keeps a frame without duplicates whose records all come from
    reads at positions other than the first. *)
Lemma scrape_loop_rows fuel retries df w df' w' lo :
  scrape_loop fuel retries df w = (Ret df', w') →
  lo ≤ clock w →
  NoDup (rows df) →
  (∀ r, r ∈ rows df → read_from (browser w) lo (clock w) r) →
  NoDup (rows df') ∧ ∀ r, r ∈ rows df' → read_from (browser w) lo (clock w') r.
Proof.
  revert retries df w. induction fuel as [|fuel IH]; intros retries df w Hrun Hlo Hnd Hfrom;
    [done|].
  simpl in Hrun. case_decide.
  2:{ injection Hrun as <- <-. done. }
  run_inv Hrun. rename a into new_rows, w0 into w1, Hstep into Hread.
  run_inv Hrun. rename a into new_df, w0 into w2, Hstep into Hdf.
  injection Hdf as Hdf <-.
  run_inv Hrun. rename w0 into w3, Hstep into Hscroll.
  pose proof (later_extract_attempts false (λ _, True) 5 w _ _ Hread)
    as (Hb1 & _ & _ & _ & _ & Hc1 & _).
  pose proof (later_scroll false (λ _, True) w1 _ _ Hscroll)
    as (Hb3 & _ & _ & _ & _ & Hc3 & _).
  apply IH in Hrun as [Hnd' Hfrom'].
  - split; [done|]. intros r Hr. rewrite <- Hb1, <- Hb3. by apply Hfrom'.
  - lia.
  - apply NoDup_dedup_from.
  - intros r Hr. simpl in Hr.
    apply elem_of_dedup_from in Hr as [Hr _].
    rewrite Hb3, Hb1. apply elem_of_app in Hr as [Hr|Hr].
    + eapply read_from_mono; [|by apply Hfrom]. lia.
    + eapply read_from_mono; [|by eapply new_frame_read_from]. lia.
Qed.

Lemma scrape_data_rows fuel w df w' :
  scrape_data fuel w = (Ret (Some df), w') →
  NoDup (rows df) ∧ ∀ r, r ∈ rows df → read_from (browser w) (clock w) (clock w') r.
Proof.
  rewrite scrape_data_run.
  destruct (scrape_loop fuel 5 _ _) as [[df'|e|] w1] eqn:Hloop; [|done..].
  intros [= <- <-].
  apply scrape_loop_rows with (lo := clock w) in Hloop; simpl; try done.
  - constructor.
  - intros r Hr. by apply elem_of_nil in Hr.
Qed.

(** C1.  When the [try] block of a worker returns, which it only does
    through its last statement, the save, the file of the unit holds a
    frame in which no two records agree on every column, and every
    record is [cells[1:]] of a row found at a position [i >= 1] of some
    read made by this worker, followed by the three values of the unit:
    nothing is built from the row at position 0 of a read. *)
Theorem C1_saved_rowset_has_no_duplicate_and_no_first_row
    (out : string) (fuel : nat) (state category : string) (year : Z)
    (w w' : World) :
  scrape_unit out fuel (state, category, year) w = (Ret tt, w') →
  ∃ df,
    files w' !! csv_path out (state, category, year) = Some df
    ∧ last (trace w') = Some (Saved (csv_path out (state, category, year)))
    ∧ NoDup (rows df)
    ∧ ∀ record, record ∈ rows df →
        ∃ t i cells,
          clock w ≤ t < clock w' ∧ fault (browser w t) = None
          ∧ 1 ≤ i ∧ grid (browser w t) !! i = Some cells
          ∧ record = pad 6 (drop 1 cells) ++ [VStr state; VStr category; VInt year].
Proof.
  intros Hrun. unfold scrape_unit in Hrun.
  run_inv Hrun. rename w0 into w1, Hstep into Hopen.
  run_inv Hrun. rename a0 into visible, w0 into w2, Hstep into Hvisible.
  run_inv Hrun. rename a0 into n, w0 into w2', Hstep into Hlen.
  injection Hlen as Hlen <-.
  case_decide; [by run_inv Hrun|].
  run_inv Hrun. rename a0 into scraped, w0 into w3, Hstep into Hscrape.
  run_inv Hrun. rename a0 into df, w0 into w3', Hstep into Hset.
  injection Hset as Hset <-.
  destruct scraped as [df0|]; [|done]. injection Hset as <-.
  run_inv Hrun. rename w0 into w4, Hstep into Hf1. injection Hf1 as <-.
  run_inv Hrun. rename w0 into w5, Hstep into Hf2. injection Hf2 as <-.
  injection Hrun as <-.
  pose proof (later_open_and_filter false (λ _, True) ltac:(done) _ _ _ _ Hopen)
    as (Hb1 & _ & _ & _ & _ & Hc1 & _).
  pose proof (later_extract_attempts false (λ _, True) 5 _ _ _ Hvisible)
    as (Hb2 & _ & _ & _ & _ & Hc2 & _).
  apply scrape_data_rows in Hscrape as [Hnd Hfrom].
  eexists. split; [apply lookup_insert_eq|]. simpl.
  split; [by rewrite last_snoc|].
  split; [apply NoDup_dedup_from|].
  intros record Hrecord.
  apply elem_of_dedup_from in Hrecord as [Hrecord _].
  apply list_elem_of_fmap in Hrecord as (r2 & -> & Hr2).
  apply list_elem_of_fmap in Hr2 as (r1 & -> & Hr1).
  apply list_elem_of_fmap in Hr1 as (r0 & -> & Hr0).
  apply Hfrom in Hr0 as (t & i & cells & Ht & Hok & Hi & Hcells & ->).
  rewrite Hb2, Hb1 in Hok, Hcells.
  exists t, i, cells. subst w4 w5. simpl. repeat split; try done; try lia.
  by rewrite <- !app_assoc.
Qed.

(** The theorem at a unit whose page shows one trainee. *)
Lemma C1_saved_rowset_has_no_duplicate_and_no_first_row_witness :
  ∃ df,
    files (scrape_unit "out" 7 Sim.unit_1
             (Sim.world (Sim.static_table [Sim.trainee "R1" "Asha"]) ∅)).2
      !! csv_path "out" Sim.unit_1 = Some df
    ∧ NoDup (rows df).
Proof.
  destruct (C1_saved_rowset_has_no_duplicate_and_no_first_row "out" 7
              "GOA" "GEN" 2015
              (Sim.world (Sim.static_table [Sim.trainee "R1" "Asha"]) ∅)
              (scrape_unit "out" 7 Sim.unit_1
                 (Sim.world (Sim.static_table [Sim.trainee "R1" "Asha"]) ∅)).2)
    as (df & Hfile & _ & Hnd & _).
  - vm_compute. reflexivity.
  - exists df. split; [exact Hfile|exact Hnd].
Defined.

(** ** Reads that are all stale *)

Lemma empty_read_is_no_stall df :
  negb (empty df)
  && equals (iloc_last (len (mkDataFrame trainee_columns [])) df)
       (mkDataFrame trainee_columns []) = false.
Proof.
  unfold empty, equals, iloc_last, last_rows; simpl.
  destruct df as [cols [|r rs]]; simpl; [done|].
  destruct (bool_decide (cols = [])); simpl; [done|].
  by apply bool_decide_eq_false_2.
Qed.

(** C10 (as amended).  When its five read attempts all raise the
    stale-element condition, [extract_visible_rows] has made exactly five
    requests and returns [None].  The zero-row visibility check takes
    [len] of that and raises [TypeError] (which the handler of the worker
    then logs).  [scrape_data] does not fail on it: [pd.DataFrame(None,
    columns = ...)] is the empty frame, the cycle counts as a read without
    rows, sets the retries to 5 and goes on with the scroll. *)
Theorem C10_all_stale_read_returns_None (w : World) :
  all_stale w →
  extract_visible_rows w = (Ret None, set_clock (clock w + 5) w)
  ∧ (∀ out fuel k w0,
       open_and_filter k w0 = (Ret tt, w) →
       scrape_unit out fuel k w0 = (Raise TypeError, set_clock (clock w + 5) w))
  ∧ pd_DataFrame None trainee_columns = Ret (mkDataFrame trainee_columns [])
  ∧ (∀ fuel retries df,
       0 < retries →
       scrape_loop (S fuel) retries df w =
         (scroll_to_last_row ≫= λ _,
            scrape_loop fuel 5
              (drop_duplicates (concat df (mkDataFrame trainee_columns []))))
           (set_clock (clock w + 5) w)).
Proof.
  intros Hstale.
  assert (extract_visible_rows w = (Ret None, set_clock (clock w + 5) w)) as Hread
    by by apply extract_attempts_all_stale.
  repeat split; [done| |].
  - intros out fuel [[state category] year] w0 Hopen. unfold scrape_unit.
    by rewrite (bind_ret_run _ _ _ _ _ Hopen), (bind_ret_run _ _ _ _ _ Hread).
  - intros fuel retries df Hr. simpl. rewrite decide_True by done.
    rewrite (bind_ret_run _ _ _ _ _ Hread). unfold lift at 1.
    rewrite bind_run. simpl pd_DataFrame. cbv iota.
    by rewrite empty_read_is_no_stall.
Qed.

(** The theorem at a page that is stale for its first five interactions. *)
Lemma C10_all_stale_read_returns_None_witness :
  extract_visible_rows (Sim.world Sim.stale_then_static ∅)
  = (Ret None, set_clock 5 (Sim.world Sim.stale_then_static ∅)).
Proof.
  refine (proj1 (C10_all_stale_read_returns_None
                   (Sim.world Sim.stale_then_static ∅) _)).
  intros t Ht. simpl in Ht.
  destruct t as [|[|[|[|[|t]]]]]; try reflexivity. lia.
Defined.

(** C10 (counterexample).  Five stale reads followed by a static table with
    one trainee: the first read of [scrape_data] returns [None], and
    [scrape_data] raises nothing and logs nothing; it returns the frame
    with the trainee. *)
Lemma C10_scrape_data_takes_None_for_no_rows :
  extract_visible_rows (Sim.world Sim.stale_then_static ∅)
    = (Ret None, set_clock 5 (Sim.world Sim.stale_then_static ∅))
  ∧ scrape_data 8 (Sim.world Sim.stale_then_static ∅)
    = (Ret (Some (mkDataFrame trainee_columns [Sim.record "R1" "Asha"])),
       set_clock 18 (set_trace [Scraping] (Sim.world Sim.stale_then_static ∅))).
Proof. split; vm_compute; reflexivity. Qed.

(** ** Faults met while a filter is set *)

Lemma interact_bind {A} (f : Page → M A) w :
  (interact ≫= f) w =
  match fault (browser w (clock w)) with
  | Some e => (Raise e, set_clock (S (clock w)) w)
  | None => f (browser w (clock w)) (set_clock (S (clock w)) w)
  end.
Proof. rewrite bind_run. unfold interact. by destruct (fault _). Qed.

Lemma select_option_run filters name value w :
  is_Some (filters !! name) →
  select_option_from_dropdown filters name value w =
  match next_fault (browser w) (clock w) 5 with
  | Some (t, e) => (Raise e, set_clock (S t) w)
  | None => (Ret tt, set_clock (clock w + 5) w)
  end.
Proof.
  intros [x Hx]. unfold select_option_from_dropdown, dict_get. rewrite Hx.
  unfold lift at 1. rewrite bind_run. simpl next_fault.
  repeat (rewrite interact_bind; simpl clock; simpl browser;
          destruct (fault _); [done|]).
  unfold mret, M_ret. f_equal. unfold set_clock; simpl. f_equal. lia.
Qed.

Lemma search_select_run filters name value w :
  is_Some (filters !! name) →
  search_select_from_dropdown filters name value w =
  match next_fault (browser w) (clock w) 6 with
  | Some (t, e) =>
      if search_select_catches e
      then (Ret tt, set_trace (trace w ++ [LogError e]) (set_clock (S t) w))
      else (Raise e, set_clock (S t) w)
  | None => (Ret tt, set_clock (clock w + 6) w)
  end.
Proof.
  intros [x Hx]. unfold search_select_from_dropdown, try_except, dict_get.
  rewrite Hx. unfold lift at 1. rewrite bind_run. simpl next_fault.
  repeat (rewrite interact_bind; simpl clock; simpl browser;
          destruct (fault _) as [e|]; [by destruct (search_select_catches e)|]).
  unfold mret, M_ret. f_equal. unfold set_clock; simpl. f_equal. lia.
Qed.

(** C8 (as amended).  Search-select catches and logs a click that is
    intercepted, a missing element and a timeout, and then returns
    normally; a stale element, an element that is not interactable and
    any other error are raised to its caller.  Direct-select has no
    handler: the first error met in its five interactions, whatever it
    is, is raised to its caller.  In both, the interactions after the
    failed one are not made. *)
Theorem C8_which_selection_errors_are_caught
    (filters : gmap string (option string)) (name value : string) (w : World) :
  is_Some (filters !! name) →
  select_option_from_dropdown filters name value w =
    match next_fault (browser w) (clock w) 5 with
    | Some (t, e) => (Raise e, set_clock (S t) w)
    | None => (Ret tt, set_clock (clock w + 5) w)
    end
  ∧ search_select_from_dropdown filters name value w =
    match next_fault (browser w) (clock w) 6 with
    | Some (t, e) =>
        if search_select_catches e
        then (Ret tt, set_trace (trace w ++ [LogError e]) (set_clock (S t) w))
        else (Raise e, set_clock (S t) w)
    | None => (Ret tt, set_clock (clock w + 6) w)
    end
  ∧ (∀ e, search_select_catches e = true ↔
          e = ElementClickInterceptedException ∨ e = NoSuchElementException
          ∨ e = TimeoutException).
Proof.
  intros Hname. split; [by apply select_option_run|].
  split; [by apply search_select_run|].
  intros e. unfold search_select_catches.
  rewrite !orb_true_iff, !bool_decide_eq_true. tauto.
Qed.

(** The theorem at a search-select whose option is never found: the
    timeout of the fourth request is logged and the function returns. *)
Lemma C8_which_selection_errors_are_caught_witness :
  search_select_from_dropdown Sim.filters "STATE_NAME" "GOA"
    (Sim.world Sim.option_never_found ∅)
  = (Ret tt, set_trace [LogError TimeoutException]
               (set_clock 4 (Sim.world Sim.option_never_found ∅))).
Proof.
  refine (proj1 (proj2 (C8_which_selection_errors_are_caught Sim.filters
            "STATE_NAME" "GOA" (Sim.world Sim.option_never_found ∅) _))).
  vm_compute. eexists. reflexivity.
Defined.

(** C8 (counterexample).  The option never becomes clickable: direct-select
    raises the timeout to its caller.  The dropdown goes stale before it
    is clicked: search-select raises the stale-element error to its
    caller and logs nothing. *)
Lemma C8_selection_errors_that_escape :
  select_option_from_dropdown Sim.filters "CATEGORY" "GEN"
    (Sim.world Sim.option_never_clickable ∅)
  = (Raise TimeoutException, set_clock 3 (Sim.world Sim.option_never_clickable ∅))
  ∧ search_select_from_dropdown Sim.filters "STATE_NAME" "GOA"
      (Sim.world Sim.dropdown_goes_stale ∅)
  = (Raise StaleElementReferenceException,
     set_clock 2 (Sim.world Sim.dropdown_goes_stale ∅)).
Proof. split; vm_compute; reflexivity. Qed.

(** ** Paths *)

Lemma index_found {A} `{EqDecision A} (x : A) (l : list A) :
  x ∈ l →
  ∃ i, index x l = Ret i ∧ l !! i = Some x ∧ ∀ j, j < i → l !! j ≠ Some x.
Proof.
  intros Hx. unfold index.
  destruct (list_find_elem_of (λ y, y = x) l x Hx eq_refl) as [[i y] Hfind].
  rewrite Hfind. apply list_find_Some in Hfind as (Hi & -> & Hfirst).
  exists i. split; [done|]. split; [done|].
  intros j Hj Hlook. by eapply Hfirst.
Qed.

Lemma step_component_spec name child f :
  node_name child = Some name →
  ∃ c, step_component name child f = Ret c ∧ step_of (child, f) c.
Proof.
  intros Hname. unfold step_component, step_of.
  destruct (decide (1 < length _)) as [Hmany|Hone].
  - destruct (index_found child
                (find_all_children name (f_left f ++ child :: f_right f)))
      as (i & -> & Hi & Hfirst).
    { apply list_elem_of_filter. split; [done|].
      apply elem_of_app. right. by left. }
    eexists. split; [done|]. exists name. split; [done|].
    rewrite decide_True by done. eauto.
  - eexists. split; [done|]. exists name. split; [done|].
    by rewrite decide_False.
Qed.

Lemma walk_parents_spec name child up :
  node_name child = Some name →
  ∃ cs, walk_parents name child up = Ret cs ∧ Forall2 step_of (levels child up) cs.
Proof.
  revert name child. induction up as [|f up IH]; intros name child Hname; simpl.
  - exists []. by split; [|constructor].
  - destruct (step_component_spec name child f Hname) as (c & -> & Hc).
    destruct (IH (f_name f) (plug f child) eq_refl) as (cs & -> & Hcs).
    exists (c :: cs). by split; [|constructor].
Qed.


(** The second of two equal menus under one parent gets the index of the
    first. *)
Example get_xpath_of_a_repeated_sibling :
  get_xpath (Some (mkElement (Tag "div" ∅ [])
                     [mkFrame "body" ∅ [Tag "div" ∅ []; Tag "span" ∅ []] [];
                      mkFrame "html" ∅ [] [];
                      mkFrame "[document]" ∅ [] []]))
  = Ret (Some "/html/body/div[1]").
Proof. vm_compute. reflexivity. Qed.

Example get_xpath_of_a_menu :
  get_xpath (Some Sim.menu) = Ret (Some "/html/body/div").
Proof. vm_compute. reflexivity. Qed.

(** ** The scheduler *)

Lemma progress_sum_insert_fresh (m : gmap Key nat) k v :
  m !! k = None → progress_sum (<[k := v]> m) = v + progress_sum m.
Proof.
  intros Hk. unfold progress_sum.
  apply (map_fold_insert_L (λ _ n acc, n + acc)); [intros; lia|done].
Qed.

Lemma progress_sum_increment (m : gmap Key nat) k n :
  m !! k = Some n → progress_sum (<[k := n + 1]> m) = S (progress_sum m).
Proof.
  intros Hk. rewrite <- (insert_delete_eq m).
  rewrite progress_sum_insert_fresh by apply lookup_delete_eq.
  replace (progress_sum m) with (n + progress_sum (delete k m)); [lia|].
  rewrite <- (progress_sum_insert_fresh _ k) by apply lookup_delete_eq.
  by rewrite insert_delete_id.
Qed.

Lemma length_bind_const {A B} (f : A → list B) (l : list A) n :
  (∀ x, length (f x) = n) → length (l ≫= f) = length l * n.
Proof.
  intros Hf. induction l as [|x l IH]; [done|].
  rewrite bind_cons, length_app, IH, Hf. simpl. lia.
Qed.

Lemma length_work_units states categories years :
  length (work_units states categories years)
  = total_tasks states categories years.
Proof.
  unfold work_units, total_tasks.
  rewrite (length_bind_const _ _ (length categories * length years)); [lia|].
  intros state.
  rewrite (length_bind_const _ _ (length years)); [lia|].
  intros category. rewrite (length_bind_const _ _ 1); [lia|done].
Qed.

Lemma elem_of_work_units states categories years s c y :
  (s, c, y) ∈ work_units states categories years
  ↔ s ∈ states ∧ c ∈ categories ∧ y ∈ years.
Proof.
  unfold work_units. rewrite list_elem_of_bind. split.
  - intros (s' & (c' & (y' & Hk & Hy)%list_elem_of_bind & Hc)%list_elem_of_bind & Hs).
    apply list_elem_of_singleton in Hk as [= -> -> ->]. done.
  - intros (Hs & Hc & Hy). exists s. split; [|done].
    apply list_elem_of_bind. exists c. split; [|done].
    apply list_elem_of_bind. exists y. split; [|done].
    by apply list_elem_of_singleton.
Qed.

Lemma NoDup_work_units states categories years :
  NoDup states → NoDup categories → NoDup years →
  NoDup (work_units states categories years).
Proof.
  intros Hs Hc Hy. unfold work_units.
  apply NoDup_bind; [|intros s _|done].
  { intros s1 s2 k _ _
      (c1 & (y1 & Hk1 & _)%list_elem_of_bind & _)%list_elem_of_bind
      (c2 & (y2 & Hk2 & _)%list_elem_of_bind & _)%list_elem_of_bind.
    apply list_elem_of_singleton in Hk1, Hk2. congruence. }
  apply NoDup_bind; [|intros c _|done].
  { intros c1 c2 k _ _ (y1 & Hk1 & _)%list_elem_of_bind (y2 & Hk2 & _)%list_elem_of_bind.
    apply list_elem_of_singleton in Hk1, Hk2. congruence. }
  apply NoDup_bind; [|intros y _; apply NoDup_singleton|done].
  intros y1 y2 k _ _ Hk1 Hk2.
  apply list_elem_of_singleton in Hk1, Hk2. congruence.
Qed.

Lemma seed_progress_cons k units :
  seed_progress (k :: units) = <[k := 0]> (seed_progress units).
Proof. done. Qed.

Lemma lookup_seed_progress units k :
  seed_progress units !! k = if decide (k ∈ units) then Some 0 else None.
Proof.
  induction units as [|k' units IH]; [by rewrite decide_False by apply not_elem_of_nil|].
  rewrite seed_progress_cons.
  destruct (decide (k = k')) as [->|Hne].
  - rewrite lookup_insert_eq, decide_True; [done|by left].
  - rewrite lookup_insert_ne, IH by done.
    destruct (decide (k ∈ units)) as [Hk|Hk].
    + rewrite decide_True; [done|by right].
    + rewrite decide_False; [done|]. rewrite elem_of_cons. tauto.
Qed.

Lemma progress_sum_seed units : NoDup units → progress_sum (seed_progress units) = 0.
Proof.
  induction 1 as [|k units Hk _ IH]; [done|].
  rewrite seed_progress_cons, progress_sum_insert_fresh, IH; [done|].
  rewrite lookup_seed_progress. by rewrite decide_False.
Qed.

(** The [finally] block either reports the unit or raises and leaves the
    dictionary alone. *)
Lemma finally_progress k w r w' :
  (driver_quit ≫= λ _, with_lock (increment k)) w = (r, w') →
  match r with
  | Ret _ => ∃ n, progress w !! k = Some n
                  ∧ progress w' = <[k := n + 1]> (progress w)
  | _ => progress w' = progress w
  end.
Proof.
  destruct (quit_fault w) as [e|] eqn:Hq.
  { rewrite (finally_quit_fault k e) by done. by intros [= <- <-]. }
  destruct (progress w !! k) as [n|] eqn:Hp.
  { rewrite (finally_run k n) by done. intros [= <- <-]. eauto. }
  rewrite bind_run. unfold driver_quit. rewrite Hq.
  unfold with_lock. rewrite bind_run. simpl emit.
  unfold try_finally, increment. simpl. rewrite Hp.
  by intros [= <- <-].
Qed.

(** A worker that returns has incremented the entry of its unit; one
    that raises or does not finish has left the dictionary alone. *)
Lemma worker_progress out fuel k w r w' :
  parallel_scrape_over_categories out fuel k w = (r, w') →
  match r with
  | Ret _ => ∃ n, progress w !! k = Some n
                  ∧ progress w' = <[k := n + 1]> (progress w)
  | _ => progress w' = progress w
  end.
Proof.
  unfold parallel_scrape_over_categories. rewrite bind_run.
  unfold webdriver_Chrome. destruct (launch_fault w) as [e|]; [by intros [= <- <-]|].
  unfold try_finally, try_except.
  destruct (scrape_unit out fuel k (set_session true w)) as [[[]|e|] w2] eqn:Hbody;
    apply later_scrape_unit in Hbody as (_ & _ & _ & _ & Hp2 & _); simpl in Hp2.
  - rewrite bind_run.
    destruct ((driver_quit ≫= λ _, with_lock (increment k)) w2)
      as [[[]|e|] w3] eqn:Hfin; apply finally_progress in Hfin;
      intros [= <- <-]; by rewrite <- ?Hp2.
  - unfold any_Exception. rewrite emit_run, bind_run.
    destruct ((driver_quit ≫= λ _, with_lock (increment k)) _)
      as [[[]|e'|] w3] eqn:Hfin; apply finally_progress in Hfin;
      intros [= <- <-]; simpl in Hfin; by rewrite <- ?Hp2.
  - intros [= <- <-]. done.
Qed.

Lemma pool_ok_start states categories years :
  NoDup states → NoDup categories → NoDup years →
  pool_ok (work_units states categories years) (start_pool states categories years).
Proof.
  intros Hs Hc Hy. split; [|split]; simpl.
  - by rewrite !app_nil_r.
  - intros k Hk. rewrite lookup_seed_progress, decide_True by done.
    by destruct (decide (k ∈ [])) as [?%elem_of_nil|].
  - by apply progress_sum_seed, NoDup_work_units.
Qed.

Lemma unit_returned_perm {A} (before after ret cr : list A) k :
  (before ++ after) ++ (k :: ret) ++ cr ≡ₚ (before ++ k :: after) ++ ret ++ cr.
Proof.
  simpl. rewrite <- (Permutation_middle (before ++ after)).
  by rewrite <- (Permutation_middle before).
Qed.

Lemma unit_crashed_perm {A} (before after ret cr : list A) k :
  (before ++ after) ++ ret ++ k :: cr ≡ₚ (before ++ k :: after) ++ ret ++ cr.
Proof.
  rewrite <- (Permutation_middle ret), <- (Permutation_middle (before ++ after)).
  by rewrite <- (Permutation_middle before).
Qed.

Lemma pool_ok_step out sessions units p p' :
  NoDup units → pool_ok units p → pool_step out sessions p p' → pool_ok units p'.
Proof.
  intros Hnd (Hperm & Hlook & Hsum) Hstep.
  assert (NoDup (pending p ++ returned p ++ crashed p)) as Hnd' by by rewrite Hperm.
  destruct Hstep as [fuel k before after ret cr w w' Hrun
                    |fuel k e before after ret cr w w' Hrun];
    simpl in *; apply worker_progress in Hrun; simpl in Hrun.
  - destruct Hrun as (n & Hn & Hp').
    assert (k ∈ units) as Hk.
    { rewrite <- Hperm, !elem_of_app, elem_of_cons. tauto. }
    assert (k ∉ ret) as Hfresh.
    { intros Hin. apply NoDup_app in Hnd' as (_ & Hdisj & _).
      apply (Hdisj k); rewrite !elem_of_app, ?elem_of_cons; tauto. }
    rewrite (Hlook k Hk), decide_False in Hn by done. injection Hn as <-.
    unfold pool_ok; simpl. split; [|split].
    + rewrite <- Hperm. apply unit_returned_perm.
    + intros k' Hk'. rewrite Hp'. destruct (decide (k' = k)) as [->|Hne].
      * rewrite lookup_insert_eq, decide_True; [done|by left].
      * rewrite lookup_insert_ne, (Hlook k' Hk') by done.
        f_equal. repeat case_decide; try done;
          rewrite elem_of_cons in *; tauto.
    + rewrite Hp', (progress_sum_increment _ k 0), Hsum; [done|].
      by rewrite (Hlook k Hk), decide_False.
  - unfold pool_ok; simpl. split; [|split].
    + rewrite <- Hperm. apply unit_crashed_perm.
    + intros k' Hk'. by rewrite Hrun, (Hlook k' Hk').
    + by rewrite Hrun.
Qed.

Lemma pool_ok_reachable out sessions states categories years p :
  NoDup states → NoDup categories → NoDup years →
  rtc (pool_step out sessions) (start_pool states categories years) p →
  pool_ok (work_units states categories years) p.
Proof.
  intros Hs Hc Hy Hrun.
  eapply (rtc_ind_r (pool_ok (work_units states categories years)));
    [| |exact Hrun].
  - by apply pool_ok_start.
  - intros p1 p2 _ Hstep IH. eapply pool_ok_step; eauto using NoDup_work_units.
Qed.

(** The monitor ends within [polls] exactly when one of them fails its
    test. *)
Lemma update_progress_bar_ends polls total :
  is_Some (update_progress_bar polls total)
  ↔ Exists (λ progress, monitor_waits progress total = false) polls.
Proof.
  induction polls as [|progress polls IH]; simpl.
  - rewrite Exists_nil. split; [by intros [? ?]|done].
  - rewrite Exists_cons. destruct (monitor_waits progress total) eqn:Hwaits.
    + destruct (update_progress_bar polls total) as [shown|]; simpl.
      * split; [intros _; right; by apply IH|eauto].
      * split; [by intros [? ?]|].
        intros [?|Hex]; [done|]. apply IH in Hex as [? ?]. done.
    + split; [by left|eauto].
Qed.

(** C6.  For dimension value sets [states], [categories] and [years]
    (lists without repetition) of sizes a, b and c: the units are the
    a * b * c elements of the Cartesian product, each once; the progress
    dictionary starts with a zero for each of them and nothing else; and
    in every state the pool can reach, each unit is pending, returned or
    crashed, the entry of a unit is 1 if its worker has returned and 0
    otherwise, so that no unit is ever reported twice, the entries sum up
    to the number of workers that returned, and the test of the monitor
    loop fails exactly when the sum is the number of units, which is
    exactly when every unit was dispatched and its worker returned; so
    the monitor, polling states of the pool, ends exactly when one of its
    polls finds the sum equal to the number of units. *)
Theorem C6_every_unit_is_dispatched_and_reported_once
    (out : string) (sessions : Key → Session)
    (states categories : list string) (years : list Z) :
  NoDup states → NoDup categories → NoDup years →
  let units := work_units states categories years in
  let total := total_tasks states categories years in
  length units = length states * length categories * length years
  ∧ NoDup units
  ∧ (∀ s c y, (s, c, y) ∈ units ↔ s ∈ states ∧ c ∈ categories ∧ y ∈ years)
  ∧ (∀ k, seed_progress units !! k = if decide (k ∈ units) then Some 0 else None)
  ∧ ∀ p, rtc (pool_step out sessions) (start_pool states categories years) p →
      pending p ++ returned p ++ crashed p ≡ₚ units
      ∧ (∀ k, k ∈ units →
           progress (shared p) !! k
           = Some (if decide (k ∈ returned p) then 1 else 0))
      ∧ progress_sum (progress (shared p)) = length (returned p)
      ∧ (monitor_waits (progress (shared p)) total = false
         ↔ progress_sum (progress (shared p)) = total)
      ∧ (progress_sum (progress (shared p)) = total
         ↔ pending p = [] ∧ crashed p = [])
      ∧ ∀ pools,
          Forall (rtc (pool_step out sessions)
                    (start_pool states categories years)) pools →
          is_Some (update_progress_bar ((λ p, progress (shared p)) <$> pools) total)
          ↔ ∃ p', p' ∈ pools ∧ progress_sum (progress (shared p')) = total.
Proof.
  intros Hs Hc Hy. cbv zeta.
  split; [apply length_work_units|].
  split; [by apply NoDup_work_units|].
  split; [apply elem_of_work_units|].
  split; [apply lookup_seed_progress|].
  intros p Hrun.
  destruct (pool_ok_reachable out sessions states categories years p)
    as (Hperm & Hlook & Hsum); try done.
  assert (length (pending p) + length (returned p) + length (crashed p)
          = total_tasks states categories years) as Hlen.
  { pose proof (Permutation_length Hperm) as Hl.
    rewrite !length_app in Hl.
    pose proof (length_work_units states categories years) as Hu. lia. }
  split; [done|]. split; [done|]. split; [done|]. split; [|split].
  - unfold monitor_waits. rewrite bool_decide_eq_false, Hsum. lia.
  - rewrite Hsum. split.
    + intros Htotal.
      destruct (pending p), (crashed p); simpl in *; try done; lia.
    + intros [Hp Hcr]. rewrite Hp, Hcr in Hlen. simpl in Hlen. lia.
  - intros pools Hpools.
    rewrite update_progress_bar_ends, Exists_fmap, Exists_exists.
    split; intros (p' & Hin & Hp'); exists p'; (split; [done|]);
      rewrite Forall_forall in Hpools;
      destruct (pool_ok_reachable out sessions states categories years p')
        as (Hperm' & _ & Hsum'); auto;
      pose proof (Permutation_length Hperm') as Hl;
      rewrite !length_app, length_work_units in Hl;
      unfold monitor_waits in *;
      [apply bool_decide_eq_false in Hp'|apply bool_decide_eq_false]; lia.
Qed.

Lemma run_pool_steps out fuel sessions units rest ret cr w w' :
  run_pool out fuel sessions units w = (Ret tt, w') →
  rtc (pool_step out sessions)
    (mkPool (units ++ rest) ret cr w) (mkPool rest (reverse units ++ ret) cr w').
Proof.
  revert ret w. induction units as [|k units IH]; intros ret w; simpl.
  - intros [= <-]. apply rtc_refl.
  - destruct (parallel_scrape_over_categories out fuel k (attach (sessions k) w))
      as [[[]|e|] w1] eqn:Hworker; [|done..].
    intros Hrest. eapply rtc_l.
    + by apply (worker_returns out sessions fuel k [] (units ++ rest) ret cr w w1).
    + simpl. rewrite reverse_cons, <- app_assoc. by apply IH.
Qed.

Lemma run_pool_reaches out fuel sessions units w w' :
  run_pool out fuel sessions units w = (Ret tt, w') →
  rtc (pool_step out sessions)
    (mkPool units [] [] w) (mkPool [] (reverse units) [] w').
Proof.
  intros Hrun.
  pose proof (run_pool_steps out fuel sessions units [] [] [] w w' Hrun) as Hsteps.
  by rewrite !app_nil_r in Hsteps.
Qed.

(** The theorem at the end-to-end scenario: two states, one year, two
    categories, hence four units; once the four workers have returned the
    sum is 4 and the test of the monitor fails. *)
Lemma C6_every_unit_is_dispatched_and_reported_once_witness :
  ∃ p,
    rtc (pool_step "out" Sim.empty_sessions)
      (start_pool Sim.two_states Sim.two_categories Sim.one_year) p
    ∧ progress_sum (progress (shared p))
      = total_tasks Sim.two_states Sim.two_categories Sim.one_year
    ∧ monitor_waits (progress (shared p))
        (total_tasks Sim.two_states Sim.two_categories Sim.one_year) = false.
Proof.
  assert (rtc (pool_step "out" Sim.empty_sessions)
            (start_pool Sim.two_states Sim.two_categories Sim.one_year)
            Sim.final_pool) as Hrun.
  { apply (run_pool_reaches "out" 0). vm_compute. reflexivity. }
  destruct (C6_every_unit_is_dispatched_and_reported_once "out" Sim.empty_sessions
              Sim.two_states Sim.two_categories Sim.one_year)
    as (_ & _ & _ & _ & Hpool).
  - apply (bool_decide_unpack _). vm_compute. exact I.
  - apply (bool_decide_unpack _). vm_compute. exact I.
  - apply (bool_decide_unpack _). vm_compute. exact I.
  - destruct (Hpool Sim.final_pool Hrun) as (_ & _ & _ & Hmon & Hdone & _).
    exists Sim.final_pool. split; [exact Hrun|].
    assert (progress_sum (progress (shared Sim.final_pool))
            = total_tasks Sim.two_states Sim.two_categories Sim.one_year) as Hsum.
    { apply Hdone. split; reflexivity. }
    split; [exact Hsum|]. apply Hmon. exact Hsum.
Defined.

(** The monitor of the pool of four units, polling once before the pool
    starts and once after each worker: it shows 0, 1, 2, 3 and stops at
    the poll that finds 4. *)
Example monitor_of_four_units :
  update_progress_bar
    ((λ n, progress
             (run_pool "out" 0 Sim.empty_sessions
                (take n (work_units Sim.two_states Sim.two_categories Sim.one_year))
                (start_world Sim.two_states Sim.two_categories Sim.one_year)).2)
       <$> [0; 1; 2; 3; 4])
    4
  = Some [0; 1; 2; 3].
Proof. vm_compute. reflexivity. Qed.

(** ** Completeness checks *)

Lemma get_expected_data_run w text E :
  fault (browser w (clock w)) = None →
  cards (browser w (clock w)) !! 1 = Some text →
  py_int (strip_commas text) = Ret E →
  get_expected_data w = (Ret E, set_clock (S (clock w)) w).
Proof.
  intros Hok Hcard Hint. unfold get_expected_data.
  rewrite interact_bind, Hok. unfold getitem. rewrite Hcard.
  unfold lift. rewrite bind_run. by rewrite Hint.
Qed.








(** ** One read, attempt by attempt *)

Lemma extract_attempts_after_stale retries j w :
  (∀ t, clock w ≤ t < clock w + j →
        fault (browser w t) = Some StaleElementReferenceException) →
  extract_attempts (j + retries) w
  = extract_attempts retries (set_clock (clock w + j) w).
Proof.
  revert w. induction j as [|j IH]; intros w Hstale.
  - simpl. by rewrite Nat.add_0_r, set_clock_same.
  - change (S j + retries) with (S (j + retries)).
    rewrite extract_attempts_stale by (apply Hstale; lia).
    rewrite IH.
    + f_equal. unfold set_clock. simpl. f_equal. lia.
    + intros t Ht. simpl in *. apply Hstale. lia.
Qed.

(** X1.  [extract_visible_rows] tries again only after a stale read.
    After [j < 5] stale attempts, the first attempt that is not stale
    decides: if the page answers, the rows it shows are returned (first
    cell of every row and first row dropped); if it raises anything else,
    that exception leaves the function at once, without another attempt.
    Either way [j + 1] requests were made. *)
Theorem extract_visible_rows_retries_only_stale_reads (w : World) (j : nat) :
  j < 5 →
  (∀ t, clock w ≤ t < clock w + j →
        fault (browser w t) = Some StaleElementReferenceException) →
  match fault (browser w (clock w + j)) with
  | None =>
      extract_visible_rows w
      = (Ret (Some (visible_rows (browser w (clock w + j)))),
         set_clock (clock w + j + 1) w)
  | Some e =>
      e ≠ StaleElementReferenceException →
      extract_visible_rows w = (Raise e, set_clock (clock w + j + 1) w)
  end.
Proof.
  intros Hj Hstale. unfold extract_visible_rows.
  replace 5 with (j + S (4 - j)) by lia.
  rewrite extract_attempts_after_stale by done.
  destruct (fault (browser w (clock w + j))) as [e|] eqn:Hfault.
  - intros He. rewrite (extract_attempts_other _ _ e) by done.
    simpl. f_equal. unfold set_clock. simpl. f_equal. lia.
  - rewrite extract_attempts_ok by done.
    simpl. f_equal. unfold set_clock. simpl. f_equal. lia.
Qed.

(** The theorem at a page whose second answer is stale: the read that
    starts there is served by the third. *)
Lemma extract_visible_rows_retries_only_stale_reads_witness :
  extract_visible_rows (set_clock 1 (Sim.world Sim.dropdown_goes_stale ∅))
  = (Ret (Some []), set_clock 3 (Sim.world Sim.dropdown_goes_stale ∅)).
Proof.
  refine (extract_visible_rows_retries_only_stale_reads
            (set_clock 1 (Sim.world Sim.dropdown_goes_stale ∅)) 1 _ _).
  - lia.
  - intros t Ht. simpl in Ht. assert (t = 1) as -> by lia. reflexivity.
Defined.

(** ** The accumulation once the page has nothing new *)

(** X2.  Stability of the accumulation loop.  When the frame gathered so
    far has no duplicate row and every read from now on shows a window
    that is not empty and equals the last rows of that frame, the loop
    spends one retry per cycle, never sets the retries back to 5, and
    returns the frame unchanged after exactly [retries] cycles of two
    requests each (the read and the scroll). *)
Theorem scrape_loop_ends_when_reads_repeat_the_tail
    (retries fuel : nat) (df : DataFrame) (w : World) :
  NoDup (rows df) →
  (∀ t, clock w ≤ t → shows_tail_of df (browser w t)) →
  retries < fuel →
  scrape_loop fuel retries df w = (Ret df, set_clock (clock w + 2 * retries) w).
Proof. apply scrape_loop_stalled. Qed.

(** The theorem at a frame of two trainees in front of a page that goes on
    showing the second one. *)
Lemma scrape_loop_ends_when_reads_repeat_the_tail_witness :
  let df := mkDataFrame trainee_columns [Sim.record "R1" "Asha"; Sim.record "R2" "Binod"] in
  let w := Sim.world (Sim.static_table [Sim.trainee "R2" "Binod"]) ∅ in
  scrape_loop 6 5 df w = (Ret df, set_clock 10 w).
Proof.
  refine (scrape_loop_ends_when_reads_repeat_the_tail 5 6
            (mkDataFrame trainee_columns [Sim.record "R1" "Asha"; Sim.record "R2" "Binod"])
            (Sim.world (Sim.static_table [Sim.trainee "R2" "Binod"]) ∅) _ _ _).
  - apply (bool_decide_unpack _). vm_compute. exact I.
  - intros t _. split; [reflexivity|].
    exists (mkDataFrame trainee_columns [Sim.record "R2" "Binod"]).
    split; [vm_compute; reflexivity|].
    split; [discriminate|]. vm_compute. reflexivity.
  - lia.
Defined.

(** ** What [scrape_data] does with an exception *)

(** X3.  [scrape_data] never raises and never touches the disk.  Whatever
    its loop raises is caught: the result is then [None], and the last
    thing left in the log is the warning (for a message about
    ['NoneType' object has no attribute 'name']) or the error. *)
Theorem scrape_data_never_raises (fuel : nat) (w : World) :
  (∀ e, (scrape_data fuel w).1 ≠ Raise e)
  ∧ files (scrape_data fuel w).2 = files w
  ∧ folders (scrape_data fuel w).2 = folders w
  ∧ ((scrape_data fuel w).1 = Ret None →
       ∃ e, (scrape_loop fuel 5 (mkDataFrame trainee_columns [])
               (set_trace (trace w ++ [Scraping]) w)).1 = Raise e
            ∧ last (trace (scrape_data fuel w).2)
              = Some (if mentions_NoneType_name e
                      then LogWarning "No rows to scrape."
                      else LogError e)).
Proof.
  pose proof (later_scrape_data false (λ _, True) ltac:(done) fuel I w
                (scrape_data fuel w).1 (scrape_data fuel w).2
                ltac:(by destruct (scrape_data fuel w)))
    as (_ & _ & _ & _ & _ & _ & _ & Hdisk).
  destruct (Hdisk eq_refl) as [Hfolders Hfiles].
  rewrite scrape_data_run in *.
  destruct (scrape_loop fuel 5 _ _) as [[df|e|] w1] eqn:Hloop; simpl in *.
  - repeat split; try done.
  - repeat split; try done. intros _. exists e. split; [done|]. by rewrite last_snoc.
  - repeat split; try done.
Qed.

(** X4.  A unit whose accumulation failed.  [scrape_data] returns [None]
    after an exception of its loop; the worker does not test for it, so
    the next statement, [df['State'] = state], raises [TypeError] in the
    [try] block: the unit ends there and neither a folder nor a file has
    been made. *)
Theorem a_failed_accumulation_ends_the_unit_with_TypeError
    (out : string) (fuel : nat) (k : Key) (visible : list (list string))
    (w w1 w2 w3 : World) :
  open_and_filter k w = (Ret tt, w1) →
  extract_visible_rows w1 = (Ret (Some visible), w2) →
  visible ≠ [] →
  scrape_data fuel w2 = (Ret None, w3) →
  scrape_unit out fuel k w = (Raise TypeError, w3)
  ∧ files w3 = files w
  ∧ folders w3 = folders w.
Proof.
  intros Hopen Hread Hvisible Hscrape. split.
  - destruct k as [[state category] year]. unfold scrape_unit.
    rewrite (bind_ret_run _ _ _ _ _ Hopen), (bind_ret_run _ _ _ _ _ Hread).
    rewrite bind_run. unfold lift, len_opt.
    case_decide as Hlen; [by destruct visible|].
    by rewrite (bind_ret_run _ _ _ _ _ Hscrape).
  - apply (later_open_and_filter false (λ _, True)) in Hopen
      as (_ & _ & _ & _ & _ & _ & _ & Hd1); [|done].
    apply (later_extract_attempts false (λ _, True)) in Hread
      as (_ & _ & _ & _ & _ & _ & _ & Hd2).
    apply (later_scrape_data false (λ _, True)) in Hscrape
      as (_ & _ & _ & _ & _ & _ & _ & Hd3); [|done..].
    destruct (Hd1 eq_refl), (Hd2 eq_refl), (Hd3 eq_refl). split; congruence.
Qed.

(** The theorem at a unit whose grid loses its rows right after the first
    read of the accumulation: the scroll raises [IndexError], which
    [scrape_data] logs. *)
Lemma a_failed_accumulation_ends_the_unit_with_TypeError_witness :
  ∃ w3,
    scrape_unit "out" 7 Sim.unit_1 (Sim.world Sim.grid_vanishes ∅) = (Raise TypeError, w3)
    ∧ trace w3 = [Scraping; LogError IndexError]
    ∧ files w3 = ∅
    ∧ folders w3 = ∅.
Proof.
  eexists.
  edestruct (a_failed_accumulation_ends_the_unit_with_TypeError "out" 7 Sim.unit_1
               (visible_rows (Sim.grid_vanishes 23))
               (Sim.world Sim.grid_vanishes ∅)
               (open_and_filter Sim.unit_1 (Sim.world Sim.grid_vanishes ∅)).2
               (set_clock 24 (open_and_filter Sim.unit_1 (Sim.world Sim.grid_vanishes ∅)).2)
               (scrape_data 7
                  (set_clock 24 (open_and_filter Sim.unit_1 (Sim.world Sim.grid_vanishes ∅)).2)).2)
    as (Hrun & Hfiles & Hfolders).
  - vm_compute. reflexivity.
  - vm_compute. reflexivity.
  - vm_compute. discriminate.
  - vm_compute. reflexivity.
  - split; [exact Hrun|]. split; [vm_compute; reflexivity|]. split; [exact Hfiles|exact Hfolders].
Defined.

(** ** What the worker saves *)

Lemma scrape_loop_columns fuel retries df w df' w' :
  scrape_loop fuel retries df w = (Ret df', w') → columns df' = columns df.
Proof.
  revert retries df w. induction fuel as [|fuel IH]; intros retries df w Hrun; [done|].
  simpl in Hrun. case_decide; [|by injection Hrun as <- <-].
  run_inv Hrun. run_inv Hrun. run_inv Hrun.
  by apply IH in Hrun.
Qed.


#[global] Instance snoc_inj {A} (x : A) : Inj (=) (=) (λ l : list A, l ++ [x]).
Proof. intros l k Heq. by apply app_inj_tail in Heq as [? _]. Qed.



(** ** The button that clears the filters *)

Lemma safe_print_run msg w :
  safe_print msg w = (Ret tt, set_trace (trace w ++ [Acquire; Printed msg; Release]) w).
Proof.
  unfold safe_print. rewrite bind_run, emit_run, bind_run, emit_run, emit_run.
  unfold set_trace. simpl. by rewrite <- !app_assoc.
Qed.

Lemma clear_filters_run (w : World) :
  clear_filters w =
  match next_fault (browser w) (clock w) 2 with
  | None => (Ret tt, set_clock (clock w + 2) w)
  | Some (t, e) =>
      (Ret tt,
       set_trace
         (trace w ++
            [Acquire;
             Printed (if bool_decide (e = TimeoutException)
                      then "Timeout while trying to click 'Clear All Filter' button."
                      else "An error occurred while clearing filters");
             Release])
         (set_clock (S t) w))
  end.
Proof.
  unfold clear_filters, try_except. simpl next_fault.
  rewrite interact_bind.
  destruct (fault (browser w (clock w))) as [e|].
  { unfold any_Exception. by case_bool_decide; rewrite safe_print_run. }
  rewrite interact_bind. simpl clock. simpl browser.
  destruct (fault (browser w (S (clock w)))) as [e|].
  { unfold any_Exception. by case_bool_decide; rewrite safe_print_run. }
  unfold mret, M_ret. f_equal. unfold set_clock. simpl. f_equal. lia.
Qed.

(** X6.  [clear_filters] never raises.  It makes two requests (the wait
    for the button, the click); when one of them fails it makes no
    further request, prints one message under the lock (one text for a
    timeout, another for anything else) and returns all the same. *)
Theorem clear_filters_never_raises (w : World) :
  clear_filters w =
  match next_fault (browser w) (clock w) 2 with
  | None => (Ret tt, set_clock (clock w + 2) w)
  | Some (t, e) =>
      (Ret tt,
       set_trace
         (trace w ++
            [Acquire;
             Printed (if bool_decide (e = TimeoutException)
                      then "Timeout while trying to click 'Clear All Filter' button."
                      else "An error occurred while clearing filters");
             Release])
         (set_clock (S t) w))
  end.
Proof. apply clear_filters_run. Qed.

(** ** The menus a unit needs *)

Lemma get_xpath_of_a_tag (e : element) :
  is_Some (node_name (focus e)) → ∃ path, get_xpath (Some e) = Ret (Some path).
Proof.
  destruct e as [[s|name attrs contents] up]; intros [n Hn]; [done|].
  unfold get_xpath, xpath_components. simpl focus. simpl above.
  destruct (walk_parents_spec name (Tag name attrs contents) up) as (cs & -> & _);
    [done|].
  simpl. eauto.
Qed.

Lemma getitem_get_xpath_Some (menus : list element) i m path :
  menus !! i = Some m → get_xpath (Some m) = Ret (Some path) →
  (getitem menus i ≫= λ m, get_xpath (Some m)) = Ret (Some path).
Proof. intros Hm Hpath. unfold getitem. by rewrite Hm. Qed.

Lemma getitem_get_xpath_None (menus : list element) i :
  menus !! i = None →
  (getitem menus i ≫= λ m, get_xpath (Some m)) = Raise IndexError.
Proof. intros Hm. unfold getitem. by rewrite Hm. Qed.

(** X7.  [initialize_dropdowns] of the category target takes the menus at
    positions 0, 1 and 11 of what the page source holds.  On a page that
    answers with fewer than twelve menus it raises [IndexError]; with
    twelve or more it returns a dictionary of exactly three filters,
    [STATE_NAME], [ACADEMIC_SESSION] and [CATEGORY], each with the path of
    its menu (never [None]).  One request is made in both cases. *)
Theorem initialize_dropdowns_needs_twelve_menus (w : World) :
  let menus := dropdown_menus (browser w (clock w)) in
  fault (browser w (clock w)) = None →
  Forall (λ m, is_Some (node_name (focus m))) menus →
  if decide (length menus < 12)
  then initialize_dropdowns w = (Raise IndexError, set_clock (S (clock w)) w)
  else ∃ state_name academic_session category,
         get_xpath (menus !! 0) = Ret (Some state_name)
         ∧ get_xpath (menus !! 1) = Ret (Some academic_session)
         ∧ get_xpath (menus !! 11) = Ret (Some category)
         ∧ initialize_dropdowns w
           = (Ret (<["CATEGORY" := Some category]>
                    (<["ACADEMIC_SESSION" := Some academic_session]>
                      (<["STATE_NAME" := Some state_name]> ∅))),
              set_clock (S (clock w)) w).
Proof.
  intros menus Hfault Htags.
  assert (∀ i m, menus !! i = Some m → ∃ path, get_xpath (Some m) = Ret (Some path))
    as Hpath.
  { intros i m Hm. apply get_xpath_of_a_tag.
    by apply (Forall_lookup_1 _ _ _ _ Htags Hm). }
  unfold initialize_dropdowns. rewrite interact_bind, Hfault.
  fold menus. case_decide as Hlen.
  - destruct (menus !! 0) as [m0|] eqn:H0;
      [|by rewrite (getitem_get_xpath_None _ _ H0)].
    destruct (Hpath _ _ H0) as (p0 & Hp0).
    rewrite (getitem_get_xpath_Some _ _ _ _ H0 Hp0), bind_run. unfold lift at 1.
    destruct (menus !! 1) as [m1|] eqn:H1;
      [|by rewrite (getitem_get_xpath_None _ _ H1)].
    destruct (Hpath _ _ H1) as (p1 & Hp1).
    rewrite (getitem_get_xpath_Some _ _ _ _ H1 Hp1), bind_run. unfold lift at 1.
    by rewrite (getitem_get_xpath_None menus 11) by (apply lookup_ge_None_2; lia).
  - destruct (lookup_lt_is_Some_2 menus 0) as [m0 H0]; [lia|].
    destruct (lookup_lt_is_Some_2 menus 1) as [m1 H1]; [lia|].
    destruct (lookup_lt_is_Some_2 menus 11) as [m11 H11]; [lia|].
    destruct (Hpath _ _ H0) as (p0 & Hp0), (Hpath _ _ H1) as (p1 & Hp1),
      (Hpath _ _ H11) as (p11 & Hp11).
    exists p0, p1, p11. rewrite H0, H1, H11.
    repeat split; try done.
    by rewrite (getitem_get_xpath_Some _ _ _ _ H0 Hp0),
      (getitem_get_xpath_Some _ _ _ _ H1 Hp1),
      (getitem_get_xpath_Some _ _ _ _ H11 Hp11).
Qed.

(** The theorem at a page with twelve menus, all of them the only [div]
    of the body. *)
Lemma initialize_dropdowns_needs_twelve_menus_witness :
  ∃ filters,
    initialize_dropdowns (Sim.world (Sim.static_table []) ∅)
      = (Ret filters, set_clock 1 (Sim.world (Sim.static_table []) ∅))
    ∧ filters !! "CATEGORY" = Some (Some "/html/body/div")
    ∧ filters !! "DISTRICT_NAME" = None.
Proof.
  pose proof (initialize_dropdowns_needs_twelve_menus
                (Sim.world (Sim.static_table []) ∅) eq_refl) as H.
  case_decide as Hlen; [vm_compute in Hlen; lia|].
  destruct H as (s & a & c & _ & _ & Hc & Hrun).
  - repeat constructor; by eexists.
  - eexists. split; [exact Hrun|].
    injection Hc as <-. split; reflexivity.
Defined.

(** ** A unit that is not in the progress dictionary *)

Lemma finally_missing_key k w :
  quit_fault w = None → progress w !! k = None →
  (driver_quit ≫= λ _, with_lock (increment k)) w
  = (Raise KeyError,
     set_trace (trace w ++ [Quit; Acquire; Release]) (set_session false w)).
Proof.
  intros Hq Hp. rewrite bind_run. unfold driver_quit. rewrite Hq.
  unfold with_lock. rewrite bind_run, emit_run.
  unfold try_finally, increment. simpl. rewrite Hp.
  rewrite bind_run, emit_run. unfold raise, set_trace, set_session. simpl.
  by rewrite <- !app_assoc.
Qed.

(** X8.  A unit without an entry in the progress dictionary.  When the
    session starts and quits but [progress] has no key for the unit, the
    [finally] block still quits the session and takes the lock;
    [progress[key] += 1] then raises [KeyError], the [with] statement
    releases the lock, and the [KeyError] leaves the worker, whatever the
    [try] block did (what it raised itself was caught and logged before).
    The dictionary is left as it was. *)
Theorem a_unit_without_progress_entry_raises_KeyError
    (out : string) (fuel : nat) (k : Key) (w : World) :
  launch_fault w = None →
  quit_fault w = None →
  progress w !! k = None →
  (scrape_unit out fuel k (set_session true w)).1 ≠ OutOfFuel →
  ∃ w' evs,
    parallel_scrape_over_categories out fuel k w = (Raise KeyError, w')
    ∧ session w' = false
    ∧ progress w' = progress w
    ∧ trace w' = trace w ++ evs ++ [Quit; Acquire; Release]
    ∧ Forall not_reporting evs.
Proof.
  intros Hl Hq Hp Hfuel. unfold parallel_scrape_over_categories.
  rewrite bind_run. unfold webdriver_Chrome. rewrite Hl.
  unfold try_finally, try_except.
  destruct (scrape_unit out fuel k (set_session true w)) as [[[]|e|] w2] eqn:Hbody;
    [| |done];
    apply later_scrape_unit in Hbody
      as (_ & _ & Hq2 & _ & Hp2 & _ & (evs & Ht & Hev) & _); simpl in *.
  - rewrite bind_run, finally_missing_key by congruence.
    eexists _, evs.
    repeat split; simpl; try done. by rewrite Ht, <- app_assoc.
  - unfold any_Exception. simpl emit.
    rewrite bind_run, finally_missing_key by (simpl; congruence).
    eexists _, (evs ++ [LogError e]).
    repeat split; simpl; try done.
    + by rewrite Ht, <- !app_assoc.
    + apply Forall_app. split; [done|]. by repeat constructor.
Qed.

(** The theorem at a unit whose page shows the header row only, started
    with an empty dictionary. *)
Lemma a_unit_without_progress_entry_raises_KeyError_witness :
  ∃ w' evs,
    parallel_scrape_over_categories "out" 0 Sim.unit_1
      (Sim.world (Sim.static_table []) ∅) = (Raise KeyError, w')
    ∧ session w' = false
    ∧ progress w' = ∅
    ∧ trace w' = [] ++ evs ++ [Quit; Acquire; Release]
    ∧ Forall not_reporting evs.
Proof.
  refine (a_unit_without_progress_entry_raises_KeyError "out" 0 Sim.unit_1
            (Sim.world (Sim.static_table []) ∅) _ _ _ _).
  - reflexivity.
  - reflexivity.
  - reflexivity.
  - vm_compute. discriminate.
Defined.

(** ** The scheduler when keys repeat or workers raise *)

Lemma progress_sum_seed_any units : progress_sum (seed_progress units) = 0.
Proof.
  induction units as [|k units IH]; [done|].
  rewrite seed_progress_cons.
  destruct (seed_progress units !! k) as [n|] eqn:Hk.
  - pose proof (lookup_seed_progress units k) as Hl. rewrite Hk in Hl.
    case_decide; [|done]. injection Hl as ->. by rewrite insert_id.
  - by rewrite progress_sum_insert_fresh.
Qed.

Lemma pool_counts_start states categories years :
  pool_counts (work_units states categories years) (start_pool states categories years).
Proof.
  split; [by rewrite app_nil_r|]. split; [|apply progress_sum_seed_any].
  intros k. simpl. rewrite lookup_seed_progress. by case_decide.
Qed.

Lemma pool_counts_step out sessions units p p' :
  pool_counts units p → pool_step out sessions p p' → pool_counts units p'.
Proof.
  intros (Hperm & Hlook & Hsum) Hstep.
  destruct Hstep as [fuel k before after ret cr w w' Hrun
                    |fuel k e before after ret cr w w' Hrun];
    simpl in *; apply worker_progress in Hrun; simpl in Hrun;
    unfold pool_counts; simpl.
  - destruct Hrun as (n & Hn & Hp').
    split; [|split].
    + rewrite <- Hperm. apply unit_returned_perm.
    + intros k'. rewrite Hp'. unfold times_returned. rewrite filter_cons.
      destruct (decide (k = k')) as [->|Hne].
      * rewrite lookup_insert_eq. specialize (Hlook k'). rewrite Hn in Hlook.
        case_decide; [|done]. injection Hlook as ->.
        simpl. f_equal. unfold times_returned. lia.
      * rewrite lookup_insert_ne by done. apply Hlook.
    + by rewrite Hp', (progress_sum_increment _ k n), Hsum.
  - split; [|split].
    + rewrite <- Hperm. apply unit_crashed_perm.
    + intros k'. by rewrite Hrun.
    + by rewrite Hrun.
Qed.

Lemma pool_counts_reachable out sessions states categories years p :
  rtc (pool_step out sessions) (start_pool states categories years) p →
  pool_counts (work_units states categories years) p.
Proof.
  intros Hrun.
  eapply (rtc_ind_r (pool_counts (work_units states categories years)));
    [| |exact Hrun].
  - apply pool_counts_start.
  - intros p1 p2 _ Hstep IH. by eapply pool_counts_step.
Qed.

Lemma pool_counts_lengths units p :
  pool_counts units p →
  length (pending p) + length (returned p) + length (crashed p) = length units.
Proof.
  intros (Hperm & _). apply Permutation_length in Hperm.
  rewrite !length_app in Hperm. lia.
Qed.

(** X9.  The pool when dimension lists repeat a value.  Nothing in
    [__main__] asks the lists of states, categories and years to be free
    of repetitions.  If they are not, several dispatched items share one
    key of the dictionary; still, in every state the pool can reach, the
    dictionary has exactly the keys of the product, the entry of a key is
    the number of workers of that key that returned, the entries sum up to
    the number of workers that returned, and the test of the monitor
    fails exactly when no item is pending and no worker raised. *)
Theorem progress_counts_the_workers_that_returned
    (out : string) (sessions : Key → Session)
    (states categories : list string) (years : list Z) (p : Pool) :
  rtc (pool_step out sessions) (start_pool states categories years) p →
  pending p ++ returned p ++ crashed p ≡ₚ work_units states categories years
  ∧ (∀ k, progress (shared p) !! k
          = if decide (k ∈ work_units states categories years)
            then Some (times_returned k (returned p)) else None)
  ∧ progress_sum (progress (shared p)) = length (returned p)
  ∧ (monitor_waits (progress (shared p)) (total_tasks states categories years) = false
     ↔ pending p = [] ∧ crashed p = []).
Proof.
  intros Hrun. apply pool_counts_reachable in Hrun as Hok.
  pose proof (pool_counts_lengths _ _ Hok) as Hlen.
  rewrite length_work_units in Hlen.
  destruct Hok as (Hperm & Hlook & Hsum).
  split; [done|]. split; [done|]. split; [done|].
  unfold monitor_waits. rewrite bool_decide_eq_false, Hsum. split.
  - intros Htotal. destruct (pending p), (crashed p); simpl in *; try done; lia.
  - intros [Hp Hcr]. rewrite Hp, Hcr in Hlen. simpl in Hlen. lia.
Qed.

(** The theorem at a pool whose list of states names GOA twice: the one
    key is reported twice. *)
Lemma progress_counts_the_workers_that_returned_witness :
  progress (shared Sim.both_returned) !! ("GOA", "GEN", 2015%Z) = Some 2
  ∧ progress_sum (progress (shared Sim.both_returned)) = 2
  ∧ monitor_waits (progress (shared Sim.both_returned))
      (total_tasks Sim.goa_twice ["GEN"] Sim.one_year) = false.
Proof.
  assert (rtc (pool_step "out" Sim.empty_sessions)
            (start_pool Sim.goa_twice ["GEN"] Sim.one_year)
            Sim.both_returned) as Hrun.
  { apply (run_pool_reaches "out" 0). vm_compute. reflexivity. }
  destruct (progress_counts_the_workers_that_returned "out" Sim.empty_sessions
              Sim.goa_twice ["GEN"] Sim.one_year Sim.both_returned Hrun)
    as (_ & Hlook & Hsum & Hmon).
  split; [|split].
  - rewrite Hlook. reflexivity.
  - exact Hsum.
  - apply Hmon. split; reflexivity.
Defined.




(** ** Reading the expected total *)

Lemma chars_strip_commas text :
  String.list_ascii_of_string (strip_commas text)
  = filter (λ c, c ≠ ","%char) (String.list_ascii_of_string text).
Proof.
  induction text as [|c text IH]; [done|]. simpl.
  destruct (Ascii.eqb_spec c ","%char) as [->|Hne].
  - by rewrite filter_cons_False by (by intros ?).
  - rewrite filter_cons_True by done. simpl. by rewrite IH.
Qed.


Lemma elem_of_chars_lstrip c text :
  c ∈ String.list_ascii_of_string text → is_space c = false →
  c ∈ String.list_ascii_of_string (lstrip text).
Proof.
  induction text as [|c' text IH]; [done|]. simpl. intros Hin Hc.
  destruct (is_space c') eqn:Hc'; [|done].
  apply elem_of_cons in Hin as [->|Hin]; [congruence|by apply IH].
Qed.

Lemma lstrip_id text :
  Forall (λ c, is_space c = false) (String.list_ascii_of_string text) →
  lstrip text = text.
Proof.
  destruct text as [|c text]; [done|]. simpl. intros Hall.
  apply Forall_cons in Hall as [-> _]. done.
Qed.

Lemma chars_backwards text :
  String.list_ascii_of_string
    (String.string_of_list_ascii (reverse (String.list_ascii_of_string text)))
  = reverse (String.list_ascii_of_string text).
Proof. apply String.list_ascii_of_string_of_list_ascii. Qed.

Lemma chars_strip text :
  String.list_ascii_of_string (strip text)
  = reverse (String.list_ascii_of_string
               (lstrip (String.string_of_list_ascii
                          (reverse (String.list_ascii_of_string (lstrip text)))))).
Proof. unfold strip. apply String.list_ascii_of_string_of_list_ascii. Qed.

Lemma strip_keeps c text :
  c ∈ String.list_ascii_of_string text → is_space c = false →
  c ∈ String.list_ascii_of_string (strip text).
Proof.
  intros Hin Hc. rewrite chars_strip, elem_of_reverse.
  apply elem_of_chars_lstrip; [|done].
  rewrite chars_backwards, elem_of_reverse. by apply elem_of_chars_lstrip.
Qed.


Lemma strip_id text :
  Forall (λ c, is_space c = false) (String.list_ascii_of_string text) →
  strip text = text.
Proof.
  intros Hall. unfold strip. rewrite (lstrip_id text) by done.
  rewrite lstrip_id.
  - rewrite chars_backwards, reverse_involutive.
    apply String.string_of_list_ascii_of_string.
  - rewrite chars_backwards. by apply Forall_reverse.
Qed.

Lemma digit_is_no_space c d : digit_of c = Some d → is_space c = false.
Proof.
  unfold digit_of, is_space. case_decide; [|done]. intros _.
  apply orb_false_iff. split; apply bool_decide_eq_false; lia.
Qed.

Lemma digit_is_no_mark c d :
  digit_of c = Some d → c ≠ "_"%char ∧ c ≠ "+"%char ∧ c ≠ "-"%char.
Proof. intros Hd. repeat split; intros ->; vm_compute in Hd; done. Qed.

(** All the characters of [text] are digits: the value read after [acc]. *)
Lemma digits_value_digits underscores acc after_digit text :
  Forall (λ c, is_Some (digit_of c)) (String.list_ascii_of_string text) →
  (text ≠ EmptyString ∨ after_digit = true) →
  digits_value underscores acc after_digit text
  = Some (foldl (λ acc d, 10 * acc + d)%Z acc (digits_of text)).
Proof.
  revert acc after_digit. induction text as [|c text IH]; intros acc ad Hall Hne.
  - destruct Hne as [?| ->]; done.
  - simpl in *. apply Forall_cons in Hall as [[d Hd] Hall].
    destruct (digit_is_no_mark _ _ Hd) as (Hu & _).
    apply Ascii.eqb_neq in Hu. rewrite Hu, Hd. simpl.
    rewrite IH by auto. unfold digits_of. simpl. by rewrite Hd.
Qed.




Lemma parse_integer_eq underscores text :
  parse_integer underscores text =
  match
    match strip text with
    | EmptyString => digits_value underscores 0 false EmptyString
    | String c rest =>
        if decide (c = "-"%char) then Z.opp <$> digits_value underscores 0 false rest
        else if decide (c = "+"%char) then digits_value underscores 0 false rest
        else digits_value underscores 0 false (String c rest)
    end
  with
  | Some z => Ret z
  | None => Raise ValueError
  end.
Proof.
  unfold parse_integer. destruct (strip text) as [|c rest]; [done|].
  destruct c as [[] [] [] [] [] [] [] []]; reflexivity.
Qed.

Lemma digits_of_strip_commas text : digits_of (strip_commas text) = digits_of text.
Proof.
  unfold digits_of. rewrite chars_strip_commas.
  induction (String.list_ascii_of_string text) as [|c l IH]; [done|].
  destruct (decide (c = ","%char)) as [->|Hne].
  - rewrite filter_cons_False by (by intros ?). rewrite IH. reflexivity.
  - rewrite filter_cons_True by done. simpl.
    change (list_omap ascii Z digit_of) with (omap (M:=list) digit_of).
    by rewrite IH.
Qed.

(** X11.  The expected total of a unit.  [get_expected_data] reads the
    second card of the page source; when the text of the card is made of
    decimal digits and commas, at least one digit among them, the result
    is the number its digits write, wherever the commas stand.  One
    request is made. *)
Theorem get_expected_data_reads_the_digits_of_the_second_card
    (w : World) (text : string) :
  fault (browser w (clock w)) = None →
  cards (browser w (clock w)) !! 1 = Some text →
  Forall (λ c, is_Some (digit_of c) ∨ c = ","%char) (String.list_ascii_of_string text) →
  digits_of text ≠ [] →
  get_expected_data w = (Ret (decimal_value (digits_of text)), set_clock (S (clock w)) w).
Proof.
  intros Hfault Hcard Hchars Hdigits.
  apply (get_expected_data_run w text); [done..|].
  assert (Forall (λ c, is_Some (digit_of c))
            (String.list_ascii_of_string (strip_commas text))) as Hall.
  { rewrite chars_strip_commas. apply Forall_forall. intros c Hc.
    apply list_elem_of_filter in Hc as [Hne Hc].
    rewrite Forall_forall in Hchars. by destruct (Hchars c Hc). }
  unfold py_int. rewrite parse_integer_eq, strip_id.
  2:{ eapply Forall_impl; [exact Hall|]. intros c [d Hd]. by eapply digit_is_no_space. }
  rewrite <- digits_of_strip_commas in Hdigits |- *.
  destruct (strip_commas text) as [|c rest] eqn:Hs; [done|].
  pose proof Hall as Hall'. simpl in Hall'. apply Forall_cons in Hall' as [[d Hd] _].
  destruct (digit_is_no_mark _ _ Hd) as (_ & Hplus & Hminus).
  rewrite !decide_False by done.
  by rewrite digits_value_digits by auto.
Qed.

(** The theorem at a page whose second card shows 1,234. *)
Lemma get_expected_data_reads_the_digits_of_the_second_card_witness :
  get_expected_data (Sim.world (Sim.static_table []) ∅)
  = (Ret 1234%Z, set_clock 1 (Sim.world (Sim.static_table []) ∅)).
Proof.
  refine (get_expected_data_reads_the_digits_of_the_second_card
            (Sim.world (Sim.static_table []) ∅) "1,234" _ _ _ _).
  - reflexivity.
  - reflexivity.
  - apply (bool_decide_unpack _). vm_compute. exact I.
  - discriminate.
Defined.



(** ** The units of the district target *)

Lemma items_get_item {V} (dictionary : list (string * V)) state (districts : V) :
  NoDup dictionary.*1 → (state, districts) ∈ dictionary →
  items_get dictionary state = Ret districts.
Proof.
  intros Hnd Hin. unfold items_get.
  induction dictionary as [|[s ds] dictionary IH]; [by apply elem_of_nil in Hin|].
  simpl in *. apply NoDup_cons in Hnd as [Hs Hnd].
  case_decide as Heq; simpl in *.
  - subst s. apply elem_of_cons in Hin as [[= ->]|Hin]; [done|].
    exfalso. apply Hs, list_elem_of_fmap. by exists (state, districts).
  - apply elem_of_cons in Hin as [[= -> ->]|Hin]; [done|].
    specialize (IH Hnd Hin).
    destruct (list_find _ dictionary) as [[i item]|]; simpl in *; done.
Qed.

Lemma district_units_items years dictionary :
  NoDup dictionary.*1 →
  district_units years dictionary
  = year ← years; item ← dictionary; district ← item.2; [(year, item.1, district)].
Proof.
  intros Hnd. unfold district_units. apply list_bind_ext; [|done]. intros year.
  rewrite list_fmap_bind. apply Forall_bind_ext, Forall_forall.
  intros [state districts] Hin. simpl.
  by rewrite (items_get_item _ _ districts).
Qed.

Lemma length_bind_sum {A B} (f : A → list B) (l : list A) :
  length (l ≫= f) = sum_list (length ∘ f <$> l).
Proof.
  induction l as [|x l IH]; [done|].
  rewrite bind_cons, length_app, IH. done.
Qed.

(** X13.  The units of the district target.  For a dictionary of
    districts (its keys are distinct, as those of any dictionary) the
    items handed to the pool, which are also the keys of the progress
    dictionary, are as many as [total_tasks] says; they are the triples of
    a year, a state of the dictionary and a district listed for that
    state, so that a state with an empty list of districts gets no unit;
    and no triple comes twice when no year and no district of a state is
    listed twice. *)
Theorem the_district_units_are_counted_by_total_tasks
    (years : list Z) (dictionary : list (string * list string)) :
  NoDup dictionary.*1 →
  length (district_units years dictionary) = district_total_tasks years dictionary
  ∧ (∀ year state district,
       (year, state, district) ∈ district_units years dictionary
       ↔ year ∈ years
         ∧ ∃ districts, (state, districts) ∈ dictionary ∧ district ∈ districts)
  ∧ (NoDup years → Forall (λ item, NoDup item.2) dictionary →
     NoDup (district_units years dictionary)).
Proof.
  intros Hkeys. rewrite district_units_items by done. split; [|split].
  - unfold district_total_tasks. apply length_bind_const. intros year.
    rewrite length_bind_sum, <- list_fmap_compose. f_equal.
    apply list_fmap_ext. intros _ [state districts] _. simpl.
    rewrite (length_bind_const _ _ 1); [lia|done].
  - intros year state district. rewrite list_elem_of_bind. split.
    + intros (y & Hin & Hy). apply list_elem_of_bind in Hin as ([s ds] & Hin & Hitem).
      apply list_elem_of_bind in Hin as (d & Hin & Hd).
      apply list_elem_of_singleton in Hin as [= -> -> ->]. eauto.
    + intros (Hy & ds & Hitem & Hd). exists year. split; [|done].
      apply list_elem_of_bind. exists (state, ds). split; [|done].
      apply list_elem_of_bind. exists district. split; [|done].
      by apply list_elem_of_singleton.
  - intros Hyears Hdistricts. apply NoDup_bind; [| |done].
    + intros y1 y2 [[y s] d] _ _ H1 H2.
      apply list_elem_of_bind in H1 as (i1 & H1 & _), H2 as (i2 & H2 & _).
      apply list_elem_of_bind in H1 as (d1 & H1 & _), H2 as (d2 & H2 & _).
      apply list_elem_of_singleton in H1, H2. congruence.
    + intros year _. apply NoDup_bind.
      * intros [s1 ds1] [s2 ds2] [[y s] d] Hi1 Hi2 H1 H2. simpl in *.
        apply list_elem_of_bind in H1 as (d1 & H1 & _), H2 as (d2 & H2 & _).
        apply list_elem_of_singleton in H1, H2.
        assert (s1 = s2) as -> by congruence.
        pose proof (items_get_item dictionary s2 ds1 Hkeys Hi1).
        pose proof (items_get_item dictionary s2 ds2 Hkeys Hi2). congruence.
      * intros [s ds] Hitem. simpl. apply NoDup_bind.
        -- intros d1 d2 k _ _ H1 H2.
           apply list_elem_of_singleton in H1, H2. congruence.
        -- intros d _. apply NoDup_singleton.
        -- rewrite Forall_forall in Hdistricts. by apply (Hdistricts (s, ds)).
      * by apply NoDup_fmap_1 in Hkeys.
Qed.

(** The theorem at a dictionary of three states, one of them without
    districts. *)
Lemma the_district_units_are_counted_by_total_tasks_witness :
  district_units [2014%Z] Sim.districts
  = [(2014%Z, "GOA", "NORTH GOA"); (2014%Z, "GOA", "SOUTH GOA");
     (2014%Z, "SIKKIM", "GANGTOK")]
  ∧ length (district_units [2014%Z] Sim.districts)
    = district_total_tasks [2014%Z] Sim.districts.
Proof.
  split; [reflexivity|].
  refine (proj1 (the_district_units_are_counted_by_total_tasks [2014%Z]
                   Sim.districts _)).
  apply (bool_decide_unpack _). vm_compute. exact I.
Defined.

(** ** The instructor target: buttons and options *)


Lemma bind_mret_unit (m : M unit) w : (m ≫= λ _, mret tt) w = m w.
Proof. rewrite bind_run. by destruct (m w) as [[[]|e|] w']. Qed.

(** X15.  [select_option_from_dropdown] of the instructor target only acts
    on five pairs: [CITS_CERTIFIED] with [No] or [Yes], [EMPLOYMENT_TYPE]
    with [Contract], [Others] or [Regular].  For any other filter name or
    option it makes no request, logs nothing and returns, as if the option
    had been selected.  For one of the five it makes two requests (the
    wait for the option, the click); the first failure ends it, caught
    and logged if it is one of the three classes of its [except] clause,
    raised otherwise. *)
Theorem select_option_ignores_what_it_does_not_know
    (filter_name filter_option : string) (w : World) :
  Cits.select_option_from_dropdown filter_name filter_option w =
  if bool_decide
       ((filter_name = "CITS_CERTIFIED" ∧ filter_option ∈ ["No"; "Yes"])
        ∨ (filter_name = "EMPLOYMENT_TYPE"
           ∧ filter_option ∈ ["Contract"; "Others"; "Regular"]))
  then
    match next_fault (browser w) (clock w) 2 with
    | Some (t, e) =>
        if search_select_catches e
        then (Ret tt, set_trace (trace w ++ [LogError e]) (set_clock (S t) w))
        else (Raise e, set_clock (S t) w)
    | None => (Ret tt, set_clock (clock w + 2) w)
    end
  else (Ret tt, w).
Proof.
  assert (∀ w,
    try_except (_ ← interact; _ ← interact; mret tt) search_select_catches
      (λ e, emit (LogError e)) w
    = match next_fault (browser w) (clock w) 2 with
      | Some (t, e) =>
          if search_select_catches e
          then (Ret tt, set_trace (trace w ++ [LogError e]) (set_clock (S t) w))
          else (Raise e, set_clock (S t) w)
      | None => (Ret tt, set_clock (clock w + 2) w)
      end) as Htwo.
  { intros w0. unfold try_except. simpl next_fault.
    repeat (rewrite interact_bind; simpl clock; simpl browser;
            destruct (fault _) as [e|]; [by destruct (search_select_catches e)|]).
    unfold mret, M_ret. f_equal. unfold set_clock; simpl. f_equal. lia. }
  unfold Cits.select_option_from_dropdown.
  destruct (decide (filter_name = "CITS_CERTIFIED")) as [->|Hc].
  - rewrite (bool_decide_eq_true_2 ("CITS_CERTIFIED" = "CITS_CERTIFIED")) by done.
    rewrite (bool_decide_eq_false_2 ("CITS_CERTIFIED" = "EMPLOYMENT_TYPE")) by done.
    simpl andb.
    destruct (decide (filter_option ∈ ["No"; "Yes"])) as [Hin|Hout].
    + rewrite (bool_decide_eq_true_2 _ Hin), bool_decide_eq_true_2 by auto.
      rewrite <- Htwo. unfold try_except. by rewrite bind_mret_unit.
    + rewrite (bool_decide_eq_false_2 _ Hout), bool_decide_eq_false_2; [done|].
      intros [[_ ?]|[? _]]; done.
  - rewrite (bool_decide_eq_false_2 _ Hc). simpl andb.
    destruct (decide (filter_name = "EMPLOYMENT_TYPE")) as [->|He].
    + rewrite (bool_decide_eq_true_2 ("EMPLOYMENT_TYPE" = "EMPLOYMENT_TYPE")) by done.
      simpl andb.
      destruct (decide (filter_option ∈ ["Contract"; "Others"; "Regular"])) as [Hin|Hout].
      * rewrite (bool_decide_eq_true_2 _ Hin), bool_decide_eq_true_2 by auto.
        rewrite <- Htwo. done.
      * rewrite (bool_decide_eq_false_2 _ Hout), bool_decide_eq_false_2; [done|].
        intros [[? _]|[_ ?]]; done.
    + rewrite (bool_decide_eq_false_2 _ He). simpl andb.
      rewrite bool_decide_eq_false_2; [done|]. intros [[? _]|[? _]]; done.
Qed.

(** Spelled in lower case, the option is not selected and nothing tells. *)
Example select_option_of_a_misspelt_option :
  Cits.select_option_from_dropdown "CITS_CERTIFIED" "yes"
    (Sim.world (Sim.report []) ∅)
  = (Ret tt, Sim.world (Sim.report []) ∅).
Proof. reflexivity. Qed.

(** ** The instructor target: the accumulation *)

Lemma interact_at_run {A} (view : nat → A) w :
  interact_at view w =
  match fault (browser w (clock w)) with
  | Some e => (Raise e, set_clock (S (clock w)) w)
  | None => (Ret (view (clock w)), set_clock (S (clock w)) w)
  end.
Proof. unfold interact_at. rewrite interact_bind. by destruct (fault _). Qed.

Section later_views.
Context (disk : bool) (allowed : event → Prop).
Hypothesis browsing_allowed : ∀ e, browsing_event e → allowed e.

Lemma later_interact_at {A} (view : nat → A) :
  preserves (later disk allowed) (interact_at view).
Proof.
  intros w r w' Hrun.
  pose proof (later_interact disk allowed w _ _ (surjective_pairing (interact w)))
    as Hlater.
  rewrite interact_at_run in Hrun. unfold interact in Hlater.
  destruct (fault (browser w (clock w))); by injection Hrun as _ <-.
Qed.

Lemma later_scroll_to_row_before_last views :
  preserves (later disk allowed) (Cits.scroll_to_row_before_last views).
Proof.
  apply preserves_bind; [apply _|apply later_interact_at|].
  intros n. case_decide; [apply preserves_raise|apply preserves_ret]; apply _.
Qed.

Lemma later_cits_scrape_loop views fuel retries df summations :
  preserves (later disk allowed) (Cits.scrape_loop views fuel retries df summations).
Proof.
  revert retries df summations.
  induction fuel as [|fuel IH]; intros retries df summations; simpl.
  - apply preserves_out_of_fuel, _.
  - case_decide; [|apply preserves_ret, _].
    apply preserves_bind; [apply _|by apply later_extract_attempts|]. intros extract_vis.
    apply preserves_bind; [apply _|apply preserves_lift, _|]. intros summations'.
    apply preserves_bind; [apply _|apply preserves_lift, _|]. intros new_df.
    apply preserves_bind; [apply _|apply later_scroll_to_row_before_last|].
    intros _. apply IH.
Qed.

End later_views.

Lemma lift_bind {A B} (a : A) (f : A → M B) w : (lift (Ret a) ≫= f) w = f a w.
Proof. reflexivity. Qed.

Lemma cits_scrape_data_run views fuel state w :
  Cits.scrape_data views fuel state w =
  match ('(df, summations) ← Cits.scrape_loop views fuel 5
                              (mkDataFrame cits_columns []) [];
         convert_and_check state summations df)
          (set_trace (trace w ++ [Scraping]) w) with
  | (Ret df, w') => (Ret (Some df), w')
  | (Raise e, w') =>
      (Ret None, set_trace (trace w' ++ [if mentions_NoneType_name e
                                         then LogWarning "No rows to scrape."
                                         else LogError e]) w')
  | (OutOfFuel, w') => (OutOfFuel, w')
  end.
Proof.
  unfold Cits.scrape_data, try_except.
  rewrite (bind_ret_run _ _ _ _ _ (emit_run Scraping w)).
  rewrite !bind_run.
  destruct (Cits.scrape_loop views fuel 5 _ _ _) as [[[df summations]|e|] w']; try done.
  - rewrite bind_run. destruct (convert_and_check state summations df w')
      as [[df'|e|] w'']; try done.
    unfold any_Exception. by destruct (mentions_NoneType_name e).
  - unfold any_Exception. by destruct (mentions_NoneType_name e).
Qed.

(** X16.  A read without rows ends the accumulation of the instructor
    target.  The loop takes the last row of every read as the row of
    sums: when the read returns [None] (five stale attempts), [l[-1]]
    raises [TypeError]; when it returns the empty list, it raises
    [IndexError].  Either is caught by [scrape_data], which logs it and
    returns [None]: no scroll is made and no further read. *)
Theorem an_empty_read_ends_the_instructor_accumulation
    (views : Views) (fuel : nat) (state : string)
    (read : option (list (list string))) (w w' : World) :
  extract_visible_rows (set_trace (trace w ++ [Scraping]) w) = (Ret read, w') →
  read = None ∨ read = Some [] →
  Cits.scrape_data views (S fuel) state w
  = (Ret None,
     set_trace (trace w' ++ [LogError (match read with Some _ => IndexError | None => TypeError end)]) w').
Proof.
  intros Hread Hempty. rewrite cits_scrape_data_run, bind_run.
  simpl Cits.scrape_loop.
  rewrite (bind_ret_run _ _ _ _ _ Hread).
  by destruct Hempty as [-> | ->].
Qed.

(** The theorem at a page whose nodes stay stale. *)
Lemma an_empty_read_ends_the_instructor_accumulation_witness :
  Cits.scrape_data (Sim.views 2) 1 "GOA" (Sim.world (λ _, Sim.stale) ∅)
  = (Ret None,
     set_trace [Scraping; LogError TypeError]
       (set_clock 5 (Sim.world (λ _, Sim.stale) ∅))).
Proof.
  refine (an_empty_read_ends_the_instructor_accumulation (Sim.views 2) 0 "GOA"
            None (Sim.world (λ _, Sim.stale) ∅)
            (set_clock 5 (set_trace [Scraping] (Sim.world (λ _, Sim.stale) ∅))) _ _).
  - reflexivity.
  - by left.
Defined.

Lemma empty_frame_is_no_stall cols df :
  negb (empty df)
  && equals (iloc_last (len (mkDataFrame cols [])) df) (mkDataFrame cols []) = false.
Proof.
  unfold empty, equals, iloc_last, last_rows; simpl.
  destruct df as [cols' [|r rs]]; simpl; [done|].
  destruct (bool_decide (cols' = [])); simpl; [done|].
  by apply bool_decide_eq_false_2.
Qed.

Lemma shows_sums_only_read p :
  shows_sums_only p → ∃ sums, visible_rows p = [sums].
Proof.
  intros [_ Hlen]. unfold visible_rows.
  destruct (grid p) as [|r [|r' [|r'' g]]]; simplify_eq/=. eauto.
Qed.

Lemma cits_scrape_loop_sums_only views fuel retries df summations w :
  0 < retries →
  (∀ t, clock w ≤ t → shows_sums_only (browser w t)) →
  (∀ t, clock w ≤ t → 2 ≤ wide_rows views t) →
  (Cits.scrape_loop views fuel retries df summations w).1 = OutOfFuel.
Proof.
  revert retries df summations w.
  induction fuel as [|fuel IH]; intros retries df summations w Hr Hpages Hwide; [done|].
  destruct (Hpages (clock w)) as [Hok Hlen]; [lia|].
  destruct (shows_sums_only_read _ (Hpages (clock w) ltac:(lia))) as [sums Hsums].
  destruct (Hpages (S (clock w))) as [Hok' _]; [lia|].
  simpl. rewrite decide_True by done.
  unfold extract_visible_rows.
  rewrite (bind_ret_run _ _ _ _ _ (extract_attempts_ok 4 w Hok)), Hsums.
  change (last_item (Some [sums])) with (Ret sums).
  change (pd_DataFrame (but_last <$> Some [sums]) cits_columns)
    with (Ret (mkDataFrame cits_columns [])).
  rewrite !lift_bind, empty_frame_is_no_stall.
  unfold Cits.scroll_to_row_before_last. rewrite !bind_run, interact_at_run.
  simpl clock. simpl browser. rewrite Hok'.
  rewrite decide_False by (specialize (Hwide (S (clock w)) ltac:(lia)); lia).
  apply IH; [lia| |].
  - intros t Ht. apply Hpages. simpl in Ht. lia.
  - intros t Ht. apply Hwide. simpl in Ht. lia.
Qed.

(** X17.  An instructor report without instructors is never done with.
    On a page that goes on showing its header row and its row of sums and
    nothing between them, every read has one row, so the zero-row check of
    the worker lets the unit through; the loop then takes that row as the
    sums, finds no new record, and [df.iloc[-0:]] being the whole frame,
    sets its retries back to 5 on every cycle: [scrape_data] does not
    return, whatever the fuel. *)
Theorem an_instructor_report_of_sums_only_never_ends
    (views : Views) (state : string) (w : World) :
  (∀ t, clock w ≤ t → shows_sums_only (browser w t)) →
  (∀ t, clock w ≤ t → 2 ≤ wide_rows views t) →
  (∃ sums, extract_visible_rows w = (Ret (Some [sums]), set_clock (S (clock w)) w)
           ∧ len_opt (Some [sums]) = Ret 1)
  ∧ ∀ fuel, (Cits.scrape_data views fuel state w).1 = OutOfFuel.
Proof.
  intros Hpages Hwide. split.
  - destruct (Hpages (clock w)) as [Hok _]; [lia|].
    destruct (shows_sums_only_read _ (Hpages (clock w) ltac:(lia))) as [sums Hsums].
    exists sums. split; [|done].
    unfold extract_visible_rows. by rewrite extract_attempts_ok, Hsums.
  - intros fuel. rewrite cits_scrape_data_run, bind_run.
    pose proof (cits_scrape_loop_sums_only views fuel 5 (mkDataFrame cits_columns []) []
                  (set_trace (trace w ++ [Scraping]) w) ltac:(lia) Hpages Hwide) as Hloop.
    by destruct (Cits.scrape_loop views fuel 5 _ _ _) as [[[? ?]|?|] ?].
Qed.

(** The theorem at a report that shows its header and its sums. *)
Lemma an_instructor_report_of_sums_only_never_ends_witness :
  (Cits.scrape_data (Sim.views 2) 100 "GOA"
     (Sim.world (Sim.report [Sim.instructor_header; Sim.sums "0" "0" "0"]) ∅)).1
  = OutOfFuel.
Proof.
  refine (proj2 (an_instructor_report_of_sums_only_never_ends (Sim.views 2) "GOA"
                   (Sim.world (Sim.report [Sim.instructor_header; Sim.sums "0" "0" "0"]) ∅)
                   _ _) 100).
  - intros t _. split; reflexivity.
  - intros t _. simpl. lia.
Defined.

(** ** The instructor target: what the frame is made of *)

Lemma last_visible_rows p sums :
  last (visible_rows p) = Some sums →
  2 ≤ length (grid p) ∧ ∃ cells, last (grid p) = Some cells ∧ sums = drop 1 cells.
Proof.
  unfold visible_rows. destruct (grid p) as [|r [|r' g]]; [done..|].
  intros Hlast. split; [simpl; lia|].
  rewrite fmap_cons, skipn_cons, drop_0 in Hlast.
  rewrite fmap_last in Hlast.
  destruct (last (r' :: g)) as [cells|] eqn:Hcells; [|done].
  injection Hlast as <-. exists cells. split; [|done].
  by rewrite last_cons, Hcells.
Qed.

Lemma elem_of_but_last_visible_rows p row :
  row ∈ but_last (visible_rows p) →
  ∃ i cells, 1 ≤ i ∧ S i < length (grid p) ∧ grid p !! i = Some cells
             ∧ row = drop 1 cells.
Proof.
  unfold but_last. intros Hin. apply list_elem_of_lookup in Hin as [j Hj].
  apply lookup_take_Some in Hj as [Hj Hlt].
  unfold visible_rows in *. rewrite length_drop, length_fmap in Hlt.
  rewrite lookup_drop, list_lookup_fmap in Hj.
  destruct (grid p !! (1 + j)) as [cells|] eqn:Hcells; [|done].
  injection Hj as <-. exists (1 + j), cells. repeat split; try done; lia.
Qed.

Lemma read_inside_mono b lo hi hi' record :
  hi ≤ hi' → read_inside b lo hi record → read_inside b lo hi' record.
Proof.
  intros Hle (t & i & cells & Ht & Hrest). exists t, i, cells. split; [lia|done].
Qed.

Lemma sums_read_mono b lo hi hi' summations :
  hi ≤ hi' → sums_read b lo hi summations → sums_read b lo hi' summations.
Proof.
  intros Hle (t & cells & Ht & Hrest). exists t, cells. split; [lia|done].
Qed.

(** The loop of the instructor target keeps a frame without duplicates
    whose records come from rows that are neither first nor last in their
    read, and leaves with the sums of a read. *)
Lemma cits_scrape_loop_rows views fuel retries df summations w df' summations' w' lo :
  Cits.scrape_loop views fuel retries df summations w = (Ret (df', summations'), w') →
  lo ≤ clock w →
  NoDup (rows df) →
  (∀ r, r ∈ rows df → read_inside (browser w) lo (clock w) r) →
  0 < retries ∨ sums_read (browser w) lo (clock w) summations →
  NoDup (rows df')
  ∧ (∀ r, r ∈ rows df' → read_inside (browser w) lo (clock w') r)
  ∧ sums_read (browser w) lo (clock w') summations'.
Proof.
  revert retries df summations w.
  induction fuel as [|fuel IH]; intros retries df summations w Hrun Hlo Hnd Hfrom Hsums;
    [done|].
  simpl in Hrun. case_decide as Hretries.
  2:{ injection Hrun as <- <- <-. destruct Hsums as [?|Hsums]; [lia|done]. }
  run_inv Hrun. rename a into extract_vis, w0 into w1, Hstep into Hread.
  run_inv Hrun. rename a into sums, w0 into w2, Hstep into Hlast.
  injection Hlast as Hlast <-.
  run_inv Hrun. rename a into new_df, w0 into w2, Hstep into Hdf.
  injection Hdf as Hdf <-.
  run_inv Hrun. rename w0 into w3, Hstep into Hscroll.
  destruct extract_vis as [vis|]; [|done].
  pose proof (later_extract_attempts false (λ _, True) 5 w _ _ Hread)
    as (Hb1 & _ & _ & _ & _ & Hc1 & _).
  pose proof (later_scroll_to_row_before_last false (λ _, True) views w1 _ _ Hscroll)
    as (Hb3 & _ & _ & _ & _ & Hc3 & _).
  apply extract_attempts_rows in Hread as (t & Ht & -> & Hok & ->).
  simpl in *.
  apply IH in Hrun as (Hnd' & Hfrom' & Hsums').
  - rewrite Hb3 in Hfrom', Hsums'. done.
  - simpl in *. lia.
  - apply NoDup_dedup_from.
  - intros r Hr. simpl in Hr. rewrite Hb3. simpl.
    apply elem_of_dedup_from in Hr as [Hr _].
    apply elem_of_app in Hr as [Hr|Hr].
    + eapply read_inside_mono; [|by apply Hfrom]. lia.
    + apply pd_DataFrame_rows in Hdf. rewrite Hdf in Hr.
      apply list_elem_of_fmap in Hr as (row & -> & Hrow).
      apply elem_of_but_last_visible_rows in Hrow
        as (i & cells & Hi & Hi' & Hcells & ->).
      exists t, i, cells. repeat split; try done; lia.
  - right. rewrite Hb3. simpl.
    unfold last_item in Hlast.
    destruct (last (visible_rows (browser w t))) as [s|] eqn:Hs; [|done].
    injection Hlast as <-.
    apply last_visible_rows in Hs as (Hlen & cells & Hcells & ->).
    exists t, cells. repeat split; try done; lia.
Qed.

(** X18.  What the accumulation of the instructor target gathers.  When
    the loop of [scrape_data] ends, its frame has no two equal records,
    and every record is [cells[1:]] of a row that some read of this loop
    found on screen with a row before it and a row after it: nothing is
    built from the first row of a read (the header) or from its last row
    (the sums).  The sums the three tests then use are [cells[1:]] of the
    last row of one of these reads. *)
Theorem the_instructor_frame_has_neither_header_nor_sums
    (views : Views) (fuel : nat) (w w' : World)
    (df : DataFrame) (summations : list string) :
  Cits.scrape_loop views fuel 5 (mkDataFrame cits_columns []) [] w
    = (Ret (df, summations), w') →
  NoDup (rows df)
  ∧ (∀ record, record ∈ rows df →
       ∃ t i cells,
         clock w ≤ t < clock w' ∧ fault (browser w t) = None
         ∧ 1 ≤ i ∧ S i < length (grid (browser w t))
         ∧ grid (browser w t) !! i = Some cells
         ∧ record = pad 9 (drop 1 cells))
  ∧ (∃ t cells,
       clock w ≤ t < clock w' ∧ fault (browser w t) = None
       ∧ 2 ≤ length (grid (browser w t))
       ∧ last (grid (browser w t)) = Some cells
       ∧ summations = drop 1 cells).
Proof.
  intros Hrun.
  apply (cits_scrape_loop_rows _ _ _ _ _ _ _ _ _ (clock w)) in Hrun; try done.
  - constructor.
  - intros r Hr. by apply elem_of_nil in Hr.
  - left. lia.
Qed.

(** The theorem at a report of two instructors: six cycles, two records,
    and the sums of the last row. *)
Lemma the_instructor_frame_has_neither_header_nor_sums_witness :
  ∃ df,
    Cits.scrape_loop (Sim.views 4) 7 5 (mkDataFrame cits_columns []) []
      (Sim.world (Sim.report Sim.two_instructors) ∅)
    = (Ret (df, ["Total"; ""; ""; "14"; "20"; "14"; "3"; "30.0 %"]),
       set_clock 12 (Sim.world (Sim.report Sim.two_instructors) ∅))
    ∧ len df = 2
    ∧ NoDup (rows df).
Proof.
  eexists. split; [vm_compute; reflexivity|]. split; [reflexivity|].
  refine (proj1 (the_instructor_frame_has_neither_header_nor_sums (Sim.views 4) 7
                   (Sim.world (Sim.report Sim.two_instructors) ∅) _ _ _ _)).
  vm_compute. reflexivity.
Defined.

(** ** The instructor target: the file of a state *)

Lemma cits_scrape_unit_saves views out fuel state cits_certified w w' :
  Cits.scrape_unit views out fuel (state, cits_certified) w = (Ret tt, w') →
  ∃ df,
    files w' !! Cits.csv_path out state = Some df
    ∧ last (trace w') = Some (Saved (Cits.csv_path out state))
    ∧ ∀ record, record ∈ rows df → last record = Some (VStr cits_certified).
Proof.
  intros Hrun. unfold Cits.scrape_unit in Hrun.
  do 6 run_inv Hrun.
  run_inv Hrun. rename a5 into visible.
  run_inv Hrun. rename a5 into n.
  case_decide; [by run_inv Hrun|].
  run_inv Hrun. rename a5 into scraped.
  run_inv Hrun. rename a5 into df, Hstep8 into Hset.
  injection Hset as Hset <-.
  destruct scraped as [df0|]; [|done]. injection Hset as <-.
  run_inv Hrun. injection Hrun as <-.
  eexists. split; [apply lookup_insert_eq|]. simpl.
  split; [by rewrite last_snoc|].
  intros record Hrecord.
  apply elem_of_dedup_from in Hrecord as [Hrecord _].
  apply list_elem_of_fmap in Hrecord as (r & -> & _). by rewrite last_snoc.
Qed.

(** X19.  The two units of a state write the same file.  The file a unit
    of the instructor target saves is named after its state alone,
    [cits_certified_{state}.csv], not after its second dimension.  A unit
    that returns has put there a frame whose records all end with its own
    value of [Cits_Certified]; so once the units (state, [No]) and
    (state, [Yes]) have both returned, in whatever order, the file holds
    the records of the one that saved last, and none of the other's. *)
Theorem the_two_units_of_a_state_save_to_one_file
    (views views' : Views) (out : string) (fuel fuel' : nat)
    (state first second : string) (w1 w1' w2 w2' : World) :
  Cits.scrape_unit views out fuel (state, first) w1 = (Ret tt, w1') →
  Cits.scrape_unit views' out fuel' (state, second) w2 = (Ret tt, w2') →
  first ≠ second →
  ∃ df1 df2,
    files w1' !! Cits.csv_path out state = Some df1
    ∧ files w2' !! Cits.csv_path out state = Some df2
    ∧ (∀ record, record ∈ rows df1 → last record = Some (VStr first))
    ∧ (∀ record, record ∈ rows df2 → last record = Some (VStr second))
    ∧ (∀ record, record ∈ rows df1 → record ∉ rows df2).
Proof.
  intros Hfirst Hsecond Hne.
  apply cits_scrape_unit_saves in Hfirst as (df1 & Hfile1 & _ & Hrows1).
  apply cits_scrape_unit_saves in Hsecond as (df2 & Hfile2 & _ & Hrows2).
  exists df1, df2. repeat split; try done.
  intros record H1 H2. apply Hrows1 in H1. apply Hrows2 in H2. congruence.
Qed.

(** The theorem at the two units of GOA, each in front of the same report
    of two instructors. *)
Lemma the_two_units_of_a_state_save_to_one_file_witness :
  let w := Sim.world (Sim.report Sim.two_instructors) ∅ in
  ∃ df1 df2,
    files (Cits.scrape_unit (Sim.views 4) "out" 7 ("GOA", "No") w).2
      !! "out/cits_certified_GOA.csv" = Some df1
    ∧ files (Cits.scrape_unit (Sim.views 4) "out" 7 ("GOA", "Yes") w).2
        !! "out/cits_certified_GOA.csv" = Some df2
    ∧ (∀ record, record ∈ rows df1 → last record = Some (VStr "No"))
    ∧ (∀ record, record ∈ rows df2 → last record = Some (VStr "Yes"))
    ∧ (∀ record, record ∈ rows df1 → record ∉ rows df2).
Proof.
  refine (the_two_units_of_a_state_save_to_one_file (Sim.views 4) (Sim.views 4)
            "out" 7 7 "GOA" "No" "Yes"
            (Sim.world (Sim.report Sim.two_instructors) ∅) _
            (Sim.world (Sim.report Sim.two_instructors) ∅) _ _ _ _).
  - vm_compute. reflexivity.
  - vm_compute. reflexivity.
  - discriminate.
Defined.

(** What the unit (GOA, No) leaves in its file. *)
Example the_file_of_a_unit_of_instructors :
  files (Cits.scrape_unit (Sim.views 4) "out" 7 ("GOA", "No")
           (Sim.world (Sim.report Sim.two_instructors) ∅)).2
    !! "out/cits_certified_GOA.csv"
  = Some (mkDataFrame (cits_columns ++ [VStr "Cits_Certified"])
            [[VStr "GOA"; VStr "NORTH GOA"; VStr "ITI Panaji"; VStr "Govt";
              VInt 4; VInt 10; VInt 7; VInt 3; VFloat "30.0"; VStr "No"];
             [VStr "GOA"; VStr "SOUTH GOA"; VStr "ITI Margao"; VStr "Govt";
              VInt 10; VInt 10; VInt 7; VInt 3; VFloat "30.0"; VStr "No"]]).
Proof. vm_compute. reflexivity. Qed.

(** ** The scroll regions of the filters *)

(** No request fails from [w] on during [n] requests. *)
Lemma next_fault_None b t n :
  next_fault b t n = None ↔ ∀ t', t ≤ t' < t + n → fault (b t') = None.
Proof.
  revert t. induction n as [|n IH]; intros t; simpl.
  - split; [intros _ t' ?; lia|done].
  - destruct (fault (b t)) as [e|] eqn:Hfault.
    + split; [done|]. intros Hall. rewrite Hall in Hfault by lia. done.
    + rewrite IH. split.
      * intros Hall t' Ht'. destruct (decide (t' = t)) as [->|]; [done|].
        apply Hall. lia.
      * intros Hall t' Ht'. apply Hall. lia.
Qed.

Lemma clock_set_clock n w : clock (set_clock n w) = n.
Proof. reflexivity. Qed.

Lemma browser_set_clock n w : browser (set_clock n w) = browser w.
Proof. reflexivity. Qed.

Lemma set_clock_set_clock n m w : set_clock n (set_clock m w) = set_clock n w.
Proof. reflexivity. Qed.

Lemma three_requests w :
  (∀ t, clock w ≤ t < clock w + 3 → fault (browser w t) = None) →
  (_ ← interact; _ ← interact; _ ← interact; mret tt) w
  = (Ret tt, set_clock (clock w + 3) w).
Proof.
  intros Hok.
  rewrite interact_bind, Hok by lia.
  rewrite interact_bind. simpl clock. simpl browser. rewrite Hok by lia.
  rewrite interact_bind. simpl clock. simpl browser. rewrite Hok by lia.
  unfold mret, M_ret. f_equal. unfold set_clock. simpl. f_equal. lia.
Qed.

Lemma for_each_clicks {A} (l : list A) w :
  (∀ t, clock w ≤ t < clock w + 3 * length l → fault (browser w t) = None) →
  for_each l (λ _, _ ← interact; _ ← interact; _ ← interact; mret tt) w
  = (Ret tt, set_clock (clock w + 3 * length l) w).
Proof.
  revert w. induction l as [|x l IH]; intros w Hok.
  - simpl. by rewrite Nat.add_0_r, set_clock_same.
  - simpl for_each.
    rewrite (bind_ret_run _ _ _ _ _ (three_requests w ltac:(intros t Ht; apply Hok; simpl; lia))).
    rewrite IH.
    + f_equal. unfold set_clock. simpl. f_equal. lia.
    + intros t Ht. simpl in *. apply Hok. lia.
Qed.

Lemma traverse_cons {A B} (f : A → res B) x l :
  traverse f (x :: l) = (y ← f x; ys ← traverse f l; mret (y :: ys)).
Proof. reflexivity. Qed.

Lemma traverse_get_xpath (regions : list element) :
  Forall (λ region, is_Some (node_name (focus region))) regions →
  ∃ paths,
    traverse (λ region, get_xpath (Some region)) regions = Ret paths
    ∧ Forall2 (λ region path, get_xpath (Some region) = Ret path ∧ is_Some path)
        regions paths.
Proof.
  induction 1 as [|region regions Htag _ (paths & Hpaths & Hall)].
  - exists []. split; [done|constructor].
  - destruct (get_xpath_of_a_tag _ Htag) as (path & Hpath).
    exists (Some path :: paths). rewrite traverse_cons, Hpath, Hpaths.
    split; [done|]. constructor; [|done]. split; [done|by eexists].
Qed.

(** X20.  [get_scroll_region] gives paths to the first filters only.  On
    a session that answers, it makes three requests per filter (find the
    dropdown, click it open, click it shut) and one more for the page
    source; the scroll regions found there are given, in order, to the
    names of the filters, and since [zip] stops at the shorter list, with
    fewer scroll regions than filters the last filters get no entry:
    looking one of them up in the result raises [KeyError]. *)
Theorem get_scroll_region_gives_paths_to_the_first_filters
    (views : Views) (dropdown_filters : list (string * option string)) (w : World) :
  let n := length dropdown_filters in
  let regions := scroll_regions views (clock w + 3 * n) in
  (∀ t, clock w ≤ t ≤ clock w + 3 * n → fault (browser w t) = None) →
  Forall (λ region, is_Some (node_name (focus region))) regions →
  NoDup dropdown_filters.*1 →
  ∃ paths,
    Districts.get_scroll_region views dropdown_filters w
      = (Ret (zip dropdown_filters.*1 paths), set_clock (clock w + 3 * n + 1) w)
    ∧ Forall2 (λ region path, get_xpath (Some region) = Ret path ∧ is_Some path)
        (take n regions) paths
    ∧ ∀ i name,
        dropdown_filters.*1 !! i = Some name →
        items_get (zip dropdown_filters.*1 paths) name
        = match paths !! i with
          | Some path => Ret path
          | None => Raise KeyError
          end.
Proof.
  intros n regions Hok Htags Hnd.
  destruct (traverse_get_xpath (take n regions)) as (paths & Hpaths & Hall).
  { by apply Forall_take. }
  subst regions n. exists paths. split; [|split; [done|]].
  - unfold Districts.get_scroll_region.
    rewrite bind_run, for_each_clicks; rewrite length_fmap; [|intros t Ht; apply Hok; lia].
    rewrite bind_run, interact_at_run, clock_set_clock, browser_set_clock.
    rewrite Hok by lia.
    rewrite bind_run. unfold lift at 1. rewrite Hpaths, set_clock_set_clock.
    unfold mret, M_ret. do 2 f_equal. lia.
  - clear Hok Htags Hpaths Hall. revert paths.
    induction dropdown_filters as [|[key value] filters IH]; intros paths i name Hi;
      [done|].
    rewrite fmap_cons in *. apply NoDup_cons in Hnd as [Hkey Hnd].
    destruct paths as [|path paths].
    { by destruct i. }
    unfold items_get. simpl.
    destruct i as [|i]; simpl in Hi.
    + injection Hi as <-. by rewrite decide_True.
    + assert (key ≠ name) as Hne.
      { intros <-. apply Hkey. by eapply list_elem_of_lookup_2. }
      rewrite decide_False by done.
      specialize (IH Hnd paths i name Hi). unfold items_get in IH.
      destruct (list_find _ (zip filters.*1 paths)) as [[j item]|]; done.
Qed.

(** The theorem at a page with two scroll regions for the three filters:
    [DISTRICT_NAME] gets no path. *)
Lemma get_scroll_region_gives_paths_to_the_first_filters_witness :
  ∃ paths,
    Districts.get_scroll_region (Sim.dashboard 2 []) Sim.district_filters
      (Sim.world (Sim.static_table []) ∅)
    = (Ret (zip ["STATE_NAME"; "ACADEMIC_SESSION"; "DISTRICT_NAME"] paths),
       set_clock 10 (Sim.world (Sim.static_table []) ∅))
    ∧ length paths = 2
    ∧ items_get (zip ["STATE_NAME"; "ACADEMIC_SESSION"; "DISTRICT_NAME"] paths)
        "DISTRICT_NAME" = Raise KeyError.
Proof.
  destruct (get_scroll_region_gives_paths_to_the_first_filters
              (Sim.dashboard 2 []) Sim.district_filters (Sim.world (Sim.static_table []) ∅))
    as (paths & Hrun & Hall & Hget).
  - intros t _. reflexivity.
  - repeat constructor; by eexists.
  - apply (bool_decide_unpack _). vm_compute. exact I.
  - exists paths. split; [exact Hrun|].
    apply Forall2_length in Hall. simpl in Hall.
    split; [by rewrite <- Hall|].
    pose proof (Hget 2 "DISTRICT_NAME" eq_refl) as Hmissing.
    rewrite lookup_ge_None_2 in Hmissing by lia. exact Hmissing.
Defined.

(** ** The options of a dropdown *)

#[global] Instance string_le_total : Total string_le.
Proof. intros s1 s2. apply String.leb_total. Qed.

Lemma elem_of_sorted_set l x : x ∈ sorted_set l ↔ x ∈ l.
Proof.
  unfold sorted_set. rewrite merge_sort_Permutation, elem_of_dedup_from.
  split; [by intros [? _]|]. intros Hx. split; [done|apply not_elem_of_nil].
Qed.

Lemma NoDup_sorted_set l : NoDup (sorted_set l).
Proof. unfold sorted_set. rewrite merge_sort_Permutation. apply NoDup_dedup_from. Qed.

Lemma Sorted_sorted_set l : Sorted string_le (sorted_set l).
Proof. apply Sorted_merge_sort, _. Qed.

Lemma elem_of_flatten {A} (xss : list (list A)) x :
  x ∈ flatten xss ↔ ∃ xs, x ∈ xs ∧ xs ∈ xss.
Proof. apply list_elem_of_bind. Qed.

Lemma flatten_app {A} (xss yss : list (list A)) :
  flatten (xss ++ yss) = flatten xss ++ flatten yss.
Proof. apply bind_app. Qed.

Lemma getitem_from_end_Ret {A} (l : list A) k x :
  getitem_from_end l k = Ret x → k ≤ length l.
Proof. unfold getitem_from_end. by case_decide. Qed.

Section later_options.
Context (disk : bool) (allowed : event → Prop).

Lemma later_options_loop views xpaths name fuel retries previous all_options current :
  preserves (later disk allowed)
    (Districts.options_loop views xpaths name fuel retries previous all_options current).
Proof.
  revert retries previous all_options current.
  induction fuel as [|fuel IH]; intros retries previous all_options current; simpl.
  - apply preserves_out_of_fuel, _.
  - case_decide; [|apply preserves_ret, _].
    apply preserves_bind; [apply _|apply preserves_lift, _|]. intros _.
    apply preserves_bind; [apply _|apply later_interact_at|]. intros options.
    apply preserves_bind; [apply _|apply preserves_lift, _|]. intros _.
    apply preserves_bind; [apply _|apply later_interact|]. intros _. apply IH.
Qed.

End later_options.

Lemma options_loop_gathered views xpaths name fuel retries previous all_options current
    w options w' lo :
  Districts.options_loop views xpaths name fuel retries previous all_options current w
    = (Ret options, w') →
  lo ≤ clock w →
  (∀ option, option ∈ flatten all_options →
     option ≠ "Select all"
     ∧ ∃ t text, lo ≤ t < clock w ∧ text ∈ option_texts views t
                 ∧ option ∈ split "010"%char text) →
  0 < retries ∨ options_gathered views lo (clock w) current →
  options_gathered views lo (clock w') options.
Proof.
  revert retries previous all_options current w.
  induction fuel as [|fuel IH];
    intros retries previous all_options current w Hrun Hlo Hall Hcurrent; [done|].
  simpl in Hrun. case_decide as Hretries.
  2:{ injection Hrun as <- <-. destruct Hcurrent as [?|Hcurrent]; [lia|done]. }
  run_inv Hrun. rename w0 into w1, Hstep into Hpath. injection Hpath as _ <-.
  run_inv Hrun. rename a0 into texts, w0 into w2, Hstep into Hread.
  run_inv Hrun. rename a0 into third, w0 into w2', Hstep into Hthird.
  injection Hthird as Hthird <-.
  run_inv Hrun. rename w0 into w3, Hstep into Hscroll.
  rewrite interact_at_run in Hread.
  destruct (fault (browser w (clock w))); [done|]. injection Hread as <- <-.
  pose proof (later_interact false (λ _, True) _ _ _ Hscroll)
    as (_ & _ & _ & _ & _ & Hc3 & _). simpl in Hc3.
  assert (∀ option,
            option ∈ flatten (all_options ++ (option_lines <$> option_texts views (clock w))) →
            option ≠ "Select all"
            ∧ ∃ t text, lo ≤ t < clock w3 ∧ text ∈ option_texts views t
                        ∧ option ∈ split "010"%char text) as Hall'.
  { intros option Hin. rewrite flatten_app, elem_of_app in Hin.
    destruct Hin as [Hin|Hin].
    - destruct (Hall option Hin) as (Hne & t & text & Ht & Htext & Hline).
      split; [done|]. exists t, text. split; [lia|done].
    - apply elem_of_flatten in Hin as (lines & Hin & Hlines).
      apply list_elem_of_fmap in Hlines as (text & -> & Htext).
      apply list_elem_of_filter in Hin as [Hne Hin].
      split; [done|]. exists (clock w), text. split; [lia|done]. }
  eapply IH in Hrun; [exact Hrun|lia|exact Hall'|].
  right. split; [apply Sorted_sorted_set|]. split; [apply NoDup_sorted_set|].
  split; [|split].
  - intros Hin. rewrite elem_of_sorted_set in Hin. by apply Hall' in Hin as [? _].
  - by apply getitem_from_end_Ret in Hthird.
  - intros option Hin. rewrite elem_of_sorted_set in Hin. by apply Hall' in Hin as [_ ?].
Qed.

(** X21.  What [get_all_dropdown_options] returns.  When it returns, the
    list of options is in ascending order, has no option twice and no
    [Select all], has at least three options (every cycle scrolls to the
    third option from the end), and each option is a line of the text of
    an element that one of its reads found in the scroll region. *)
Theorem the_options_returned_are_sorted_distinct_and_at_least_three
    (views : Views) (all_dropdown_xpaths dropdown_filters : list (string * option string))
    (filter_name : string) (fuel : nat) (w w' : World) (options : list string) :
  Districts.get_all_dropdown_options views all_dropdown_xpaths dropdown_filters
    filter_name fuel w = (Ret options, w') →
  Sorted string_le options
  ∧ NoDup options
  ∧ ("Select all" ∉ options)
  ∧ 3 ≤ length options
  ∧ ∀ option, option ∈ options →
      ∃ t text, clock w ≤ t < clock w' ∧ text ∈ option_texts views t
                ∧ option ∈ split "010"%char text.
Proof.
  intros Hrun. unfold Districts.get_all_dropdown_options in Hrun.
  run_inv Hrun. rename w0 into w1, Hstep into Hpath. injection Hpath as _ <-.
  run_inv Hrun. rename w0 into w2, Hstep into Hwait.
  run_inv Hrun. rename w0 into w3, Hstep into Hclick.
  run_inv Hrun. rename a2 into current, w0 into w4, Hstep into Hloop.
  run_inv Hrun. rename w0 into w5, Hstep into Hshut. injection Hrun as <- <-.
  pose proof (later_interact false (λ _, True) _ _ _ Hwait)
    as (_ & _ & _ & _ & _ & Hc1 & _).
  pose proof (later_interact false (λ _, True) _ _ _ Hclick)
    as (_ & _ & _ & _ & _ & Hc2 & _).
  pose proof (later_interact false (λ _, True) _ _ _ Hshut)
    as (_ & _ & _ & _ & _ & Hc4 & _).
  apply (options_loop_gathered _ _ _ _ _ _ _ _ _ _ _ (clock w)) in Hloop.
  - destruct Hloop as (Hsorted & Hnd & Hselect & Hthree & Hfrom).
    repeat split; try done. intros option Hin.
    destruct (Hfrom option Hin) as (t & text & Ht & Hrest).
    exists t, text. split; [lia|done].
  - lia.
  - intros option Hin. by apply elem_of_nil in Hin.
  - left. lia.
Qed.

(** The theorem at a dropdown that lists three districts, not in order,
    one of them twice. *)
Lemma the_options_returned_are_sorted_distinct_and_at_least_three_witness :
  Sorted string_le ["NORTH"; "SOUTH"; "WEST"]
  ∧ NoDup ["NORTH"; "SOUTH"; "WEST"]
  ∧ ("Select all" ∉ ["NORTH"; "SOUTH"; "WEST"])
  ∧ 3 ≤ length ["NORTH"; "SOUTH"; "WEST"]
  ∧ ∀ option, option ∈ ["NORTH"; "SOUTH"; "WEST"] →
      ∃ t text,
        0 ≤ t < 15
        ∧ text ∈ [Sim.listing ["SOUTH"; "NORTH"; "WEST"; "NORTH"]]
        ∧ option ∈ split "010"%char text.
Proof.
  refine (the_options_returned_are_sorted_distinct_and_at_least_three
            (Sim.dashboard 3 [Sim.listing ["SOUTH"; "NORTH"; "WEST"; "NORTH"]])
            Sim.district_filters Sim.district_filters "DISTRICT_NAME" 7
            (Sim.world (Sim.static_table []) ∅)
            (set_clock 15 (Sim.world (Sim.static_table []) ∅))
            ["NORTH"; "SOUTH"; "WEST"] _).
  vm_compute. reflexivity.
Defined.

Lemma two_requests {A} (f : M A) w :
  (∀ t, clock w ≤ t < clock w + 2 → fault (browser w t) = None) →
  (_ ← interact; _ ← interact; f) w = f (set_clock (clock w + 2) w).
Proof.
  intros Hok.
  rewrite interact_bind, Hok by lia.
  rewrite interact_bind, clock_set_clock, browser_set_clock, Hok by lia.
  rewrite set_clock_set_clock. do 2 f_equal. lia.
Qed.

(** X22.  A dropdown with fewer than three options.  Every cycle of
    [get_all_dropdown_options] scrolls to [current_options[-3]].  When the
    first read of the dropdown finds fewer than three distinct options
    (a state with one or two districts), this raises [IndexError] after
    three requests, whatever the fuel; in the worker of
    get_all_districts.py the exception is caught and the state is given
    the empty list of districts. *)
Theorem a_dropdown_of_fewer_than_three_options_raises_IndexError
    (views : Views) (all_dropdown_xpaths dropdown_filters : list (string * option string))
    (filter_name : string) (fuel : nat) (w : World) :
  is_Some (list_find (λ item, item.1 = filter_name) dropdown_filters) →
  is_Some (list_find (λ item, item.1 = filter_name) all_dropdown_xpaths) →
  (∀ t, clock w ≤ t < clock w + 3 → fault (browser w t) = None) →
  length (sorted_set (flatten (option_lines <$> option_texts views (clock w + 2)))) < 3 →
  Districts.get_all_dropdown_options views all_dropdown_xpaths dropdown_filters
    filter_name (S fuel) w
  = (Raise IndexError, set_clock (clock w + 3) w).
Proof.
  intros [[i item] Hfilter] [[j item'] Hpath] Hok Hfew.
  unfold Districts.get_all_dropdown_options, items_get. rewrite Hfilter.
  rewrite lift_bind, two_requests by (intros t Ht; apply Hok; lia).
  rewrite bind_run. simpl Districts.options_loop. unfold items_get. rewrite Hpath.
  rewrite lift_bind, bind_run, interact_at_run, clock_set_clock, browser_set_clock.
  rewrite Hok by lia.
  unfold getitem_from_end.
  destruct (decide (3 ≤ _)) as [Hthree|_]; [lia|].
  rewrite bind_run. unfold lift. rewrite set_clock_set_clock.
  do 2 f_equal. lia.
Qed.

(** The theorem at a dropdown that shows two districts. *)
Lemma a_dropdown_of_fewer_than_three_options_raises_IndexError_witness :
  Districts.get_all_dropdown_options
    (Sim.dashboard 3 [Sim.listing ["NORTH GOA"; "SOUTH GOA"]])
    Sim.district_filters Sim.district_filters "DISTRICT_NAME" 1 (Sim.world (Sim.static_table []) ∅)
  = (Raise IndexError, set_clock 3 (Sim.world (Sim.static_table []) ∅)).
Proof.
  refine (a_dropdown_of_fewer_than_three_options_raises_IndexError
            (Sim.dashboard 3 [Sim.listing ["NORTH GOA"; "SOUTH GOA"]])
            Sim.district_filters Sim.district_filters "DISTRICT_NAME" 0
            (Sim.world (Sim.static_table []) ∅) _ _ _ _).
  - by eexists.
  - by eexists.
  - intros t _. reflexivity.
  - vm_compute. lia.
Defined.

(** The worker of get_all_districts.py in front of that dropdown: the
    state gets no district. *)
Example the_districts_of_a_state_with_two_districts :
  (Districts.scrape_state
     (Sim.dashboard 3 [Sim.listing ["NORTH GOA"; "SOUTH GOA"]])
     7 2022 "GOA" (Sim.world (Sim.static_table []) ∅)).1
  = Ret ("GOA", []).
Proof. vm_compute. reflexivity. Qed.

Lemma dedup_from_grow {A} `{EqDecision A} (l new : list A) :
  (∀ x, x ∈ new → x ∈ l) → dedup_from [] (l ++ new) = dedup_from [] l.
Proof.
  intros Hin. rewrite dedup_from_app, app_nil_r, (dedup_from_all_seen l new) by done.
  by rewrite app_nil_r.
Qed.

Lemma elem_of_dedup_nil {A} `{EqDecision A} (l : list A) x :
  x ∈ dedup_from [] l ↔ x ∈ l.
Proof.
  rewrite elem_of_dedup_from. split; [by intros [? _]|].
  intros Hx. split; [done|apply not_elem_of_nil].
Qed.

Lemma getitem_from_end_ok {A} (l : list A) k :
  0 < k ≤ length l → ∃ x, getitem_from_end l k = Ret x.
Proof.
  intros Hk. unfold getitem_from_end, getitem. rewrite decide_True by lia.
  destruct (lookup_lt_is_Some_2 l (length l - k)) as [x ->]; [lia|]. eauto.
Qed.

(** One cycle of the loop in front of a dropdown that shows [texts], once
    everything on show has been gathered. *)
Lemma options_loop_cycle_static views xpaths name fuel retries all_options current
    texts w :
  0 < retries →
  is_Some (list_find (λ item, item.1 = name) xpaths) →
  fault (browser w (clock w)) = None →
  fault (browser w (S (clock w))) = None →
  option_texts views (clock w) = texts →
  3 ≤ length (sorted_set (flatten (option_lines <$> texts))) →
  dedup_from [] (flatten all_options)
    = dedup_from [] (flatten (option_lines <$> texts)) →
  Districts.options_loop views xpaths name (S fuel) retries
    (length (sorted_set (flatten (option_lines <$> texts)))) all_options current w
  = Districts.options_loop views xpaths name fuel (retries - 1)
      (length (sorted_set (flatten (option_lines <$> texts))))
      (all_options ++ (option_lines <$> texts))
      (sorted_set (flatten (option_lines <$> texts)))
      (set_clock (clock w + 2) w).
Proof.
  intros Hretries [[j item] Hpath] Hok Hok' Htexts Hthree Hall.
  simpl Districts.options_loop. rewrite decide_True by done.
  unfold items_get. rewrite Hpath, lift_bind.
  rewrite bind_run, interact_at_run, Hok, Htexts.
  assert (sorted_set (flatten (all_options ++ (option_lines <$> texts)))
          = sorted_set (flatten (option_lines <$> texts))) as ->.
  { unfold sorted_set. f_equal. rewrite flatten_app, dedup_from_grow; [done|].
    intros x Hx. apply elem_of_dedup_nil. rewrite Hall. by apply elem_of_dedup_nil. }
  rewrite decide_True by done.
  destruct (getitem_from_end_ok (sorted_set (flatten (option_lines <$> texts))) 3)
    as [third ->]; [lia|].
  rewrite lift_bind, interact_bind, clock_set_clock, browser_set_clock, Hok'.
  rewrite set_clock_set_clock. do 2 f_equal. lia.
Qed.

Lemma options_loop_static views xpaths name fuel retries all_options texts w :
  is_Some (list_find (λ item, item.1 = name) xpaths) →
  (∀ t, clock w ≤ t → fault (browser w t) = None ∧ option_texts views t = texts) →
  3 ≤ length (sorted_set (flatten (option_lines <$> texts))) →
  dedup_from [] (flatten all_options)
    = dedup_from [] (flatten (option_lines <$> texts)) →
  retries < fuel →
  Districts.options_loop views xpaths name fuel retries
    (length (sorted_set (flatten (option_lines <$> texts)))) all_options
    (sorted_set (flatten (option_lines <$> texts))) w
  = (Ret (sorted_set (flatten (option_lines <$> texts))),
     set_clock (clock w + 2 * retries) w).
Proof.
  intros Hpath Hstatic Hthree. revert fuel all_options w Hstatic.
  induction retries as [|retries IH]; intros fuel all_options w Hstatic Hall Hfuel.
  - destruct fuel as [|fuel]; [lia|]. simpl.
    by rewrite Nat.add_0_r, set_clock_same.
  - destruct fuel as [|fuel]; [lia|].
    rewrite (options_loop_cycle_static _ _ _ _ _ _ _ texts); try done; try lia.
    + replace (S retries - 1) with retries by lia. rewrite IH.
      * rewrite set_clock_set_clock, clock_set_clock. do 2 f_equal. lia.
      * intros t Ht. apply Hstatic. simpl in Ht. lia.
      * rewrite flatten_app, dedup_from_grow; [done|].
        intros x Hx. apply elem_of_dedup_nil. rewrite Hall. by apply elem_of_dedup_nil.
      * lia.
    + by apply Hstatic.
    + apply Hstatic. lia.
    + by apply Hstatic.
Qed.

(** X23.  The options of a static dropdown.  In front of a dropdown that
    goes on showing the same texts, with at least three distinct options
    among their lines, [get_all_dropdown_options] returns these options,
    each once and in ascending order, without [Select all]: the first
    cycle gathers them, the next five find nothing new and use up the
    five retries.  It makes fifteen requests (two to open the dropdown,
    two per cycle, one to shut it). *)
Theorem a_static_dropdown_yields_its_options
    (views : Views) (all_dropdown_xpaths dropdown_filters : list (string * option string))
    (filter_name : string) (texts : list string) (fuel : nat) (w : World) :
  is_Some (list_find (λ item, item.1 = filter_name) dropdown_filters) →
  is_Some (list_find (λ item, item.1 = filter_name) all_dropdown_xpaths) →
  (∀ t, clock w ≤ t → fault (browser w t) = None ∧ option_texts views t = texts) →
  3 ≤ length (sorted_set (flatten (option_lines <$> texts))) →
  6 < fuel →
  Districts.get_all_dropdown_options views all_dropdown_xpaths dropdown_filters
    filter_name fuel w
  = (Ret (sorted_set (flatten (option_lines <$> texts))), set_clock (clock w + 15) w).
Proof.
  intros [[i item] Hfilter] Hpath Hstatic Hthree Hfuel.
  unfold Districts.get_all_dropdown_options, items_get. rewrite Hfilter.
  rewrite lift_bind, two_requests by (intros t Ht; apply Hstatic; lia).
  destruct fuel as [|fuel]; [lia|]. rewrite bind_run.
  assert (Districts.options_loop views all_dropdown_xpaths filter_name (S fuel) 5 0 [] []
            (set_clock (clock w + 2) w)
          = (Ret (sorted_set (flatten (option_lines <$> texts))),
             set_clock (clock w + 14) w)) as ->.
  { destruct Hpath as [[j item'] Hpath].
    simpl Districts.options_loop. unfold items_get. rewrite Hpath, lift_bind.
    rewrite bind_run, interact_at_run, !clock_set_clock, !browser_set_clock.
    destruct (Hstatic (clock w + 2)) as [-> ->]; [lia|].
    destruct (decide (_ = 0)) as [Hzero|_]; [rewrite Hzero in Hthree; lia|].
    destruct (getitem_from_end_ok (sorted_set (flatten (option_lines <$> texts))) 3)
      as [third ->]; [lia|].
    rewrite lift_bind, interact_bind, !clock_set_clock, !browser_set_clock.
    destruct (Hstatic (S (clock w + 2))) as [-> _]; [lia|].
    rewrite set_clock_set_clock, options_loop_static; try done; try lia.
    - rewrite !clock_set_clock, !set_clock_set_clock. do 2 f_equal. lia.
    - intros t Ht. apply Hstatic. simpl in Ht. lia. }
  rewrite interact_bind, !clock_set_clock, !browser_set_clock.
  destruct (Hstatic (clock w + 14)) as [-> _]; [lia|].
  rewrite set_clock_set_clock. unfold mret, M_ret. do 2 f_equal. lia.
Qed.

(** The theorem at a dropdown that lists three districts, not in order,
    one of them twice. *)
Lemma a_static_dropdown_yields_its_options_witness :
  Districts.get_all_dropdown_options
    (Sim.dashboard 3 [Sim.listing ["SOUTH"; "NORTH"; "WEST"; "NORTH"]])
    Sim.district_filters Sim.district_filters "DISTRICT_NAME" 7 (Sim.world (Sim.static_table []) ∅)
  = (Ret ["NORTH"; "SOUTH"; "WEST"], set_clock 15 (Sim.world (Sim.static_table []) ∅)).
Proof.
  refine (a_static_dropdown_yields_its_options
            (Sim.dashboard 3 [Sim.listing ["SOUTH"; "NORTH"; "WEST"; "NORTH"]])
            Sim.district_filters Sim.district_filters "DISTRICT_NAME"
            [Sim.listing ["SOUTH"; "NORTH"; "WEST"; "NORTH"]] 7
            (Sim.world (Sim.static_table []) ∅) _ _ _ _ _).
  - by eexists.
  - by eexists.
  - intros t _. split; reflexivity.
  - vm_compute. lia.
  - lia.
Defined.

(** ** The dictionary of districts *)

Lemma items_update_keys {V} (d : list (string * V)) k v :
  (items_update d k v).*1 = if decide (k ∈ d.*1) then d.*1 else d.*1 ++ [k].
Proof.
  induction d as [|[k' v'] d IH]; [done|]. simpl items_update. simpl fst.
  destruct (decide (k' = k)) as [->|Hne].
  - rewrite !fmap_cons. simpl fst. by rewrite decide_True by (by left).
  - rewrite !fmap_cons. simpl fst. rewrite IH.
    destruct (decide (k ∈ d.*1)) as [Hin|Hout].
    + by rewrite decide_True by (by right).
    + rewrite decide_False; [done|]. rewrite elem_of_cons. intros [?|?]; done.
Qed.

Lemma merge_keys (results merged : list (string * list string)) :
  (foldl (λ merged_data result, items_update merged_data result.1 result.2)
     merged results).*1
  = merged.*1 ++ dedup_from merged.*1 results.*1.
Proof.
  revert merged. induction results as [|[k v] results IH]; intros merged.
  - simpl. by rewrite app_nil_r.
  - simpl foldl. rewrite IH, items_update_keys. rewrite fmap_cons. simpl dedup_from.
    destruct (decide (k ∈ merged.*1)) as [Hin|Hout]; [done|].
    rewrite <- app_assoc. simpl. do 2 f_equal. apply dedup_from_ext.
    intros x. rewrite elem_of_app, !elem_of_cons, elem_of_nil. tauto.
Qed.

Lemma items_get_key {V} (d : list (string * V)) k :
  k ∈ d.*1 → ∃ v, items_get d k = Ret v.
Proof.
  intros Hin. unfold items_get.
  apply list_elem_of_fmap in Hin as ([k' v] & -> & Hin).
  destruct (list_find_elem_of (λ item : string * V, item.1 = k') d (k', v))
    as [[i item] Hfind]; [done..|].
  simpl. rewrite Hfind. eauto.
Qed.

Lemma merge_distinct (results merged : list (string * list string)) :
  (∀ k, k ∈ results.*1 → k ∉ merged.*1) → NoDup results.*1 →
  foldl (λ merged_data result, items_update merged_data result.1 result.2)
    merged results
  = merged ++ results.
Proof.
  revert merged. induction results as [|[k v] results IH]; intros merged Hfresh Hnd.
  - simpl. by rewrite app_nil_r.
  - rewrite fmap_cons in *. apply NoDup_cons in Hnd as [Hk Hnd]. simpl foldl.
    assert (items_update merged k v = merged ++ [(k, v)]) as ->.
    { assert (k ∉ merged.*1) as Hout by (apply Hfresh; by left).
      clear -Hout. induction merged as [|[k' v'] merged IH]; [done|].
      simpl in *. rewrite not_elem_of_cons in Hout. destruct Hout as [Hne Hout].
      rewrite decide_False by done. by rewrite IH. }
    rewrite IH, <- app_assoc; [done| |done].
    intros k' Hin. rewrite fmap_app, elem_of_app. simpl.
    rewrite elem_of_cons, elem_of_nil. intros [Hm|[->|[]]]; [|done].
    by apply (Hfresh k'); [right|].
Qed.

Lemma scrape_state_names_its_state views fuel year state w result w' :
  Districts.scrape_state views fuel year state w = (Ret result, w') →
  result.1 = state.
Proof.
  unfold Districts.scrape_state, try_except.
  match goal with |- context [match ?body w with _ => _ end] =>
    destruct (body w) as [[r|e|] w1] eqn:Hbody end.
  - intros [= <- <-]. do 9 run_inv Hbody. by injection Hbody as <-.
  - unfold any_Exception. rewrite bind_run, emit_run. by intros [= <- <-].
  - done.
Qed.

Lemma scrape_state_never_raises views fuel year state w e :
  (Districts.scrape_state views fuel year state w).1 ≠ Raise e.
Proof.
  unfold Districts.scrape_state, try_except.
  match goal with |- context [match ?body w with _ => _ end] =>
    destruct (body w) as [[r|e'|] w1] end; done.
Qed.

(** X24.  The dictionary of districts has one entry per state.  A worker
    of get_all_districts.py never raises out of its [try] statement: it
    returns a dictionary whose one key is its state, with the empty list
    after any exception.  Merged in the order of the pool, the results of
    the workers give a dictionary whose keys are the states handed to the
    pool, each once, in the order of their first occurrence, so that
    every state can be looked up; when no state was listed twice the
    items are the results themselves, in order. *)
Theorem the_dictionary_of_districts_has_one_entry_per_state
    (year : Z) (states : list string) (results : list (string * list string)) :
  Forall2 (λ state result,
             ∃ views fuel w w',
               Districts.scrape_state views fuel year state w = (Ret result, w'))
    states results →
  (∀ views fuel state w e,
     (Districts.scrape_state views fuel year state w).1 ≠ Raise e)
  ∧ (Districts.merge_results results).*1 = dedup_from [] states
  ∧ NoDup (Districts.merge_results results).*1
  ∧ (∀ state, state ∈ states →
       ∃ districts, items_get (Districts.merge_results results) state = Ret districts)
  ∧ (NoDup states → Districts.merge_results results = results).
Proof.
  intros Hworkers.
  assert (results.*1 = states) as Hkeys.
  { induction Hworkers
      as [|state result states results (views & fuel & w & w' & Hrun) _ IH]; [done|].
    rewrite fmap_cons, IH. f_equal. by eapply scrape_state_names_its_state. }
  assert ((Districts.merge_results results).*1 = dedup_from [] states) as Hmerged.
  { unfold Districts.merge_results. by rewrite merge_keys, Hkeys. }
  split; [intros; apply scrape_state_never_raises|].
  split; [done|]. split; [rewrite Hmerged; apply NoDup_dedup_from|]. split.
  - intros state Hin. apply items_get_key. rewrite Hmerged.
    apply elem_of_dedup_from. split; [done|apply not_elem_of_nil].
  - intros Hnd. unfold Districts.merge_results. rewrite merge_distinct; [done| |].
    + intros k _. apply not_elem_of_nil.
    + by rewrite Hkeys.
Qed.

(** The theorem at two states, one with two districts on show, one with
    three: the first is in the dictionary with no district. *)
Lemma the_dictionary_of_districts_has_one_entry_per_state_witness :
  Districts.merge_results [("GOA", []); ("SIKKIM", ["EAST"; "NORTH"; "WEST"])]
  = [("GOA", []); ("SIKKIM", ["EAST"; "NORTH"; "WEST"])].
Proof.
  refine (proj2 (proj2 (proj2 (proj2
            (the_dictionary_of_districts_has_one_entry_per_state 2022
               ["GOA"; "SIKKIM"]
               [("GOA", []); ("SIKKIM", ["EAST"; "NORTH"; "WEST"])] _)))) _).
  - constructor; [|constructor; [|constructor]].
    + exists (Sim.dashboard 3 [Sim.listing ["NORTH GOA"; "SOUTH GOA"]]), 7,
        (Sim.world (Sim.static_table []) ∅). eexists. vm_compute. reflexivity.
    + exists (Sim.dashboard 3 [Sim.listing ["NORTH"; "EAST"; "WEST"]]), 7,
        (Sim.world (Sim.static_table []) ∅). eexists. vm_compute. reflexivity.
  - apply (bool_decide_unpack _). vm_compute. exact I.
Defined.

(** The units scrape_districts.py makes of that dictionary: none for the
    state whose districts could not be listed. *)
Example the_units_of_a_dictionary_with_an_empty_state :
  district_units [2014%Z]
    (Districts.merge_results [("GOA", []); ("SIKKIM", ["EAST"; "NORTH"; "WEST"])])
  = [(2014%Z, "SIKKIM", "EAST"); (2014%Z, "SIKKIM", "NORTH"); (2014%Z, "SIKKIM", "WEST")].
Proof. reflexivity. Qed.

(** ** How the frame grows *)

Lemma drop_duplicates_concat_rows df new_df :
  NoDup (rows df) →
  rows (drop_duplicates (concat df new_df))
  = rows df ++ dedup_from (rows df) (rows new_df).
Proof.
  intros Hnd. simpl. rewrite dedup_from_app, app_nil_r.
  by rewrite (dedup_from_NoDup [] (rows df)) by (done || (intros; apply not_elem_of_nil)).
Qed.

Lemma scrape_loop_grows fuel retries df w df' w' :
  scrape_loop fuel retries df w = (Ret df', w') →
  NoDup (rows df) →
  rows df `prefix_of` rows df'.
Proof.
  revert retries df w. induction fuel as [|fuel IH]; intros retries df w Hrun Hnd; [done|].
  simpl in Hrun. case_decide; [|by injection Hrun as <- <-].
  run_inv Hrun. run_inv Hrun. run_inv Hrun.
  apply IH in Hrun; [|apply NoDup_dedup_from].
  etrans; [|exact Hrun]. rewrite drop_duplicates_concat_rows by done.
  by apply prefix_app_r.
Qed.

(** X25.  The accumulation only appends.  A cycle of the loop of
    [scrape_data] leaves the records gathered so far where they are and
    puts the new ones after them: when the loop ends, the frame it
    started a cycle with is the beginning of the frame it returns, record
    by record.  So the records of the result stand in the order in which
    the reads first showed them, and none once gathered is lost. *)
Theorem the_accumulated_frame_only_grows
    (fuel retries : nat) (df df' : DataFrame) (w w' : World) :
  scrape_loop fuel retries df w = (Ret df', w') →
  NoDup (rows df) →
  rows df `prefix_of` rows df'
  ∧ columns df' = columns df
  ∧ len df ≤ len df'.
Proof.
  intros Hrun Hnd. pose proof (scrape_loop_grows _ _ _ _ _ _ Hrun Hnd) as Hprefix.
  split; [done|]. split; [by eapply scrape_loop_columns|].
  by apply prefix_length.
Qed.

(** The theorem at a frame of one trainee in front of a page that shows
    this one and another. *)
Lemma the_accumulated_frame_only_grows_witness :
  let w := Sim.world (Sim.static_table [Sim.trainee "R1" "Asha"; Sim.trainee "R2" "Binod"]) ∅ in
  scrape_loop 7 5 (mkDataFrame trainee_columns [Sim.record "R1" "Asha"]) w
  = (Ret (mkDataFrame trainee_columns [Sim.record "R1" "Asha"; Sim.record "R2" "Binod"]),
     set_clock 12 w)
  ∧ [Sim.record "R1" "Asha"] `prefix_of` [Sim.record "R1" "Asha"; Sim.record "R2" "Binod"].
Proof.
  assert (scrape_loop 7 5 (mkDataFrame trainee_columns [Sim.record "R1" "Asha"])
            (Sim.world (Sim.static_table [Sim.trainee "R1" "Asha"; Sim.trainee "R2" "Binod"]) ∅)
          = (Ret (mkDataFrame trainee_columns
                    [Sim.record "R1" "Asha"; Sim.record "R2" "Binod"]),
             set_clock 12
               (Sim.world (Sim.static_table [Sim.trainee "R1" "Asha"; Sim.trainee "R2" "Binod"]) ∅)))
    as Hrun by (vm_compute; reflexivity).
  split; [exact Hrun|].
  refine (proj1 (the_accumulated_frame_only_grows _ _ _ _ _ _ Hrun _)).
  apply (bool_decide_unpack _). vm_compute. exact I.
Defined.

(** ** A read of the wrong width *)

(** X26.  A read of the wrong width ends the accumulation.  The frame of
    a read is built over six columns.  When the longest row of a read has
    more or fewer than six cells after its selector cell,
    [pd.DataFrame(new_rows, columns = columns)] raises [ValueError];
    [scrape_data] catches it, logs it and returns [None], without a
    scroll or another read. *)
Theorem a_read_of_the_wrong_width_ends_the_accumulation
    (fuel : nat) (w w1 : World) (new_rows : list (list string)) :
  extract_visible_rows (set_trace (trace w ++ [Scraping]) w) = (Ret (Some new_rows), w1) →
  new_rows ≠ [] →
  width new_rows ≠ 6 →
  scrape_data (S fuel) w
  = (Ret None, set_trace (trace w1 ++ [LogError ValueError]) w1).
Proof.
  intros Hread Hrows Hwidth. rewrite scrape_data_run. simpl scrape_loop.
  rewrite (bind_ret_run _ _ _ _ _ Hread).
  unfold pd_DataFrame. destruct new_rows as [|row new_rows]; [done|].
  rewrite decide_False by done. done.
Qed.

(** The theorem at a grid with seven data cells in a row. *)
Lemma a_read_of_the_wrong_width_ends_the_accumulation_witness :
  scrape_data 1 (Sim.world Sim.wide_grid ∅)
  = (Ret None,
     set_trace [Scraping; LogError ValueError] (set_clock 1 (Sim.world Sim.wide_grid ∅))).
Proof.
  refine (a_read_of_the_wrong_width_ends_the_accumulation 0
            (Sim.world Sim.wide_grid ∅)
            (set_clock 1 (set_trace [Scraping] (Sim.world Sim.wide_grid ∅)))
            [["R1"; "Asha"; "Male"; "Father"; "Mother"; "Fitter"; "-"]] _ _ _).
  - reflexivity.
  - discriminate.
  - vm_compute. lia.
Defined.

(** ** What the progress bar shows *)


(** ** A thousands separator in a column of numbers *)

Lemma digits_value_comma underscores acc after_digit text :
  ","%char ∈ String.list_ascii_of_string text →
  digits_value underscores acc after_digit text = None.
Proof.
  revert acc after_digit.
  induction text as [|c text IH]; intros acc ad Hin; [by apply elem_of_nil in Hin|].
  simpl in *. apply elem_of_cons in Hin as [<-|Hin]; [done|].
  destruct (Ascii.eqb c "_"%char).
  - destruct (underscores && ad); [by apply IH|done].
  - destruct (digit_of c); [by apply IH|done].
Qed.

Lemma parse_integer_comma underscores text :
  ","%char ∈ String.list_ascii_of_string text →
  parse_integer underscores text = Raise ValueError.
Proof.
  intros Hin. apply strip_keeps in Hin; [|done].
  rewrite parse_integer_eq.
  destruct (strip text) as [|c rest]; [by apply elem_of_nil in Hin|].
  repeat case_decide; subst.
  - simpl in Hin. apply elem_of_cons in Hin as [?|Hin]; [done|].
    by rewrite digits_value_comma.
  - simpl in Hin. apply elem_of_cons in Hin as [?|Hin]; [done|].
    by rewrite digits_value_comma.
  - by rewrite digits_value_comma.
Qed.

Lemma numeric_cell_raises v e : numeric_cell v = Raise e → e = ValueError.
Proof.
  destruct v as [s|z|s|]; simpl; try congruence.
  unfold parse_integer. by repeat case_match; intros [=].
Qed.

Lemma numeric_cell_ends v : numeric_cell v ≠ OutOfFuel.
Proof.
  destruct v as [s|z|s|]; simpl; try congruence.
  unfold parse_integer. by repeat case_match.
Qed.

(** [pd.to_numeric] on a column: the numbers of all its cells, or
    [ValueError]. *)
Lemma traverse_numeric_cell cells :
  traverse numeric_cell cells = Raise ValueError
  ∨ ∃ numbers, traverse numeric_cell cells = Ret numbers
               ∧ length numbers = length cells
               ∧ ∀ v, v ∈ cells → ∃ z, numeric_cell v = Ret z.
Proof.
  induction cells as [|v cells IH]; simpl.
  - right. exists []. repeat split. intros v Hv. by apply elem_of_nil in Hv.
  - destruct (numeric_cell v) as [z|e|] eqn:Hv.
    + destruct IH as [-> | (numbers & -> & Hlen & Hall)]; [by left|].
      right. exists (z :: numbers). repeat split; [simpl; lia|].
      intros v' [->|Hin]%elem_of_cons; eauto.
    + left. by rewrite (numeric_cell_raises _ _ Hv).
    + by apply numeric_cell_ends in Hv.
Qed.

(** Writing one column leaves the cells of another as they were. *)
Lemma get_column_put_column_ne name name' cells df i j c c' :
  list_find (λ c, c = VStr name) (columns df) = Some (i, c) →
  list_find (λ c, c = VStr name') (columns df) = Some (j, c') →
  i ≠ j →
  length cells = length (rows df) →
  get_column name' (put_column name cells df) = get_column name' df.
Proof.
  intros Hi Hj Hne Hlen. unfold get_column, put_column.
  rewrite Hi. simpl. rewrite Hj. f_equal.
  revert cells Hlen. induction (rows df) as [|r rs IH]; intros [|v cells] Hlen;
    try done.
  simpl. rewrite list_lookup_insert_ne by done. f_equal. apply IH.
  simpl in Hlen. lia.
Qed.

Lemma to_numeric_column_cases name df :
  name ∈ ["Total_Units"; "Total_Post_Sanctioned"; "Total_Position_Filled"; "Vacancy"] →
  columns df = cits_columns →
  to_numeric_column name df = Raise ValueError
  ∨ ∃ numbers cells,
      get_column name df = Ret cells
      ∧ (∀ v, v ∈ cells → ∃ z, numeric_cell v = Ret z)
      ∧ length numbers = length (rows df)
      ∧ to_numeric_column name df
        = Ret (numbers, put_column name (VInt <$> numbers) df).
Proof.
  intros Hname Hcols. unfold to_numeric_column.
  assert (∃ i c, list_find (λ c, c = VStr name) (columns df) = Some (i, c))
    as (i & c & Hfind).
  { rewrite Hcols. rewrite !elem_of_cons, elem_of_nil in Hname.
    destruct Hname as [-> | [-> | [-> | [-> | []]]]]; by eexists _, _. }
  unfold get_column. rewrite Hfind. simpl.
  destruct (traverse_numeric_cell ((λ r, default VNone (r !! i)) <$> rows df))
    as [-> | (numbers & Hnumbers & Hlen & Hall)]; [by left|].
  right. exists numbers, ((λ r, default VNone (r !! i)) <$> rows df).
  rewrite Hnumbers. rewrite length_fmap in Hlen. done.
Qed.

Lemma columns_put_column name cells df :
  columns (put_column name cells df) = columns df.
Proof. unfold put_column. by repeat case_match. Qed.

(** What a cell that cannot be read does to the conversions, whichever of
    the four columns holds it. *)
Lemma convert_columns_unreadable df name cells v :
  columns df = cits_columns →
  name ∈ ["Total_Units"; "Total_Post_Sanctioned"; "Total_Position_Filled"; "Vacancy"] →
  get_column name df = Ret cells →
  v ∈ cells →
  numeric_cell v = Raise ValueError →
  convert_columns df = Raise ValueError.
Proof.
  intros Hcols Hname Hcells Hv Hbad.
  assert (∀ df', columns df' = cits_columns →
                 get_column name df' = get_column name df →
                 to_numeric_column name df' = Raise ValueError) as Hfails.
  { intros df' Hcols' Hsame.
    destruct (to_numeric_column_cases name df' Hname Hcols')
      as [-> | (numbers & cells' & Hcells' & Hall & _)]; [done|].
    rewrite Hsame, Hcells in Hcells'. injection Hcells' as <-.
    destruct (Hall v Hv) as [z Hz]. congruence. }
  assert (∀ name' df' numbers,
            name' ∈ ["Total_Units"; "Total_Post_Sanctioned";
                     "Total_Position_Filled"; "Vacancy"] →
            name' ≠ name →
            columns df' = cits_columns →
            length numbers = length (rows df') →
            get_column name (put_column name' (VInt <$> numbers) df')
            = get_column name df') as Hkept.
  { intros name' df' numbers Hname' Hne Hcols' Hlen.
    rewrite !elem_of_cons, elem_of_nil in Hname, Hname'.
    destruct Hname as [-> | [-> | [-> | [-> | []]]]];
      destruct Hname' as [-> | [-> | [-> | [-> | []]]]]; try done;
      (eapply get_column_put_column_ne;
       [rewrite Hcols'; reflexivity | rewrite Hcols'; reflexivity | done
       | by rewrite length_fmap]). }
  unfold convert_columns.
  destruct (decide (name = "Total_Units")) as [->|Hne1]; [by rewrite Hfails|].
  destruct (to_numeric_column_cases "Total_Units" df) as
    [-> | (n1 & c1 & _ & _ & Hlen1 & ->)];
    [rewrite !elem_of_cons; tauto | done | done |].
  simpl. set (df1 := put_column "Total_Units" (VInt <$> n1) df).
  assert (columns df1 = cits_columns) as Hcols1
    by (unfold df1; by rewrite columns_put_column).
  assert (get_column name df1 = get_column name df) as Hsame1.
  { apply Hkept; [rewrite !elem_of_cons; tauto|done..]. }
  destruct (decide (name = "Total_Post_Sanctioned")) as [->|Hne2];
    [by rewrite Hfails|].
  destruct (to_numeric_column_cases "Total_Post_Sanctioned" df1) as
    [-> | (n2 & c2 & _ & _ & Hlen2 & ->)];
    [rewrite !elem_of_cons; tauto | done | done |].
  simpl. set (df2 := put_column "Total_Post_Sanctioned" (VInt <$> n2) df1).
  assert (columns df2 = cits_columns) as Hcols2
    by (unfold df2; by rewrite columns_put_column).
  assert (get_column name df2 = get_column name df) as Hsame2.
  { rewrite <- Hsame1. apply Hkept; [rewrite !elem_of_cons; tauto|done..]. }
  destruct (decide (name = "Total_Position_Filled")) as [->|Hne3];
    [by rewrite Hfails|].
  destruct (to_numeric_column_cases "Total_Position_Filled" df2) as
    [-> | (n3 & c3 & _ & _ & Hlen3 & ->)];
    [rewrite !elem_of_cons; tauto | done | done |].
  simpl. set (df3 := put_column "Total_Position_Filled" (VInt <$> n3) df2).
  assert (columns df3 = cits_columns) as Hcols3
    by (unfold df3; by rewrite columns_put_column).
  assert (get_column name df3 = get_column name df) as Hsame3.
  { rewrite <- Hsame2. apply Hkept; [rewrite !elem_of_cons; tauto|done..]. }
  assert (name = "Vacancy") as ->.
  { rewrite !elem_of_cons, elem_of_nil in Hname. tauto. }
  by rewrite Hfails.
Qed.

(** X28.  A thousands separator in a column of numbers.  The instructor
    report writes its numbers as the page shows them.  When a cell of one
    of the four columns [Total_Units], [Total_Post_Sanctioned],
    [Total_Position_Filled], [Vacancy] of the accumulated frame has a
    comma (as in [1,014]), [pd.to_numeric] raises [ValueError]: the
    conversions fail, none of the three tests on the sums is made and no
    file is written; [scrape_data] logs the error and returns [None]
    instead of the frame.  (Commas are removed from the footer row only.) *)
Theorem a_thousands_separator_in_a_column_fails_the_conversion
    (df : DataFrame) (name text state : string) (summations : list string)
    (cells : list value) (w : World) :
  columns df = cits_columns →
  name ∈ ["Total_Units"; "Total_Post_Sanctioned"; "Total_Position_Filled"; "Vacancy"] →
  get_column name df = Ret cells →
  VStr text ∈ cells →
  ","%char ∈ String.list_ascii_of_string text →
  convert_and_check state summations df w = (Raise ValueError, w)
  ∧ ∀ views fuel w0,
      Cits.scrape_loop views fuel 5 (mkDataFrame cits_columns []) []
        (set_trace (trace w0 ++ [Scraping]) w0) = (Ret (df, summations), w) →
      Cits.scrape_data views fuel state w0
      = (Ret None, set_trace (trace w ++ [LogError ValueError]) w).
Proof.
  intros Hcols Hname Hcells Hin Hcomma.
  assert (convert_and_check state summations df w = (Raise ValueError, w)) as Hconv.
  { unfold convert_and_check, lift. rewrite bind_run.
    rewrite (convert_columns_unreadable df name cells (VStr text)); try done.
    simpl. by apply parse_integer_comma. }
  split; [done|].
  intros views fuel w0 Hloop. rewrite cits_scrape_data_run, bind_run, Hloop.
  by rewrite Hconv.
Qed.

(** The theorem at a frame whose [Total_Post_Sanctioned] reads [1,014]. *)
Lemma a_thousands_separator_in_a_column_fails_the_conversion_witness :
  convert_and_check "GOA" ["Total"; ""; ""; "4"; "1,014"; "7"] Sim.large_institute
    (Sim.world (Sim.static_table []) ∅)
  = (Raise ValueError, Sim.world (Sim.static_table []) ∅).
Proof.
  refine (proj1 (a_thousands_separator_in_a_column_fails_the_conversion
                   Sim.large_institute "Total_Post_Sanctioned" "1,014" "GOA"
                   ["Total"; ""; ""; "4"; "1,014"; "7"] [VStr "1,014"]
                   (Sim.world (Sim.static_table []) ∅) _ _ _ _ _)).
  - reflexivity.
  - apply (bool_decide_unpack _). vm_compute. exact I.
  - reflexivity.
  - apply (bool_decide_unpack _). vm_compute. exact I.
  - apply (bool_decide_unpack _). vm_compute. exact I.
Defined.
